(** * GANDLF configuration parser: [parse_version] and [parseConfig]

    A shallow embedding of [GANDLF/parseConfig.py].

    The YAML document is taken as already loaded (the [yaml.load] call of
    line 23) and the installed GANDLF version (the [pkg_resources] call of
    line 28) is an argument.  A document is a tree: a mapping from text keys
    to values, kept as an association list in document order, which is the
    iteration order of the Python [dict]; nothing in it is shared between
    two places.  Text is a [string] with one character per code point below
    256, floats are binary64.  The notices printed on the way are not part
    of the returned value and are left out.

    A run ends in one of four ways ([outcome]): it returns, it leaves through
    [sys.exit] with a message, it dies of an uncaught exception, or it steps
    outside the fragment of Python and NumPy that is modelled here
    ([Beyond]): [str()] of a float or of a container, and
    [np.greater_equal] on anything but scalars and flat sequences of
    numbers.  The built-in conversions follow CPython 3; its recent cap on
    the length of an integer literal is not modelled. *)

From Stdlib Require Import ZArith List String Ascii Bool Lia Floats DecimalString.
Import ListNotations.

Set Warnings "-register-all,-inexact-float".

Local Open Scope string_scope.
Local Open Scope list_scope.
Local Open Scope Z_scope.

(* ================================================================= *)
(** ** Outcomes of a run *)

Inductive exn : Type :=
| KeyError (key : string)
| TypeError
| ValueError
| AttributeError
| OverflowError
| UnboundLocalError (name : string).

Inductive outcome (A : Type) : Type :=
| Ok (a : A)
| Exit (msg : string)
| Raise (e : exn)
| Beyond (what : string).

Arguments Ok {A} a.
Arguments Exit {A} msg.
Arguments Raise {A} e.
Arguments Beyond {A} what.

Definition bind {A B : Type} (m : outcome A) (k : A -> outcome B) : outcome B :=
  match m with
  | Ok a => k a
  | Exit msg => Exit msg
  | Raise e => Raise e
  | Beyond w => Beyond w
  end.

Notation "x <- m ;; k" := (bind m (fun x => k))
  (at level 61, m at next level, right associativity).
Notation "' p <- m ;; k" := (bind m (fun p => k))
  (at level 61, p pattern, m at next level, right associativity).

(* ================================================================= *)
(** ** Values of a loaded document *)

Inductive value : Type :=
| VNone
| VBool (b : bool)
| VInt (z : Z)
| VFloat (f : float)
| VStr (s : string)
| VList (l : list value)
| VDict (d : list (string * value)).

Definition dict : Type := list (string * value).

(** [d[k]] on a mapping: the first binding of [k]. *)
Fixpoint lookup (k : string) (d : dict) : option value :=
  match d with
  | [] => None
  | (k', v) :: rest => if String.eqb k k' then Some v else lookup k rest
  end.

(** [d[k] = v]: an existing key keeps its place, a new one goes last. *)
Fixpoint store (k : string) (v : value) (d : dict) : dict :=
  match d with
  | [] => [(k, v)]
  | (k', v') :: rest =>
      if String.eqb k k' then (k', v) :: rest else (k', v') :: store k v rest
  end.

(** [k in d]. *)
Definition has_key (k : string) (d : dict) : bool :=
  match lookup k d with
  | Some _ => true
  | None => false
  end.

(** [for key in d]: the keys in document order. *)
Definition keys (d : dict) : list string := map fst d.

(** [v[k]] with a text subscript: only a mapping accepts one. *)
Definition getitem (v : value) (k : string) : outcome value :=
  match v with
  | VDict d =>
      match lookup k d with
      | Some x => Ok x
      | None => Raise (KeyError k)
      end
  | _ => Raise TypeError
  end.

(** [v[k] = x] with a text subscript. *)
Definition setitem (v : value) (k : string) (x : value) : outcome value :=
  match v with
  | VDict d => Ok (VDict (store k x d))
  | _ => Raise TypeError
  end.

(** [params[k]] on the document itself. *)
Definition param (params : dict) (k : string) : outcome value :=
  getitem (VDict params) k.

(* ================================================================= *)
(** ** Text *)

Definition code (c : ascii) : Z := Z.of_N (N_of_ascii c).

Definition chars (s : string) : list ascii := list_ascii_of_string s.

(** The blanks [int()] and [float()] skip at both ends: the ASCII blanks of
    [Py_ISSPACE], and the two blanks of Latin-1 above 127. *)
Definition is_space (c : ascii) : bool :=
  let n := code c in
  ((9 <=? n) && (n <=? 13)) || (n =? 32) || (n =? 133) || (n =? 160).

Definition digit_of (c : ascii) : option Z :=
  let n := code c in
  if (48 <=? n) && (n <=? 57) then Some (n - 48) else None.

Definition is_underscore (c : ascii) : bool := code c =? 95.

Fixpoint lstrip (cs : list ascii) : list ascii :=
  match cs with
  | c :: rest => if is_space c then lstrip rest else cs
  | [] => []
  end.

Definition strip (cs : list ascii) : list ascii :=
  rev (lstrip (rev (lstrip cs))).

(** The digits of a decimal literal after its first digit: each further
    digit may be preceded by one underscore. *)
Fixpoint more_digits (acc : Z) (cs : list ascii) : option Z :=
  match cs with
  | [] => Some acc
  | c :: rest =>
      if is_underscore c then
        match rest with
        | d :: rest' =>
            match digit_of d with
            | Some v => more_digits (10 * acc + v) rest'
            | None => None
            end
        | [] => None
        end
      else
        match digit_of c with
        | Some v => more_digits (10 * acc + v) rest
        | None => None
        end
  end.

Definition digits (cs : list ascii) : option Z :=
  match cs with
  | c :: rest =>
      match digit_of c with
      | Some v => more_digits v rest
      | None => None
      end
  | [] => None
  end.

(** The sign a literal may start with. *)
Definition take_sign (cs : list ascii) : bool * list ascii :=
  match cs with
  | c :: rest =>
      if code c =? 45 then (true, rest)
      else if code c =? 43 then (false, rest)
      else (false, cs)
  | [] => (false, [])
  end.

(** [int(s)] for text, base ten. *)
Definition int_of_text (s : string) : outcome Z :=
  let '(neg, body) := take_sign (strip (chars s)) in
  match digits body with
  | Some n => Ok (if neg then - n else n)
  | None => Raise ValueError
  end.

(** [s.split(sep)] for a one-character separator. *)
Fixpoint split (sep : ascii) (s : string) : list string :=
  match s with
  | EmptyString => [EmptyString]
  | String c rest =>
      if Ascii.eqb c sep then EmptyString :: split sep rest
      else
        match split sep rest with
        | w :: ws => String c w :: ws
        | [] => [String c EmptyString]
        end
  end.

(** [''.join(parts)]. *)
Definition join (parts : list string) : string := String.concat "" parts.

(** [needle in s] for two texts. *)
Fixpoint is_substring (needle s : string) : bool :=
  String.prefix needle s ||
  match s with
  | EmptyString => false
  | String _ rest => is_substring needle rest
  end.

(** [s.replace(c, '')] for a one-character [c]. *)
Fixpoint remove_char (c : ascii) (s : string) : string :=
  match s with
  | EmptyString => EmptyString
  | String x rest =>
      if Ascii.eqb x c then remove_char c rest else String x (remove_char c rest)
  end.

Definition text_of_Z (z : Z) : string := NilZero.string_of_int (Z.to_int z).

(* ================================================================= *)
(** ** Floats: binary64, as the kernel's primitive floats *)

Definition float_of_spec (x : spec_float) : float := SF2Prim x.

(** [float(z)] for an integer: rounded to nearest even, refused when the
    rounding overflows. *)
Definition float_of_Z (z : Z) : outcome float :=
  match binary_normalize prec emax z 0 false with
  | S754_infinity _ => Raise OverflowError
  | x => Ok (float_of_spec x)
  end.

(** [int(f)] for a float: towards zero. *)
Definition int_of_float (f : float) : outcome Z :=
  match Prim2SF f with
  | S754_nan => Raise ValueError
  | S754_infinity _ => Raise OverflowError
  | S754_zero _ => Ok 0
  | S754_finite s m e =>
      let a := if 0 <=? e then Zpos m * 2 ^ e else Zpos m / 2 ^ (- e) in
      Ok (if s then - a else a)
  end.

(** The float nearest to [(-1)^neg * m * 10^e], ties to even.  A magnitude
    that is out of range either way is settled without the power of ten. *)
Definition float_of_decimal (neg : bool) (m : Z) (e : Z) : float :=
  float_of_spec
    match m with
    | Zpos p =>
        if 400 <? e then S754_infinity neg
        else if e + Z.log2 m <? -1100 then S754_zero neg
        else if 0 <=? e then binary_round prec emax neg (Pos.mul p (Z.to_pos (10 ^ e))) 0
        else
          let '(q, e', l) := SFdiv_core_binary prec emax m 0 (10 ^ (- e)) 0 in
          binary_round_aux prec emax neg q e' l
    | _ => S754_zero neg
    end.

(** Drops the underscores of a numeric literal; each must stand between two
    digits. *)
Fixpoint drop_underscores (prev_digit : bool) (cs : list ascii) : option (list ascii) :=
  match cs with
  | [] => Some []
  | c :: rest =>
      if is_underscore c then
        match rest with
        | d :: _ =>
            match digit_of d with
            | Some _ => if prev_digit then drop_underscores false rest else None
            | None => None
            end
        | [] => None
        end
      else
        match drop_underscores (match digit_of c with Some _ => true | None => false end) rest with
        | Some out => Some (c :: out)
        | None => None
        end
  end.

(** A run of digits: its value continued from [acc], how many there were,
    and what follows. *)
Fixpoint digit_run (acc : Z) (n : Z) (cs : list ascii) : Z * Z * list ascii :=
  match cs with
  | c :: rest =>
      match digit_of c with
      | Some v => digit_run (10 * acc + v) (n + 1) rest
      | None => (acc, n, cs)
      end
  | [] => (acc, n, [])
  end.

Definition lower (c : ascii) : ascii :=
  let n := code c in
  if (65 <=? n) && (n <=? 90) then ascii_of_N (Z.to_N (n + 32)) else c.

Definition lower_text (cs : list ascii) : string :=
  string_of_list_ascii (map lower cs).

(** The exponent part of a float literal, when one follows: [e] or [E], a
    sign, digits. *)
Definition exponent_part (cs : list ascii) : option Z :=
  match cs with
  | [] => Some 0
  | c :: rest =>
      if code (lower c) =? 101 then
        let '(neg, body) := take_sign rest in
        match digit_run 0 0 body with
        | (x, n, []) => if 0 <? n then Some (if neg then - x else x) else None
        | _ => None
        end
      else None
  end.

(** [float(s)] for text. *)
Definition float_of_text (s : string) : outcome float :=
  match drop_underscores false (strip (chars s)) with
  | None => Raise ValueError
  | Some cs =>
      let '(neg, body) := take_sign cs in
      let word := lower_text body in
      if String.eqb word "inf" || String.eqb word "infinity"
      then Ok (if neg then neg_infinity else infinity)
      else if String.eqb word "nan" then Ok nan
      else
        let '(whole, n1, rest) := digit_run 0 0 body in
        let '(m, n2, rest) :=
          match rest with
          | c :: rest' =>
              if code c =? 46 then digit_run whole 0 rest' else (whole, 0, rest)
          | [] => (whole, 0, [])
          end in
        if 0 <? n1 + n2 then
          match exponent_part rest with
          | Some x => Ok (float_of_decimal neg m (x - n2))
          | None => Raise ValueError
          end
        else Raise ValueError
  end.

(* ================================================================= *)
(** ** Built-in operations on values *)

(** Truth value of [v], as [not v] and [if v] test it. *)
Definition truthy (v : value) : bool :=
  match v with
  | VNone => false
  | VBool b => b
  | VInt z => negb (z =? 0)
  | VFloat f => negb (PrimFloat.eqb f 0%float)
  | VStr s => negb (String.eqb s "")
  | VList l => match l with [] => false | _ => true end
  | VDict d => match d with [] => false | _ => true end
  end.

(** [len(v)]. *)
Definition py_len (v : value) : outcome Z :=
  match v with
  | VStr s => Ok (Z.of_nat (String.length s))
  | VList l => Ok (Z.of_nat (List.length l))
  | VDict d => Ok (Z.of_nat (List.length d))
  | _ => Raise TypeError
  end.

(** [isinstance(v, dict)]. *)
Definition is_dict (v : value) : bool :=
  match v with
  | VDict _ => true
  | _ => false
  end.

(** [v == None]. *)
Definition is_none (v : value) : bool :=
  match v with
  | VNone => true
  | _ => false
  end.

(** [v == s] for a text literal [s]. *)
Definition eq_text (v : value) (s : string) : bool :=
  match v with
  | VStr t => String.eqb t s
  | _ => false
  end.

(** [s in v] for a text literal [s]: a key of a mapping, an element of a
    sequence, a part of a text. *)
Definition contains (s : string) (v : value) : outcome bool :=
  match v with
  | VDict d => Ok (has_key s d)
  | VList l => Ok (existsb (fun x => eq_text x s) l)
  | VStr t => Ok (is_substring s t)
  | _ => Raise TypeError
  end.

(** [int(v)]. *)
Definition py_int (v : value) : outcome Z :=
  match v with
  | VInt z => Ok z
  | VBool b => Ok (if b then 1 else 0)
  | VFloat f => int_of_float f
  | VStr s => int_of_text s
  | _ => Raise TypeError
  end.

(** [float(v)]. *)
Definition py_float (v : value) : outcome float :=
  match v with
  | VFloat f => Ok f
  | VInt z => float_of_Z z
  | VBool b => Ok (if b then 1%float else 0%float)
  | VStr s => float_of_text s
  | _ => Raise TypeError
  end.

(** [bool(v)]. *)
Definition py_bool (v : value) : outcome bool := Ok (truthy v).

(** [str(v)].  The text of a float or of a container is not modelled. *)
Definition py_str (v : value) : outcome string :=
  match v with
  | VStr s => Ok s
  | VInt z => Ok (text_of_Z z)
  | VBool b => Ok (if b then "True" else "False")
  | VNone => Ok "None"
  | _ => Beyond "str() of a float or of a container"
  end.

(** [v.replace(c, '')]: only text has the method. *)
Definition replace_char (v : value) (c : ascii) : outcome value :=
  match v with
  | VStr s => Ok (VStr (remove_char c s))
  | _ => Raise AttributeError
  end.

(* ================================================================= *)
(** ** NumPy: [np.greater_equal(a, b).all()]

    The fragment modelled: an operand is a scalar or a flat sequence of
    scalars, a scalar being [None], a boolean, an integer of the int64 range
    or a float.  Anything else (text, mappings, nested or ragged sequences,
    larger integers) is [Beyond]. *)

Inductive cell : Type :=
| CNone
| CBool (b : bool)
| CInt (z : Z)
| CFloat (f : float).

(** The element types [np.asarray] settles on, in the order of promotion. *)
Inductive dtype : Type := DBool | DInt | DFloat | DObject.

Definition int64 (z : Z) : bool := (- 2 ^ 63 <=? z) && (z <? 2 ^ 63).

Definition cell_of (v : value) : option cell :=
  match v with
  | VNone => Some CNone
  | VBool b => Some (CBool b)
  | VInt z => if int64 z then Some (CInt z) else None
  | VFloat f => Some (CFloat f)
  | _ => None
  end.

Fixpoint cells_of (l : list value) : option (list cell) :=
  match l with
  | [] => Some []
  | v :: rest =>
      match cell_of v, cells_of rest with
      | Some c, Some cs => Some (c :: cs)
      | _, _ => None
      end
  end.

(** An operand as an array, flattened: a scalar broadcasts as a sequence of
    one element does. *)
Definition asarray (v : value) : option (list cell) :=
  match v with
  | VList l => cells_of l
  | _ => option_map (fun c => [c]) (cell_of v)
  end.

Definition dtype_rank (t : dtype) : Z :=
  match t with
  | DBool => 0
  | DInt => 1
  | DFloat => 2
  | DObject => 3
  end.

Definition promote (t u : dtype) : dtype :=
  if dtype_rank t <? dtype_rank u then u else t.

Definition cell_dtype (c : cell) : dtype :=
  match c with
  | CNone => DObject
  | CBool _ => DBool
  | CInt _ => DInt
  | CFloat _ => DFloat
  end.

(** The element type of an array; an empty sequence is an array of floats. *)
Definition array_dtype (cs : list cell) : dtype :=
  match cs with
  | [] => DFloat
  | c :: rest => fold_left (fun t x => promote t (cell_dtype x)) rest (cell_dtype c)
  end.

(** The pairs broadcasting compares, or nothing when the shapes clash. *)
Definition broadcast (ca cb : list cell) : option (list (cell * cell)) :=
  let na := List.length ca in
  let nb := List.length cb in
  if Nat.eqb na nb then Some (combine ca cb)
  else if Nat.eqb na 1 then Some (combine (repeat (hd CNone ca) nb) cb)
  else if Nat.eqb nb 1 then Some (combine ca (repeat (hd CNone cb) na))
  else None.

Definition cell_int (c : cell) : Z :=
  match c with
  | CInt z => z
  | CBool true => 1
  | _ => 0
  end.

Definition cell_float (c : cell) : float :=
  match c with
  | CFloat f => f
  | CInt z => float_of_spec (binary_normalize prec emax z 0 false)
  | CBool true => 1%float
  | _ => 0%float
  end.

(** [x >= y] on two elements of arrays of type [t]. *)
Definition cell_ge (t : dtype) (x y : cell) : bool :=
  match t with
  | DBool | DInt => cell_int y <=? cell_int x
  | _ => PrimFloat.leb (cell_float y) (cell_float x)
  end.

Definition np_greater_equal_all (a b : value) : outcome bool :=
  match asarray a, asarray b with
  | Some xa, Some xb =>
      match broadcast xa xb with
      | None => Raise ValueError
      | Some pairs =>
          match promote (array_dtype xa) (array_dtype xb), pairs with
          | DObject, _ :: _ => Raise TypeError
          | t, _ => Ok (forallb (fun p => cell_ge t (fst p) (snd p)) pairs)
          end
      end
  | _, _ => Beyond "np.greater_equal outside scalars and flat sequences of numbers"
  end.

(* ================================================================= *)
(** ** [parse_version] (lines 9-16) *)

(** The components [parse_version] keeps: the last one goes when there are
    more than three. *)
Definition kept_components (s : string) : list string :=
  let version_string_split := split "." s in
  if 3 <? Z.of_nat (List.length version_string_split)
  then removelast version_string_split
  else version_string_split.

Definition parse_version (version_string : value) : outcome Z :=
  match version_string with
  | VStr s => int_of_text (join (kept_components s))
  | _ => Raise AttributeError
  end.




(* ================================================================= *)
(** ** [parseConfig] (lines 18-244), rule by rule *)

(** *** The messages of [sys.exit] *)

Definition msg_version : string :=
  "The 'version' key needs to be defined in config with 'minimum' and 'maximum' fields to determine the compatibility of configuration with code base".

Definition msg_incompatible (gandlf_version : string) : string :=
  String.append "Incompatible version of GANDLF detected ("
    (String.append gandlf_version ")").

Definition msg_class_list : string :=
  "The 'class_list' parameter needs to be present in the configuration file".

Definition msg_dimension : string :=
  "The 'dimension' parameter to be defined, which should be 2 or 3".

Definition msg_patch_size : string :=
  "The 'patch_size' parameter needs to be present in the configuration file".

Definition msg_resize : string :=
  "The 'resize' parameter needs to be greater than or equal to 'patch_size'".

Definition msg_threshold_clip : string :=
  "Use only 'threshold' or 'clip', not both".

Definition msg_model_dict : string :=
  "The 'model' parameter needs to be populated as a dictionary".

Definition msg_model_empty : string :=
  "The 'model' parameter needs to be populated as a dictionary and should have all properties present".

Definition msg_architecture : string :=
  "The 'model' parameter needs 'architecture' key to be defined".

Definition msg_final_layer : string :=
  "The 'model' parameter needs 'final_layer' key to be defined".

Definition msg_kcross_validation : string :=
  "'kcross_validation' is no longer used, please use 'nested_training' instead".

Definition msg_nested_training : string :=
  "The parameter 'nested_training' needs to be defined".

(** *** Assignments below the top level of [params]

    The document is a tree, so an assignment through [params[a]] rebuilds
    the path it goes through; the key [a] keeps its place. *)

(** [params[a][b] = x]. *)
Definition assign2 (params : dict) (a b : string) (x : value) : outcome dict :=
  outer <- param params a ;;
  outer <- setitem outer b x ;;
  Ok (store a outer params).

(** [params[a][b][c] = x]. *)
Definition assign3 (params : dict) (a b c : string) (x : value) : outcome dict :=
  outer <- param params a ;;
  inner <- getitem outer b ;;
  inner <- setitem inner c x ;;
  outer <- setitem outer b inner ;;
  Ok (store a outer params).

(** *** Lines 25-33: the version gate *)

Definition version_gate (gandlf_version : string) (params : dict) : outcome dict :=
  if negb (has_key "version" params) then Exit msg_version
  else
    gandlf_version_int <- parse_version (VStr gandlf_version) ;;
    minimum <- (version <- param params "version" ;; getitem version "minimum") ;;
    min <- parse_version minimum ;;
    maximum <- (version <- param params "version" ;; getitem version "maximum") ;;
    max <- parse_version maximum ;;
    if (min >? gandlf_version_int) || (max <? gandlf_version_int)
    then Exit (msg_incompatible gandlf_version)
    else Ok params.

(** *** Lines 36-37: [class_list] *)

Definition require_class_list (params : dict) : outcome dict :=
  if negb (has_key "class_list" params) then Exit msg_class_list else Ok params.

(** *** Lines 39-40: [dimension] *)

Definition require_dimension (params : dict) : outcome dict :=
  dimension <- param params "dimension" ;;
  if negb (truthy dimension) then Exit msg_dimension else Ok params.

(** *** Lines 42-45: [patch_size], also kept as [psize]

    In Python the two keys hold one object; no later line writes into it. *)

Definition alias_patch_size (params : dict) : outcome dict :=
  if has_key "patch_size" params then
    patch_size <- param params "patch_size" ;;
    Ok (store "psize" patch_size params)
  else Exit msg_patch_size.

(** *** Lines 47-51: [resize] *)

Definition check_resize (params : dict) : outcome dict :=
  if has_key "resize" params then
    resize <- param params "resize" ;;
    psize <- param params "psize" ;;
    all <- np_greater_equal_all resize psize ;;
    if negb all then Exit msg_resize else Ok params
  else Ok (store "resize" VNone params).

(** *** The rule most parameters follow: coerce what is there, or default *)

Definition as_int (v : value) : outcome value := z <- py_int v ;; Ok (VInt z).
Definition as_float (v : value) : outcome value := f <- py_float v ;; Ok (VFloat f).
Definition as_bool (v : value) : outcome value := b <- py_bool v ;; Ok (VBool b).
Definition as_str (v : value) : outcome value := s <- py_str v ;; Ok (VStr s).

Definition coerce_or_default (key : string) (coerce : value -> outcome value)
    (default : value) (params : dict) : outcome dict :=
  x <- (if has_key key params
        then v <- param params key ;; coerce v
        else Ok default) ;;
  Ok (store key x params).

(** *** Lines 54-66: [num_epochs], and [patience] that defaults to it *)

Definition set_num_epochs (params : dict) : outcome (dict * Z) :=
  num_epochs <- (if has_key "num_epochs" params
                 then v <- param params "num_epochs" ;; py_int v
                 else Ok 100) ;;
  Ok (store "num_epochs" (VInt num_epochs) params, num_epochs).

Definition set_patience (num_epochs : Z) (params : dict) : outcome dict :=
  patience <- (if has_key "patience" params
               then v <- param params "patience" ;; py_int v
               else Ok num_epochs) ;;
  Ok (store "patience" (VInt patience) params).

(** *** Lines 89-116: [loss_function]

    The loop of line 94 walks the keys of the mapping it started on, while
    its body reads [params['loss_function']] afresh at each use.  The loop
    variable [key] stays bound after the loop, to the last key visited. *)

Definition needs_default (sub : string) (entry : value) : outcome bool :=
  if is_none entry then Ok true
  else has <- contains sub entry ;; Ok (negb has).

Definition loss_turn (params : dict) (key : string) : outcome dict :=
  if String.eqb key "mse" then
    entry <- (loss_function <- param params "loss_function" ;; getitem loss_function key) ;;
    fill <- needs_default "reduction" entry ;;
    if fill then
      params <- assign2 params "loss_function" key (VDict []) ;;
      assign3 params "loss_function" key "reduction" (VStr "mean")
    else Ok params
  else Ok (store "loss_function" (VStr key) params).

Fixpoint loss_loop (ks : list string) (params : dict) (key : option string)
    : outcome (dict * option string) :=
  match ks with
  | [] => Ok (params, key)
  | k :: rest =>
      params <- loss_turn params k ;;
      loss_loop rest params (Some k)
  end.

Definition normalize_loss (params : dict) : outcome (dict * option string) :=
  '(params, key, defineDefaultLoss) <-
    (if has_key "loss_function" params then
       loss_function <- param params "loss_function" ;;
       match loss_function with
       | VDict d =>
           if 0 <? Z.of_nat (List.length d) then
             '(params, key) <- loss_loop (keys d) params None ;;
             Ok (params, key, false)
           else Ok (params, None, true)
       | _ =>
           if eq_text loss_function "mse" then
             let params := store "loss_function" (VDict []) params in
             params <- assign2 params "loss_function" "mse" (VDict []) ;;
             params <- assign3 params "loss_function" "mse" "reduction" (VStr "mean") ;;
             Ok (params, None, false)
           else Ok (params, None, false)
       end
     else Ok (params, None, true)) ;;
  loss_function <- (if defineDefaultLoss then Ok (VStr "dc")
                    else param params "loss_function") ;;
  Ok (store "loss_function" loss_function params, key).

(** *** Lines 126-133: [data_augmentation]

    No loop stands here: [key] is whatever the loop of line 94 left, and is
    unbound when that loop did not run. *)

Definition keysToSkip : list string := ["normalize"; "resample"; "threshold"; "clip"].

Definition default_probability (key : option string) (params : dict) : outcome dict :=
  n <- (data_augmentation <- param params "data_augmentation" ;; py_len data_augmentation) ;;
  if 0 <? n then
    match key with
    | None => Raise (UnboundLocalError "key")
    | Some key =>
        if negb (existsb (String.eqb key) keysToSkip) then
          entry <- (data_augmentation <- param params "data_augmentation" ;;
                    getitem data_augmentation key) ;;
          fill <- needs_default "probability" entry ;;
          if fill then
            params <- assign2 params "data_augmentation" key (VDict []) ;;
            assign3 params "data_augmentation" key "probability" (VInt 1)
          else Ok params
        else Ok params
    end
  else Ok params.

(** *** Lines 136-152: [data_preprocessing]

    The guard of line 136 asks for a negative length. *)

Definition thresholdOrClipDict : list string := ["threshold"; "clip"].

(** [sys.float_info.min] and [sys.float_info.max]. *)
Definition float_info_min : float := 0x1p-1022%float.
Definition float_info_max : float := 0x1.fffffffffffffp+1023%float.

Definition complete_bounds (params : dict) (key : string) : outcome dict :=
  entry <- (data_preprocessing <- param params "data_preprocessing" ;;
            getitem data_preprocessing key) ;;
  params <- (if negb (is_dict entry)
             then assign2 params "data_preprocessing" key (VDict [])
             else Ok params) ;;
  has_min <- (data_preprocessing <- param params "data_preprocessing" ;;
              entry <- getitem data_preprocessing key ;; contains "min" entry) ;;
  params <- (if negb has_min
             then assign3 params "data_preprocessing" key "min" (VFloat float_info_min)
             else Ok params) ;;
  has_max <- (data_preprocessing <- param params "data_preprocessing" ;;
              entry <- getitem data_preprocessing key ;; contains "max" entry) ;;
  if negb has_max
  then assign3 params "data_preprocessing" key "max" (VFloat float_info_max)
  else Ok params.

Fixpoint preprocessing_loop (ks : list string) (thresholdOrClip : bool) (params : dict)
    : outcome dict :=
  match ks with
  | [] => Ok params
  | key :: rest =>
      if negb thresholdOrClip then
        if existsb (String.eqb key) thresholdOrClipDict then
          params <- complete_bounds params key ;;
          preprocessing_loop rest true params
        else preprocessing_loop rest thresholdOrClip params
      else Exit msg_threshold_clip
  end.

Definition check_preprocessing (params : dict) : outcome dict :=
  data_preprocessing <- param params "data_preprocessing" ;;
  n <- py_len data_preprocessing ;;
  if n <? 0 then
    match data_preprocessing with
    | VDict d => preprocessing_loop (keys d) false params
    | _ => Beyond "a loop over a data_preprocessing that is no mapping"
    end
  else Ok params.

(** *** Lines 162-175: the name of the model and its two older keys *)

Definition set_which_model (params : dict) : outcome dict :=
  which_model <- (if has_key "modelName" params
                  then v <- param params "modelName" ;; py_str v
                  else if has_key "which_model" params
                  then v <- param params "which_model" ;; py_str v
                  else Ok "resunet") ;;
  Ok (store "which_model" (VStr which_model) params).

(** *** Lines 177-190: [model] *)

Definition require_model (params : dict) : outcome dict :=
  if has_key "model" params then
    model <- param params "model" ;;
    _ <- (if negb (is_dict model) then Exit msg_model_dict
          else
            n <- py_len model ;;
            if n =? 0 then Exit msg_model_empty else Ok tt) ;;
    architecture <- (model <- param params "model" ;; getitem model "architecture") ;;
    _ <- (if negb (truthy architecture) then Exit msg_architecture else Ok tt) ;;
    final_layer <- (model <- param params "model" ;; getitem model "final_layer") ;;
    if negb (truthy final_layer) then Exit msg_final_layer else Ok params
  else Exit msg_model_dict.

(** *** Lines 192-193: [kcross_validation] is retired *)

Definition refuse_kcross_validation (params : dict) : outcome dict :=
  if has_key "kcross_validation" params then Exit msg_kcross_validation else Ok params.

(** *** Lines 195-204: [nested_training]

    Lines 200 and 204 read the sub-field again and assign nothing; [kfolds]
    is a local that nothing reads. *)

Definition default_folds (params : dict) (fold : string) : outcome unit :=
  count <- (nested_training <- param params "nested_training" ;;
            getitem nested_training fold) ;;
  if negb (truthy count) then
    let kfolds := -10 in
    _ <- (nested_training <- param params "nested_training" ;;
          getitem nested_training fold) ;;
    Ok tt
  else Ok tt.

Definition check_nested_training (params : dict) : outcome dict :=
  nested_training <- param params "nested_training" ;;
  if negb (truthy nested_training) then Exit msg_nested_training
  else
    _ <- default_folds params "holdout" ;;
    _ <- default_folds params "validation" ;;
    Ok params.

(** *** Lines 231-235: [q_verbose] *)

Definition set_q_verbose (params : dict) : outcome dict :=
  q_verbose <- (if has_key "q_verbose" params
                then v <- param params "q_verbose" ;; Ok (eq_text v "True")
                else Ok false) ;;
  Ok (store "q_verbose" (VBool q_verbose) params).

(** *** Lines 237-242: [parallel_compute_command], its quotes removed *)

Definition set_parallel_compute_command (params : dict) : outcome dict :=
  parallel_compute_command <-
    (if has_key "parallel_compute_command" params then
       v <- param params "parallel_compute_command" ;;
       v <- replace_char v "'"%char ;;
       replace_char v "034"%char
     else Ok (VStr EmptyString)) ;;
  Ok (store "parallel_compute_command" parallel_compute_command params).

(** *** The whole function, stretch by stretch *)

(** Lines 25-45: the fields a document must carry. *)
Definition required_fields (gandlf_version : string) (params : dict) : outcome dict :=
  params <- version_gate gandlf_version params ;;
  params <- require_class_list params ;;
  params <- require_dimension params ;;
  alias_patch_size params.

(** Lines 53-123: the training parameters. *)
Definition training_parameters (params : dict) : outcome (dict * option string) :=
  '(params, num_epochs) <- set_num_epochs params ;;
  params <- set_patience num_epochs params ;;
  params <- coerce_or_default "batch_size" as_int (VInt 1) params ;;
  params <- coerce_or_default "amp" as_bool (VBool false) params ;;
  params <- coerce_or_default "learning_rate" as_float (VFloat 0.001) params ;;
  '(params, key) <- normalize_loss params ;;
  params <- coerce_or_default "opt" as_str (VStr "adam") params ;;
  Ok (params, key).

(** Lines 25-123: everything before [data_augmentation] is read. *)
Definition rules_before_augmentation (gandlf_version : string) (params : dict)
    : outcome (dict * option string) :=
  params <- required_fields gandlf_version params ;;
  params <- check_resize params ;;
  training_parameters params.

(** Lines 154-242: everything after [data_preprocessing]. *)
Definition rules_after_preprocessing (params : dict) : outcome dict :=
  params <- coerce_or_default "base_filters" as_int (VInt 30) params ;;
  params <- set_which_model params ;;
  params <- require_model params ;;
  params <- refuse_kcross_validation params ;;
  params <- check_nested_training params ;;
  params <- coerce_or_default "scheduler" as_str (VStr "triangle") params ;;
  params <- coerce_or_default "q_max_length" as_int (VInt 100) params ;;
  params <- coerce_or_default "q_samples_per_volume" as_int (VInt 10) params ;;
  params <- coerce_or_default "q_num_workers" as_int (VInt 4) params ;;
  params <- set_q_verbose params ;;
  set_parallel_compute_command params.

Definition parseConfig (gandlf_version : string) (params : dict) : outcome dict :=
  '(params, key) <- rules_before_augmentation gandlf_version params ;;
  params <- default_probability key params ;;
  params <- check_preprocessing params ;;
  rules_after_preprocessing params.

(** What [parseConfig] goes on with once the version gate has let the
    document through (lines 35-244). *)
Definition after_version_gate (params : dict) : outcome dict :=
  '(params, key) <-
    (params <- (params <- require_class_list params ;;
                params <- require_dimension params ;;
                alias_patch_size params) ;;
     params <- check_resize params ;;
     training_parameters params) ;;
  params <- default_probability key params ;;
  params <- check_preprocessing params ;;
  rules_after_preprocessing params.

(* ================================================================= *)
(** ** Documents to run the function on *)

(** A small document that states every field [parseConfig] insists on and
    nothing else. *)
Definition sample_document : dict :=
  [("version", VDict [("minimum", VStr "0.0.8"); ("maximum", VStr "0.0.8")]);
   ("class_list", VList [VInt 0; VInt 1]);
   ("dimension", VInt 3);
   ("patch_size", VList [VInt 128; VInt 128]);
   ("data_augmentation", VDict []);
   ("data_preprocessing", VDict []);
   ("model", VDict [("architecture", VStr "resunet"); ("final_layer", VStr "softmax")]);
   ("nested_training", VDict [("holdout", VInt 5); ("validation", VInt 5)])].

(** The document without the key [k]. *)
Definition without (k : string) (d : dict) : dict :=
  filter (fun kv => negb (String.eqb (fst kv) k)) d.

(** [threshold] and [clip] side by side. *)
Definition threshold_and_clip : dict :=
  store "data_preprocessing"
    (VDict [("threshold", VDict [("min", VInt 0)]); ("clip", VDict [("max", VInt 1)])])
    sample_document.

(** [threshold] alone, with nothing under it. *)
Definition bare_threshold : dict :=
  store "data_preprocessing" (VDict [("threshold", VNone)]) sample_document.

(** Fold counts of zero. *)
Definition zero_folds : dict :=
  store "nested_training" (VDict [("holdout", VInt 0); ("validation", VInt 0)])
    sample_document.

(** One augmentation and no [loss_function]. *)
Definition flip_alone : dict :=
  store "data_augmentation" (VDict [("flip", VNone)]) sample_document.

(** One augmentation under the loss "mse". *)
Definition flip_under_mse : dict :=
  store "loss_function" (VStr "mse") flip_alone.

(** Two augmentations, and a loss given as a mapping whose key happens to
    name the first of them. *)
Definition flip_and_rotate : dict :=
  store "loss_function" (VDict [("flip", VNone)])
    (store "data_augmentation" (VDict [("flip", VNone); ("rotate", VNone)])
       sample_document).

(** The sample document with a [resize] of its own. *)
Definition resized_document : dict :=
  store "resize" (VList [VInt 128; VInt 128]) sample_document.

(** The same with the text "True" for [q_verbose]. *)
Definition verbose_document : dict :=
  store "q_verbose" (VStr "True") resized_document.

(** The same with one augmentation, named by the key of the loss. *)
Definition augmented_document : dict :=
  store "loss_function" (VDict [("flip", VNone)])
    (store "data_augmentation" (VDict [("flip", VNone)]) resized_document).

(** A [resize] one short of [patch_size] in its first position, past 2^53,
    beside a float. *)
Definition rounded_document : dict :=
  store "resize" (VList [VInt 9007199254740992; VFloat 3.5])
    (store "patch_size" (VList [VInt 9007199254740993; VInt 3]) sample_document).

(** A [resize] of three entries over the [patch_size] of two. *)
Definition longer_resize : dict :=
  store "resize" (VList [VInt 64; VInt 64; VInt 64]) sample_document.

(** The sample document with the retired key. *)
Definition retired_document : dict :=
  store "kcross_validation" (VInt 5) sample_document.

(* ================================================================= *)
(** ** Notions the statements below use *)

(** A character no decimal literal of [int()] can hold. *)
Definition foreign (c : ascii) : bool :=
  match digit_of c with
  | Some _ => false
  | None => negb (is_underscore c || is_space c || (code c =? 45) || (code c =? 43))
  end.

(** A component made of decimal digits, at least one. *)
Definition all_digits (comp : string) : bool :=
  match chars comp with
  | [] => false
  | cs => forallb (fun c => match digit_of c with Some _ => true | None => false end) cs
  end.

(** The loss a bare "mse" is spelled out to. *)
Definition mse_mean : value := VDict [("mse", VDict [("reduction", VStr "mean")])].

(** [resize] reaches [patch_size] in every position. *)
Definition all_ge (rs ps : list Z) : bool :=
  forallb (fun rp => snd rp <=? fst rp) (combine rs ps).

Definition int_list (zs : list Z) : value := VList (map VInt zs).

(** The messages of the exits past the version gate. *)
Definition later_messages : list string :=
  [msg_class_list; msg_dimension; msg_patch_size; msg_resize; msg_threshold_clip;
   msg_model_dict; msg_model_empty; msg_architecture; msg_final_layer;
   msg_kcross_validation; msg_nested_training].

(** A run leaves through [sys.exit] only with one of [msgs]. *)
Definition exits_only {A : Type} (msgs : list string) (o : outcome A) : Prop :=
  forall m, o = Exit m -> In m msgs.

(** What a rule that only checks hands on to the next rule: the document
    unchanged, when it returns at all. *)
Definition hands_on (q : dict) (o : outcome dict) : outcome dict :=
  match o with
  | Ok _ => Ok q
  | Exit msg => Exit msg
  | Raise e => Raise e
  | Beyond w => Beyond w
  end.

(** A rule that only checks: what it decides hangs on the fields [ks]
    alone, and it returns the very document it was given. *)
Definition checks_only (ks : list string) (rule : dict -> outcome dict) : Prop :=
  forall p q, (forall k, In k ks -> lookup k q = lookup k p) ->
  rule q = hands_on q (rule p).

(** A coercion that leaves its own results alone. *)
Definition settles (coerce : value -> outcome value) : Prop :=
  forall v x, coerce v = Ok x -> coerce x = Ok x.

(** The entry of "mse" has its [reduction]. *)
Definition mse_settled (d : dict) : Prop :=
  exists e, lookup "mse" d = Some e /\ needs_default "reduction" e = Ok false.

(** A [loss_function] that lines 89-116 leave as it is: a mapping with
    "mse" for its only key and a [reduction] under it, or anything that is
    no mapping and is not the text "mse". *)
Definition loss_settled (lf : value) : Prop :=
  match lf with
  | VDict d => d <> [] /\ Forall (fun k => k = "mse") (keys d) /\ mse_settled d
  | _ => eq_text lf "mse" = false
  end.

(** A mapping every rule of [parseConfig] has settled: each rule finds its
    field as it would leave it. *)
Record normalized (gandlf_version : string) (cfg : dict) : Prop := {
  nz_version : version_gate gandlf_version cfg = Ok cfg;
  nz_class_list : require_class_list cfg = Ok cfg;
  nz_dimension : require_dimension cfg = Ok cfg;
  nz_psize : exists v, lookup "patch_size" cfg = Some v /\ lookup "psize" cfg = Some v;
  nz_resize : exists resize psize,
      lookup "resize" cfg = Some resize /\ lookup "psize" cfg = Some psize
      /\ np_greater_equal_all resize psize = Ok true;
  nz_num_epochs : exists n, lookup "num_epochs" cfg = Some (VInt n);
  nz_patience : exists n, lookup "patience" cfg = Some (VInt n);
  nz_batch_size : exists x, lookup "batch_size" cfg = Some x /\ as_int x = Ok x;
  nz_amp : exists x, lookup "amp" cfg = Some x /\ as_bool x = Ok x;
  nz_learning_rate : exists x, lookup "learning_rate" cfg = Some x /\ as_float x = Ok x;
  nz_loss_function : exists lf, lookup "loss_function" cfg = Some lf /\ loss_settled lf;
  nz_opt : exists x, lookup "opt" cfg = Some x /\ as_str x = Ok x;
  nz_data_augmentation : exists da,
      lookup "data_augmentation" cfg = Some da /\ py_len da = Ok 0;
  nz_data_preprocessing : check_preprocessing cfg = Ok cfg;
  nz_base_filters : exists x, lookup "base_filters" cfg = Some x /\ as_int x = Ok x;
  nz_which_model : exists w,
      lookup "which_model" cfg = Some (VStr w)
      /\ forall v, lookup "modelName" cfg = Some v -> py_str v = Ok w;
  nz_model : require_model cfg = Ok cfg;
  nz_kcross_validation : refuse_kcross_validation cfg = Ok cfg;
  nz_nested_training : check_nested_training cfg = Ok cfg;
  nz_scheduler : exists x, lookup "scheduler" cfg = Some x /\ as_str x = Ok x;
  nz_q_max_length : exists x, lookup "q_max_length" cfg = Some x /\ as_int x = Ok x;
  nz_q_samples_per_volume : exists x,
      lookup "q_samples_per_volume" cfg = Some x /\ as_int x = Ok x;
  nz_q_num_workers : exists x, lookup "q_num_workers" cfg = Some x /\ as_int x = Ok x;
  nz_q_verbose : lookup "q_verbose" cfg = Some (VBool false);
  nz_parallel_compute_command : exists t,
      lookup "parallel_compute_command" cfg
      = Some (VStr (remove_char "034" (remove_char "'" t)))
}.

(** What a coerce-or-default rule settles on: the coercion of what the
    document gives, or the default when it gives nothing. *)
Definition given_or (coerce : value -> outcome value) (default : value)
    (given : option value) (x : value) : Prop :=
  match given with
  | Some v => coerce v = Ok x
  | None => x = default
  end.

(** Lines 239-241 on one value: both kinds of quote removed. *)
Definition strip_quotes (v : value) : outcome value :=
  v <- replace_char v "'"%char ;;
  replace_char v "034"%char.

(** The older key of the model's name that line 162 prefers. *)
Definition given_model_name (doc : dict) : option value :=
  match lookup "modelName" doc with
  | Some v => Some v
  | None => lookup "which_model" doc
  end.

(** A series of assignments [params[k] = x], first to last. *)
Fixpoint apply_writes (ws : list (string * value)) (d : dict) : dict :=
  match ws with
  | [] => d
  | (k, x) :: rest => apply_writes rest (store k x d)
  end.

(** The fields [parseConfig] assigns at the top level, in the order of its
    lines. *)
Definition written_keys : list string :=
  ["psize"; "resize"; "num_epochs"; "patience"; "batch_size"; "amp";
   "learning_rate"; "loss_function"; "opt"; "data_augmentation"; "base_filters";
   "which_model"; "scheduler"; "q_max_length"; "q_samples_per_volume";
   "q_num_workers"; "q_verbose"; "parallel_compute_command"].

(** The fields that follow the plain rule of coercing or defaulting, each
    with its coercion and its default (lines 54-59, 68-87, 118-123, 155-160
    and 207-229). *)
Definition plain_rules : list (string * (value -> outcome value) * value) :=
  [("num_epochs", as_int, VInt 100);
   ("batch_size", as_int, VInt 1);
   ("amp", as_bool, VBool false);
   ("learning_rate", as_float, VFloat 0.001);
   ("opt", as_str, VStr "adam");
   ("base_filters", as_int, VInt 30);
   ("scheduler", as_str, VStr "triangle");
   ("q_max_length", as_int, VInt 100);
   ("q_samples_per_volume", as_int, VInt 10);
   ("q_num_workers", as_int, VInt 4)].

(** Neither kind of quote. *)
Definition no_quote (c : ascii) : bool :=
  negb (Ascii.eqb c "'"%char || Ascii.eqb c "034"%char).

(** A document that states most of the optional fields, some of them as
    text. *)
Definition busy_document : dict :=
  [("version", VDict [("minimum", VStr "0.0.7"); ("maximum", VStr "0.1.0.dev")]);
   ("class_list", VList [VInt 0; VInt 1]);
   ("dimension", VInt 2);
   ("patch_size", VList [VInt 64; VInt 64]);
   ("resize", VList [VInt 128; VInt 64]);
   ("num_epochs", VStr "50");
   ("batch_size", VFloat 4.5);
   ("amp", VInt 1);
   ("learning_rate", VStr "1e-3");
   ("loss_function", VDict [("dc", VNone); ("ce", VNone)]);
   ("opt", VStr "sgd");
   ("data_augmentation", VDict []);
   ("data_preprocessing", VDict [("normalize", VNone)]);
   ("modelName", VStr "unet");
   ("which_model", VStr "fcn");
   ("model", VDict [("architecture", VStr "unet"); ("final_layer", VStr "sigmoid")]);
   ("nested_training", VDict [("holdout", VInt 5); ("validation", VInt 5)]);
   ("q_verbose", VStr "True");
   ("parallel_compute_command",
    VStr (String.append "qsub -l 'gpu=1' " (String "034"%char "run")));
   ("my_own_key", VStr "kept")].

(** The number a run of decimal digits writes. *)
Definition decimal (cs : list ascii) : Z :=
  fold_left (fun acc c => 10 * acc + (code c - 48)) cs 0.

(** What [parseConfig] returns on a document, or the empty mapping when it
    does not return. *)
Definition result_of (gandlf_version : string) (doc : dict) : dict :=
  match parseConfig gandlf_version doc with
  | Ok cfg => cfg
  | _ => []
  end.

(* ================================================================= *)
(** ** Text lemmas *)

Lemma split_nonempty (sep : ascii) (s : string) : split sep s <> [].
Proof.
  destruct s as [|c rest]; simpl; [discriminate|].
  destruct (Ascii.eqb c sep); [discriminate|].
  destruct (split sep rest); discriminate.
Qed.

(** Joining the components with the separator gives the text back. *)
Lemma split_concat (sep : ascii) (s : string) :
  String.concat (String sep EmptyString) (split sep s) = s.
Proof.
  induction s as [|c rest IH]; simpl; [reflexivity|].
  destruct (Ascii.eqb_spec c sep) as [->|Hne].
  - pose proof (split_nonempty sep rest) as Hn.
    destruct (split sep rest) as [|w ws]; [contradiction|].
    simpl in *. now rewrite IH.
  - destruct (split sep rest) as [|w ws] eqn:E.
    + exfalso. now apply (split_nonempty sep rest).
    + destruct ws as [|x xs]; simpl in *; now rewrite IH.
Qed.

(** No component holds the separator. *)
Lemma split_free (sep : ascii) (s : string) :
  Forall (fun comp => ~ In sep (chars comp)) (split sep s).
Proof.
  induction s as [|c rest IH]; simpl.
  - constructor; [intros []|constructor].
  - destruct (Ascii.eqb_spec c sep) as [->|Hne].
    + constructor; [intros []|exact IH].
    + destruct (split sep rest) as [|w ws]; simpl.
      * constructor; [|constructor]. intros [H|[]]. now apply Hne.
      * inversion IH as [|? ? Hw Hws]; subst.
        constructor; [|exact Hws].
        intros [H|H]; [now apply Hne|now apply Hw].
Qed.

Lemma chars_append (s t : string) :
  chars (String.append s t) = chars s ++ chars t.
Proof.
  induction s as [|c s IH]; simpl; [reflexivity|].
  unfold chars in *. simpl. now rewrite IH.
Qed.

Lemma in_chars_join (c : ascii) (comp : string) (parts : list string) :
  In comp parts -> In c (chars comp) -> In c (chars (join parts)).
Proof.
  unfold join.
  induction parts as [|x xs IH]; intros Hin Hc; [destruct Hin|].
  assert (E : chars (String.concat "" (x :: xs)) = chars x ++ chars (String.concat "" xs)).
  { destruct xs as [|y ys].
    - simpl. now rewrite app_nil_r.
    - change (String.concat "" (x :: y :: ys))
        with (String.append x (String.append "" (String.concat "" (y :: ys)))).
      now rewrite chars_append. }
  rewrite E. apply in_or_app.
  destruct Hin as [->|Hin]; [now left|right; now apply IH].
Qed.

Lemma foreign_facts (c : ascii) :
  foreign c = true ->
  digit_of c = None /\ is_underscore c = false /\ is_space c = false
  /\ (code c =? 45) = false /\ (code c =? 43) = false.
Proof.
  unfold foreign. destruct (digit_of c); [discriminate|].
  rewrite negb_true_iff, !orb_false_iff. tauto.
Qed.

Lemma in_lstrip (c : ascii) (cs : list ascii) :
  In c cs -> is_space c = false -> In c (lstrip cs).
Proof.
  induction cs as [|x xs IH]; intros Hin Hc; [destruct Hin|].
  simpl. destruct (is_space x) eqn:Ex.
  - destruct Hin as [->|Hin]; [congruence|now apply IH].
  - exact Hin.
Qed.

Lemma in_strip (c : ascii) (cs : list ascii) :
  In c cs -> is_space c = false -> In c (strip cs).
Proof.
  intros Hin Hc. unfold strip.
  rewrite <- in_rev. apply in_lstrip; [|exact Hc].
  rewrite <- in_rev. now apply in_lstrip.
Qed.

Lemma more_digits_foreign (c : ascii) (n : nat) :
  forall cs acc, (List.length cs <= n)%nat ->
  In c cs -> digit_of c = None -> is_underscore c = false ->
  more_digits acc cs = None.
Proof.
  induction n as [|n IH]; intros cs acc Hlen Hin Hd Hu.
  - destruct cs; [destruct Hin|simpl in Hlen; lia].
  - destruct cs as [|x xs]; [destruct Hin|]. simpl in Hlen |- *.
    destruct (is_underscore x) eqn:Ex.
    + destruct Hin as [->|Hin]; [congruence|].
      destruct xs as [|d rest]; [reflexivity|].
      destruct (digit_of d) eqn:Ed; [|reflexivity].
      destruct Hin as [->|Hin]; [congruence|].
      apply IH; simpl in *; auto; lia.
    + destruct (digit_of x) eqn:Edx; [|reflexivity].
      destruct Hin as [->|Hin]; [congruence|].
      apply IH; auto; lia.
Qed.

(** [int()] refuses a text that holds a foreign character. *)
Lemma int_of_text_foreign (s : string) (c : ascii) :
  In c (chars s) -> foreign c = true -> int_of_text s = Raise ValueError.
Proof.
  intros Hin Hf.
  destruct (foreign_facts c Hf) as (Hd & Hu & Hs & Hm & Hp).
  pose proof (in_strip c (chars s) Hin Hs) as Hin'.
  unfold int_of_text.
  assert (Hbody : forall neg body, take_sign (strip (chars s)) = (neg, body) -> In c body).
  { intros neg body. unfold take_sign.
    destruct (strip (chars s)) as [|x xs]; [destruct Hin'|].
    destruct (code x =? 45) eqn:E1.
    - intros [= <- <-]. destruct Hin' as [->|H]; [congruence|exact H].
    - destruct (code x =? 43) eqn:E2.
      + intros [= <- <-]. destruct Hin' as [->|H]; [congruence|exact H].
      + intros [= <- <-]. exact Hin'. }
  destruct (take_sign (strip (chars s))) as [neg body].
  specialize (Hbody neg body eq_refl).
  assert (Hnone : digits body = None).
  { unfold digits. destruct body as [|x xs]; [reflexivity|].
    destruct (digit_of x) eqn:Ex; [|reflexivity].
    destruct Hbody as [->|H]; [congruence|].
    now apply (more_digits_foreign c (List.length xs)). }
  now rewrite Hnone.
Qed.

(* ================================================================= *)
(** ** [parse_version] *)

(** C8, as the code has it: [parse_version] splits on the dot (the
    components join back to the text and hold no dot), drops the last
    component exactly when there are more than three, joins the rest as text
    and reads the result with [int()]; so "1.2.3" gives 123, below the 124
    of "1.2.4", and "1.0.0.rc1" gives the 100 of "1.0.0".  It raises
    [ValueError] when a component it keeps holds a character that is no
    digit, sign, underscore or blank. *)
Theorem parse_version_reads_joined_components :
  (forall s : string,
      let parts := split "." s in
      String.concat "." parts = s
      /\ Forall (fun comp => ~ In "."%char (chars comp)) parts
      /\ kept_components s
         = (if 3 <? Z.of_nat (List.length parts) then removelast parts else parts)
      /\ parse_version (VStr s) = int_of_text (join (kept_components s))
      /\ (forall comp c,
             In comp (kept_components s) -> In c (chars comp) -> foreign c = true ->
             parse_version (VStr s) = Raise ValueError))
  /\ parse_version (VStr "1.2.3") = Ok 123
  /\ parse_version (VStr "1.2.4") = Ok 124
  /\ 123 < 124
  /\ kept_components "1.0.0.rc1" = ["1"; "0"; "0"]
  /\ parse_version (VStr "1.0.0.rc1") = Ok 100
  /\ parse_version (VStr "1.0.0") = Ok 100.
Proof.
  split; [|repeat split; reflexivity].
  intros s parts. subst parts.
  split; [apply (split_concat "." s)|].
  split; [apply split_free|].
  split; [reflexivity|].
  split; [reflexivity|].
  intros comp c Hcomp Hc Hf. simpl.
  apply (int_of_text_foreign _ c); [|exact Hf].
  now apply (in_chars_join c comp).
Qed.

Lemma parse_version_reads_joined_components_witness :
  parse_version (VStr "1.x.3") = Raise ValueError.
Proof.
  destruct parse_version_reads_joined_components as [H _].
  destruct (H "1.x.3") as (_ & _ & _ & _ & Hfail).
  apply (Hfail "x" "x"%char).
  - simpl. right. left. reflexivity.
  - simpl. left. reflexivity.
  - reflexivity.
Defined.

(** C8, where the claim fails: in "1..2" the second component is empty, no
    number at all, and [parse_version] still returns 12. *)
Lemma parse_version_empty_component :
  In EmptyString (kept_components "1..2")
  /\ all_digits EmptyString = false
  /\ int_of_text EmptyString = Raise ValueError
  /\ parse_version (VStr "1..2") = Ok 12.
Proof.
  repeat split; try reflexivity.
  simpl. right. left. reflexivity.
Qed.

(* ================================================================= *)
(** ** Outcomes and mappings: basic lemmas *)

Lemma bind_Ok {A B : Type} (m : outcome A) (k : A -> outcome B) (b : B) :
  bind m k = Ok b -> exists a, m = Ok a /\ k a = Ok b.
Proof. destruct m; simpl; intros H; try discriminate. eauto. Qed.

Lemma bind_Exit {A B : Type} (m : outcome A) (k : A -> outcome B) (msg : string) :
  bind m k = Exit msg -> m = Exit msg \/ exists a, m = Ok a /\ k a = Exit msg.
Proof.
  destruct m; simpl; intros H; try discriminate.
  - right. exists a. now split.
  - left. now injection H as ->.
Qed.

Lemma lookup_store_same (k : string) (v : value) (d : dict) :
  lookup k (store k v d) = Some v.
Proof.
  induction d as [|[k' v'] d IH]; simpl.
  - now rewrite String.eqb_refl.
  - destruct (String.eqb k k') eqn:E; simpl; rewrite E; [reflexivity|exact IH].
Qed.

Lemma lookup_store_other (k k' : string) (v : value) (d : dict) :
  k' <> k -> lookup k' (store k v d) = lookup k' d.
Proof.
  intros Hne. induction d as [|[k0 v0] d IH]; simpl.
  - destruct (String.eqb_spec k' k); [contradiction|reflexivity].
  - destruct (String.eqb_spec k k0) as [->|Hk]; simpl.
    + destruct (String.eqb_spec k' k0); [contradiction|reflexivity].
    + destruct (String.eqb k' k0); [reflexivity|exact IH].
Qed.

Lemma store_lookup_id (k : string) (v : value) (d : dict) :
  lookup k d = Some v -> store k v d = d.
Proof.
  induction d as [|[k' v'] d IH]; simpl; [discriminate|].
  destruct (String.eqb_spec k k') as [->|Hk].
  - now intros [= ->].
  - intros H. now rewrite IH.
Qed.

Lemma has_key_true (k : string) (d : dict) (v : value) :
  lookup k d = Some v -> has_key k d = true.
Proof. unfold has_key. now intros ->. Qed.

Lemma has_key_false (k : string) (d : dict) :
  lookup k d = None -> has_key k d = false.
Proof. unfold has_key. now intros ->. Qed.

Lemma param_found (k : string) (d : dict) (v : value) :
  lookup k d = Some v -> param d k = Ok v.
Proof. unfold param. simpl. now intros ->. Qed.

Lemma param_missing (k : string) (d : dict) :
  lookup k d = None -> param d k = Raise (KeyError k).
Proof. unfold param. simpl. now intros ->. Qed.

(* ================================================================= *)
(** ** Which messages a rule can exit with *)

Lemma exits_only_bind {A B : Type} (msgs : list string)
    (m : outcome A) (k : A -> outcome B) :
  exits_only msgs m -> (forall a, exits_only msgs (k a)) -> exits_only msgs (bind m k).
Proof.
  intros Hm Hk msg H. destruct (bind_Exit _ _ _ H) as [E|(a & _ & E)].
  - now apply Hm.
  - now apply (Hk a).
Qed.

Lemma exits_only_Ok {A : Type} (msgs : list string) (a : A) : exits_only msgs (Ok a).
Proof. intros m H; discriminate. Qed.

Lemma exits_only_Raise {A : Type} (msgs : list string) (e : exn) :
  exits_only msgs (@Raise A e).
Proof. intros m H; discriminate. Qed.

Lemma exits_only_Beyond {A : Type} (msgs : list string) (w : string) :
  exits_only msgs (@Beyond A w).
Proof. intros m H; discriminate. Qed.

Lemma exits_only_Exit {A : Type} (msgs : list string) (msg : string) :
  In msg msgs -> exits_only msgs (@Exit A msg).
Proof. intros Hin m [= <-]. exact Hin. Qed.

(** Case analysis on whatever a goal branches on. *)
Ltac split_cases :=
  match goal with
  | |- context [match ?x with _ => _ end] => destruct x eqn:?
  end.

(** A built-in that never calls [sys.exit]: every branch is a return, an
    exception or [Beyond]. *)
Ltac never_exits :=
  intros ? ?;
  repeat match goal with
         | H : context [match ?x with _ => _ end] |- _ => destruct x eqn:?
         end;
  discriminate.

Lemma getitem_no_exit (msgs : list string) (v : value) (k : string) :
  exits_only msgs (getitem v k).
Proof. unfold getitem. never_exits. Qed.

Lemma setitem_no_exit (msgs : list string) (v : value) (k : string) (x : value) :
  exits_only msgs (setitem v k x).
Proof. unfold setitem. never_exits. Qed.

Lemma param_no_exit (msgs : list string) (d : dict) (k : string) :
  exits_only msgs (param d k).
Proof. apply getitem_no_exit. Qed.

Lemma int_of_text_no_exit (msgs : list string) (s : string) :
  exits_only msgs (int_of_text s).
Proof. unfold int_of_text. never_exits. Qed.

Lemma parse_version_no_exit (msgs : list string) (v : value) :
  exits_only msgs (parse_version v).
Proof.
  unfold parse_version. destruct v; try apply exits_only_Raise.
  apply int_of_text_no_exit.
Qed.

Lemma py_int_no_exit (msgs : list string) (v : value) : exits_only msgs (py_int v).
Proof.
  destruct v; simpl; try apply exits_only_Raise; try apply exits_only_Ok.
  - unfold int_of_float. never_exits.
  - apply int_of_text_no_exit.
Qed.

Lemma float_of_text_no_exit (msgs : list string) (s : string) :
  exits_only msgs (float_of_text s).
Proof. unfold float_of_text. never_exits. Qed.

Lemma py_float_no_exit (msgs : list string) (v : value) : exits_only msgs (py_float v).
Proof.
  destruct v; simpl; try apply exits_only_Raise; try apply exits_only_Ok.
  - unfold float_of_Z. never_exits.
  - apply float_of_text_no_exit.
Qed.

Lemma py_str_no_exit (msgs : list string) (v : value) : exits_only msgs (py_str v).
Proof. unfold py_str. never_exits. Qed.

Lemma py_bool_no_exit (msgs : list string) (v : value) : exits_only msgs (py_bool v).
Proof. apply exits_only_Ok. Qed.

Lemma py_len_no_exit (msgs : list string) (v : value) : exits_only msgs (py_len v).
Proof. unfold py_len. never_exits. Qed.

Lemma contains_no_exit (msgs : list string) (s : string) (v : value) :
  exits_only msgs (contains s v).
Proof. unfold contains. never_exits. Qed.

Lemma replace_char_no_exit (msgs : list string) (v : value) (c : ascii) :
  exits_only msgs (replace_char v c).
Proof. unfold replace_char. never_exits. Qed.

Lemma np_greater_equal_all_no_exit (msgs : list string) (a b : value) :
  exits_only msgs (np_greater_equal_all a b).
Proof. unfold np_greater_equal_all. never_exits. Qed.

Create HintDb exits discriminated.

#[local] Hint Resolve exits_only_Ok exits_only_Raise exits_only_Beyond
  getitem_no_exit setitem_no_exit param_no_exit parse_version_no_exit
  py_int_no_exit py_float_no_exit py_str_no_exit py_bool_no_exit py_len_no_exit
  contains_no_exit replace_char_no_exit np_greater_equal_all_no_exit : exits.

(** Walks a rule: through each bind, into each branch, closing the leaves
    with the lemmas above or by finding the message in the list. *)
Ltac walk_exits :=
  repeat first
    [ solve [auto with exits]
    | apply exits_only_bind; [|intros ?]
    | apply exits_only_Exit; simpl; tauto
    | split_cases ].

Lemma assign2_no_exit (msgs : list string) (params : dict) (a b : string) (x : value) :
  exits_only msgs (assign2 params a b x).
Proof. unfold assign2. walk_exits. Qed.

Lemma assign3_no_exit (msgs : list string) (params : dict) (a b c : string) (x : value) :
  exits_only msgs (assign3 params a b c x).
Proof. unfold assign3. walk_exits. Qed.

#[local] Hint Resolve assign2_no_exit assign3_no_exit : exits.

Lemma coerce_or_default_no_exit (msgs : list string) (key : string)
    (coerce : value -> outcome value) (default : value) (params : dict) :
  (forall v, exits_only msgs (coerce v)) ->
  exits_only msgs (coerce_or_default key coerce default params).
Proof. intros H. unfold coerce_or_default. walk_exits. Qed.

Lemma as_int_no_exit (msgs : list string) (v : value) : exits_only msgs (as_int v).
Proof. unfold as_int. walk_exits. Qed.

Lemma as_float_no_exit (msgs : list string) (v : value) : exits_only msgs (as_float v).
Proof. unfold as_float. walk_exits. Qed.

Lemma as_bool_no_exit (msgs : list string) (v : value) : exits_only msgs (as_bool v).
Proof. unfold as_bool, py_bool. walk_exits. Qed.

Lemma as_str_no_exit (msgs : list string) (v : value) : exits_only msgs (as_str v).
Proof. unfold as_str. walk_exits. Qed.

#[local] Hint Resolve coerce_or_default_no_exit as_int_no_exit as_float_no_exit
  as_bool_no_exit as_str_no_exit : exits.

Lemma loss_loop_no_exit (msgs : list string) (ks : list string) :
  forall params key, exits_only msgs (loss_loop ks params key).
Proof.
  induction ks as [|k ks IH]; intros params key; simpl.
  - apply exits_only_Ok.
  - apply exits_only_bind; [|intros ?; apply IH].
    unfold loss_turn, needs_default. walk_exits.
Qed.

#[local] Hint Resolve loss_loop_no_exit : exits.

Lemma training_parameters_no_exit (msgs : list string) (params : dict) :
  exits_only msgs (training_parameters params).
Proof.
  unfold training_parameters, set_num_epochs, set_patience, normalize_loss.
  walk_exits.
Qed.

Lemma default_probability_no_exit (msgs : list string) (key : option string) (params : dict) :
  exits_only msgs (default_probability key params).
Proof. unfold default_probability, needs_default. walk_exits. Qed.

Lemma preprocessing_loop_exits (ks : list string) :
  forall seen params, exits_only later_messages (preprocessing_loop ks seen params).
Proof.
  induction ks as [|k ks IH]; intros seen params; cbn [preprocessing_loop].
  - apply exits_only_Ok.
  - destruct seen; cbn [negb].
    + apply exits_only_Exit. simpl. tauto.
    + destruct (existsb (String.eqb k) thresholdOrClipDict); [|apply IH].
      apply exits_only_bind; [|intros ?; apply IH].
      unfold complete_bounds. walk_exits.
Qed.

#[local] Hint Resolve training_parameters_no_exit default_probability_no_exit
  preprocessing_loop_exits : exits.

(** Past the version gate, [sys.exit] is called with one of eleven fixed
    messages. *)
Lemma after_version_gate_exits (params : dict) :
  exits_only later_messages (after_version_gate params).
Proof.
  unfold after_version_gate, require_class_list, require_dimension, alias_patch_size,
    check_resize, check_preprocessing, rules_after_preprocessing, set_which_model,
    require_model, refuse_kcross_validation, check_nested_training, default_folds,
    set_q_verbose, set_parallel_compute_command.
  walk_exits.
Qed.

Lemma parseConfig_after_gate (gandlf_version : string) (params : dict) :
  parseConfig gandlf_version params
  = (params <- version_gate gandlf_version params ;; after_version_gate params).
Proof.
  unfold parseConfig, rules_before_augmentation, required_fields, after_version_gate.
  destruct (version_gate gandlf_version params); reflexivity.
Qed.

Lemma msg_incompatible_is_new (gandlf_version : string) :
  ~ In (msg_incompatible gandlf_version) later_messages.
Proof.
  unfold msg_incompatible, later_messages. simpl.
  intros H. repeat (destruct H as [H|H]; [discriminate H|]). exact H.
Qed.

(* ================================================================= *)
(** ** The version gate *)

Lemma version_gate_result (gandlf_version : string) (params : dict)
    (version minimum maximum : value) (engine lowest highest : Z) :
  lookup "version" params = Some version ->
  getitem version "minimum" = Ok minimum ->
  getitem version "maximum" = Ok maximum ->
  parse_version (VStr gandlf_version) = Ok engine ->
  parse_version minimum = Ok lowest ->
  parse_version maximum = Ok highest ->
  version_gate gandlf_version params
  = if (lowest >? engine) || (highest <? engine)
    then Exit (msg_incompatible gandlf_version)
    else Ok params.
Proof.
  intros Hv Hmin Hmax He Hl Hh.
  unfold version_gate.
  rewrite (has_key_true _ _ _ Hv), He, (param_found _ _ _ Hv).
  cbn [negb bind]. rewrite Hmin. cbn [bind]. rewrite Hl. cbn [bind].
  rewrite Hmax. cbn [bind]. rewrite Hh. reflexivity.
Qed.

(** C1: on a document whose [version] field carries a [minimum] and a
    [maximum] that [parse_version] reads, [parseConfig] leaves through the
    incompatible-version exit exactly when the key of the installed version
    is below the key of [minimum] or above the key of [maximum]; inside the
    range, both ends included, the gate hands the document on unchanged and
    [parseConfig] goes on with the rules that follow. *)
Theorem version_gate_decides (gandlf_version : string) (params : dict)
    (version minimum maximum : value) (engine lowest highest : Z) :
  lookup "version" params = Some version ->
  getitem version "minimum" = Ok minimum ->
  getitem version "maximum" = Ok maximum ->
  parse_version (VStr gandlf_version) = Ok engine ->
  parse_version minimum = Ok lowest ->
  parse_version maximum = Ok highest ->
  (parseConfig gandlf_version params = Exit (msg_incompatible gandlf_version)
   <-> engine < lowest \/ highest < engine)
  /\ (lowest <= engine <= highest ->
      version_gate gandlf_version params = Ok params
      /\ parseConfig gandlf_version params = after_version_gate params).
Proof.
  intros Hv Hmin Hmax He Hl Hh.
  pose proof (version_gate_result _ _ _ _ _ _ _ _ Hv Hmin Hmax He Hl Hh) as G.
  rewrite parseConfig_after_gate, G.
  destruct ((lowest >? engine) || (highest <? engine)) eqn:C.
  - assert (Hout : engine < lowest \/ highest < engine).
    { apply orb_true_iff in C. destruct C as [C|C]; [left|right]; lia. }
    split; [tauto|lia].
  - apply orb_false_iff in C. destruct C as [C1 C2].
    split.
    + split; [|lia]. cbn [bind]. intros E.
      exfalso. apply (msg_incompatible_is_new gandlf_version).
      exact (after_version_gate_exits params _ E).
    + intros _. split; reflexivity.
Qed.

Lemma version_gate_decides_witness :
  version_gate "0.0.8" sample_document = Ok sample_document
  /\ parseConfig "0.0.8" sample_document = after_version_gate sample_document.
Proof.
  refine (proj2 (version_gate_decides "0.0.8" sample_document
                   (VDict [("minimum", VStr "0.0.8"); ("maximum", VStr "0.0.8")])
                   (VStr "0.0.8") (VStr "0.0.8") 8 8 8 _ _ _ _ _ _) _);
    try reflexivity.
  lia.
Defined.

(* ================================================================= *)
(** ** What each rule does to the document when it returns *)

Lemma store_store (k : string) (v w : value) (d : dict) :
  store k v (store k w d) = store k v d.
Proof.
  induction d as [|[k' v'] d IH]; simpl.
  - now rewrite String.eqb_refl.
  - destruct (String.eqb k k') eqn:E; simpl; rewrite E; [reflexivity|now rewrite IH].
Qed.

Lemma param_store_same (k : string) (v : value) (d : dict) :
  param (store k v d) k = Ok v.
Proof. apply param_found, lookup_store_same. Qed.

Lemma param_Ok (d : dict) (k : string) (v : value) :
  param d k = Ok v -> lookup k d = Some v.
Proof.
  unfold param. simpl. destruct (lookup k d); [|discriminate]. now intros [= ->].
Qed.

Lemma py_len_nonneg (v : value) (n : Z) : py_len v = Ok n -> 0 <= n.
Proof. destruct v; simpl; intros [= <-]; lia. Qed.

(** Takes a returning run apart, bind by bind. *)
Ltac take_apart :=
  repeat match goal with
         | H : bind _ _ = Ok _ |- _ =>
             let a := fresh "p" in
             let E := fresh "E" in
             apply bind_Ok in H; destruct H as (a & E & H); cbv beta in H
         | H : (let '(_, _) := ?a in _) = Ok _ |- _ => destruct a
         | H : Ok _ = Ok _ |- _ => injection H as ?; subst
         end.

Lemma assign2_Ok (params : dict) (a b : string) (x : value) (params' : dict) :
  assign2 params a b x = Ok params' ->
  exists d, lookup a params = Some (VDict d)
            /\ params' = store a (VDict (store b x d)) params.
Proof.
  unfold assign2. intros H. take_apart.
  apply param_Ok in E. destruct p; try discriminate. injection E0 as <-.
  eauto.
Qed.

Lemma assign3_Ok (params : dict) (a b c : string) (x : value) (params' : dict) :
  assign3 params a b c x = Ok params' ->
  exists d e, lookup a params = Some (VDict d) /\ lookup b d = Some (VDict e)
              /\ params' = store a (VDict (store b (VDict (store c x e)) d)) params.
Proof.
  unfold assign3. intros H. take_apart.
  apply param_Ok in E. destruct p; try discriminate.
  simpl in E0. destruct (lookup b d) as [inner|] eqn:Eb; [|discriminate].
  injection E0 as <-. destruct inner; try discriminate.
  injection E1 as <-. injection E2 as <-. eauto.
Qed.

Lemma checks_only_same (ks : list string) (rule : dict -> outcome dict)
    (p p' : dict) :
  checks_only ks rule -> rule p = Ok p' -> p' = p.
Proof.
  intros C H. specialize (C p p (fun _ _ => eq_refl)).
  rewrite H in C. simpl in C. congruence.
Qed.

Lemma checks_only_again (ks : list string) (rule : dict -> outcome dict)
    (p p' q : dict) :
  checks_only ks rule -> rule p = Ok p' ->
  (forall k, In k ks -> lookup k q = lookup k p) -> rule q = Ok q.
Proof. intros C H Hq. rewrite (C p q Hq), H. reflexivity. Qed.

(** Settles [checks_only] for a rule written over [has_key] and [param]:
    the second document is read through the fields of the first, and both
    runs are followed branch by branch. *)
Ltac settle_check :=
  let p := fresh "p" in
  let q := fresh "q" in
  let Hq := fresh "Hq" in
  intros p q Hq;
  unfold has_key, param, getitem, hands_on, bind; cbn [negb];
  repeat rewrite Hq by (simpl; tauto);
  repeat (split_cases; try reflexivity; try discriminate; try congruence).

Lemma version_gate_checks (gandlf_version : string) :
  checks_only ["version"] (version_gate gandlf_version).
Proof. unfold version_gate. settle_check. Qed.

Lemma require_class_list_checks : checks_only ["class_list"] require_class_list.
Proof. unfold require_class_list. settle_check. Qed.

Lemma require_dimension_checks : checks_only ["dimension"] require_dimension.
Proof. unfold require_dimension. settle_check. Qed.

Lemma require_model_checks : checks_only ["model"] require_model.
Proof. unfold require_model. settle_check. Qed.

Lemma refuse_kcross_validation_checks :
  checks_only ["kcross_validation"] refuse_kcross_validation.
Proof. unfold refuse_kcross_validation. settle_check. Qed.

Lemma check_nested_training_checks :
  checks_only ["nested_training"] check_nested_training.
Proof. unfold check_nested_training, default_folds. settle_check. Qed.

(** The guard of line 136 never holds, so [data_preprocessing] is measured
    and nothing more. *)
Lemma check_preprocessing_measures (params : dict) :
  check_preprocessing params
  = (n <- (data_preprocessing <- param params "data_preprocessing" ;;
           py_len data_preprocessing) ;;
     Ok params).
Proof.
  unfold check_preprocessing.
  destruct (param params "data_preprocessing") as [v| | |]; try reflexivity.
  cbn [bind]. destruct (py_len v) as [n| | |] eqn:E; try reflexivity.
  cbn [bind]. apply py_len_nonneg in E.
  destruct (Z.ltb_spec n 0); [lia|reflexivity].
Qed.

Lemma check_preprocessing_checks : checks_only ["data_preprocessing"] check_preprocessing.
Proof.
  intros p q Hq. rewrite !check_preprocessing_measures.
  revert p q Hq. settle_check.
Qed.

Lemma alias_patch_size_Ok (p p' : dict) :
  alias_patch_size p = Ok p' ->
  exists v, lookup "patch_size" p = Some v /\ p' = store "psize" v p.
Proof.
  unfold alias_patch_size. destruct (has_key "patch_size" p); [|discriminate].
  intros H. take_apart. apply param_Ok in E. eauto.
Qed.

Lemma check_resize_Ok (p p' : dict) :
  check_resize p = Ok p' ->
  (lookup "resize" p = None /\ p' = store "resize" VNone p)
  \/ (exists resize psize,
         lookup "resize" p = Some resize /\ lookup "psize" p = Some psize
         /\ np_greater_equal_all resize psize = Ok true /\ p' = p).
Proof.
  unfold check_resize, has_key.
  destruct (lookup "resize" p) as [r|] eqn:Er.
  - intros H. take_apart. apply param_Ok in E, E0.
    destruct p2; cbn [negb] in H; [|discriminate].
    injection H as <-. right. exists p0, p1.
    rewrite Er in E. injection E as <-. auto.
  - intros [= <-]. now left.
Qed.

Lemma set_num_epochs_Ok (p p' : dict) (n : Z) :
  set_num_epochs p = Ok (p', n) -> p' = store "num_epochs" (VInt n) p.
Proof. unfold set_num_epochs. intros H. take_apart. reflexivity. Qed.

Lemma set_patience_Ok (n : Z) (p p' : dict) :
  set_patience n p = Ok p' -> exists m, p' = store "patience" (VInt m) p.
Proof. unfold set_patience. intros H. take_apart. eauto. Qed.

Lemma as_int_settles : settles as_int.
Proof. unfold as_int. intros v x H. take_apart. reflexivity. Qed.

Lemma as_float_settles : settles as_float.
Proof. unfold as_float. intros v x H. take_apart. reflexivity. Qed.

Lemma as_bool_settles : settles as_bool.
Proof. unfold as_bool, py_bool. intros v x H. take_apart. reflexivity. Qed.

Lemma as_str_settles : settles as_str.
Proof. unfold as_str. intros v x H. take_apart. reflexivity. Qed.

Lemma coerce_or_default_Ok (key : string) (coerce : value -> outcome value)
    (default : value) (p p' : dict) :
  settles coerce -> coerce default = Ok default ->
  coerce_or_default key coerce default p = Ok p' ->
  exists x, p' = store key x p /\ coerce x = Ok x.
Proof.
  intros Hs Hd. unfold coerce_or_default. intros H. take_apart.
  exists p0. split; [reflexivity|].
  destruct (has_key key p).
  - take_apart. eapply Hs; eassumption.
  - now injection E as <-.
Qed.

Lemma coerce_or_default_again (key : string) (coerce : value -> outcome value)
    (default : value) (q : dict) (x : value) :
  lookup key q = Some x -> coerce x = Ok x ->
  coerce_or_default key coerce default q = Ok q.
Proof.
  intros Hl Hc. unfold coerce_or_default.
  rewrite (has_key_true _ _ _ Hl), (param_found _ _ _ Hl). cbn [bind].
  rewrite Hc. cbn [bind]. now rewrite (store_lookup_id _ _ _ Hl).
Qed.

(** *** [loss_function] *)

(** Replaces each nested assignment of a returning run by what it did. *)
Ltac use_assign :=
  repeat match goal with
         | E : assign2 _ _ _ _ = Ok _ |- _ =>
             destruct (assign2_Ok _ _ _ _ _ E) as (? & ? & ->); clear E
         | E : assign3 _ _ _ _ _ = Ok _ |- _ =>
             destruct (assign3_Ok _ _ _ _ _ _ E) as (? & ? & ? & ? & ->); clear E
         end.

Lemma loss_turn_Ok (p p' : dict) (k : string) :
  loss_turn p k = Ok p' -> p' = p \/ exists lf, p' = store "loss_function" lf p.
Proof.
  unfold loss_turn. destruct (String.eqb k "mse").
  - intros H. take_apart.
    match goal with H : (if ?b then _ else _) = Ok _ |- _ => destruct b end.
    + take_apart. use_assign. right. rewrite store_store. eauto.
    + injection H as <-. now left.
  - intros [= <-]. right. eauto.
Qed.

Lemma loss_loop_Ok (ks : list string) :
  forall p key p' key',
    loss_loop ks p key = Ok (p', key') ->
    p' = p \/ exists lf, p' = store "loss_function" lf p.
Proof.
  induction ks as [|k ks IH]; intros p key p' key' H; simpl in H.
  - injection H as <- _. now left.
  - take_apart.
    match goal with
    | E : loss_turn _ _ = Ok _, H : loss_loop _ _ _ = Ok _ |- _ =>
        destruct (IH _ _ _ _ H) as [->|(lf & ->)];
        destruct (loss_turn_Ok _ _ _ E) as [->|(lf0 & ->)]
    end; auto; right; rewrite ?store_store; eauto.
Qed.

Lemma normalize_loss_Ok (p p' : dict) (key : option string) :
  normalize_loss p = Ok (p', key) -> exists lf, p' = store "loss_function" lf p.
Proof.
  unfold normalize_loss. intros H.
  apply bind_Ok in H. destruct H as ([[d k] b] & E & H).
  apply bind_Ok in H. destruct H as (lf & _ & H). injection H as <- _.
  assert (M : d = p \/ exists lf, d = store "loss_function" lf p).
  { destruct (has_key "loss_function" p); [|injection E as <- _ _; now left].
    apply bind_Ok in E. destruct E as (v & _ & E).
    destruct v;
      try (destruct (eq_text _ "mse");
           [take_apart; use_assign; right; rewrite !store_store; eauto
           |injection E as <- _ _; now left]).
    destruct (0 <? Z.of_nat (List.length d0)); [|injection E as <- _ _; now left].
    take_apart. eapply loss_loop_Ok; eassumption. }
  destruct M as [->|(lf0 & ->)]; rewrite ?store_store; eauto.
Qed.

(** *** [data_augmentation] *)

Lemma default_probability_Ok (key : option string) (p p' : dict) :
  default_probability key p = Ok p' ->
  p' = p \/ exists da, p' = store "data_augmentation" da p.
Proof.
  unfold default_probability. intros H. take_apart.
  repeat match goal with
         | H : (if ?b then _ else _) = Ok _ |- _ => destruct b; take_apart
         | H : match ?k with Some _ => _ | None => _ end = Ok _ |- _ =>
             destruct k; [|discriminate]
         end;
    try (now left).
  use_assign. right. rewrite store_store. eauto.
Qed.

Lemma default_probability_empty (key : option string) (p : dict) (da : value) :
  lookup "data_augmentation" p = Some da -> py_len da = Ok 0 ->
  default_probability key p = Ok p.
Proof.
  intros Hl Hn. unfold default_probability.
  rewrite (param_found _ _ _ Hl). cbn [bind]. rewrite Hn. reflexivity.
Qed.

(** *** The later rules *)

Lemma set_which_model_Ok (p p' : dict) :
  set_which_model p = Ok p' ->
  exists w, p' = store "which_model" (VStr w) p
            /\ forall v, lookup "modelName" p = Some v -> py_str v = Ok w.
Proof.
  unfold set_which_model, has_key. intros H. take_apart.
  eexists. split; [reflexivity|]. intros v Hv.
  rewrite Hv, (param_found _ _ _ Hv) in E. exact E.
Qed.

Lemma set_q_verbose_Ok (p p' : dict) :
  set_q_verbose p = Ok p' ->
  p' = store "q_verbose"
         (VBool match lookup "q_verbose" p with
                | Some v => eq_text v "True"
                | None => false
                end) p.
Proof.
  unfold set_q_verbose, has_key, param. simpl.
  destruct (lookup "q_verbose" p); simpl; now intros [= <-].
Qed.

Lemma set_parallel_compute_command_Ok (p p' : dict) :
  set_parallel_compute_command p = Ok p' ->
  exists t, p' = store "parallel_compute_command"
                   (VStr (remove_char "034" (remove_char "'" t))) p.
Proof.
  unfold set_parallel_compute_command. intros H. take_apart.
  destruct (has_key "parallel_compute_command" p).
  - take_apart. destruct p1; try discriminate. injection E1 as <-.
    simpl in E. injection E as <-. eauto.
  - injection E as <-. exists EmptyString. reflexivity.
Qed.

(* ================================================================= *)
(** ** A returning run, rule by rule *)

(** Reads [lookup] through a pile of [store]s of other keys. *)
Ltac lookups :=
  repeat first
    [ rewrite lookup_store_same
    | rewrite lookup_store_other by discriminate ].

Ltac lookups_in H :=
  repeat first
    [ rewrite lookup_store_same in H
    | rewrite lookup_store_other in H by discriminate ].

(** Applies to a rule's equation the lemma that says what the rule did. *)
Ltac rule_effects :=
  repeat match goal with
         | E : version_gate _ _ = Ok ?p' |- _ =>
             pose proof (checks_only_same _ _ _ _ (version_gate_checks _) E); subst p'
         | E : require_class_list _ = Ok ?p' |- _ =>
             pose proof (checks_only_same _ _ _ _ require_class_list_checks E); subst p'
         | E : require_dimension _ = Ok ?p' |- _ =>
             pose proof (checks_only_same _ _ _ _ require_dimension_checks E); subst p'
         | E : check_preprocessing _ = Ok ?p' |- _ =>
             pose proof (checks_only_same _ _ _ _ check_preprocessing_checks E); subst p'
         | E : require_model _ = Ok ?p' |- _ =>
             pose proof (checks_only_same _ _ _ _ require_model_checks E); subst p'
         | E : refuse_kcross_validation _ = Ok ?p' |- _ =>
             pose proof (checks_only_same _ _ _ _ refuse_kcross_validation_checks E); subst p'
         | E : check_nested_training _ = Ok ?p' |- _ =>
             pose proof (checks_only_same _ _ _ _ check_nested_training_checks E); subst p'
         end.

Create HintDb settles discriminated.

#[local] Hint Resolve as_int_settles as_float_settles as_bool_settles as_str_settles
  : settles.

(** Replaces each coerce-or-default step of a returning run by its store. *)
Ltac use_coerce :=
  repeat match goal with
         | E : coerce_or_default _ _ _ _ = Ok _ |- _ =>
             eapply coerce_or_default_Ok in E;
             [destruct E as (? & E & ?)|solve [auto with settles]|reflexivity]
         end.

(** A returning run went through every rule, and the checking rules handed
    the document on as it was. *)
Lemma parseConfig_Ok (gandlf_version : string) (doc cfg : dict) :
  parseConfig gandlf_version doc = Ok cfg ->
  exists (p0 p1 p2 p3 p4 : dict) (key : option string),
    version_gate gandlf_version doc = Ok doc
    /\ require_class_list doc = Ok doc
    /\ require_dimension doc = Ok doc
    /\ alias_patch_size doc = Ok p0
    /\ check_resize p0 = Ok p1
    /\ training_parameters p1 = Ok (p2, key)
    /\ default_probability key p2 = Ok p3
    /\ check_preprocessing p3 = Ok p3
    /\ rules_after_preprocessing p3 = Ok cfg.
Proof.
  unfold parseConfig, rules_before_augmentation, required_fields.
  intros H. take_apart. rule_effects.
  repeat eexists; eassumption.
Qed.

(** A field no rule of a stretch writes is the same after the stretch. *)
Lemma required_fields_keep (doc p0 : dict) (k : string) :
  alias_patch_size doc = Ok p0 -> k <> "psize" -> lookup k p0 = lookup k doc.
Proof.
  intros H Hk. destruct (alias_patch_size_Ok _ _ H) as (v & _ & ->).
  now apply lookup_store_other.
Qed.

Lemma check_resize_keeps (p p' : dict) (k : string) :
  check_resize p = Ok p' -> k <> "resize" -> lookup k p' = lookup k p.
Proof.
  intros H Hk.
  destruct (check_resize_Ok _ _ H) as [(_ & ->)|(r & ps & _ & _ & _ & ->)];
    [now apply lookup_store_other|reflexivity].
Qed.

Lemma default_probability_keeps (key : option string) (p p' : dict) (k : string) :
  default_probability key p = Ok p' -> k <> "data_augmentation" ->
  lookup k p' = lookup k p.
Proof.
  intros H Hk.
  destruct (default_probability_Ok _ _ _ H) as [->|(da & ->)];
    [reflexivity|now apply lookup_store_other].
Qed.

Lemma training_parameters_Ok (p p' : dict) (key : option string) :
  training_parameters p = Ok (p', key) ->
  exists (n m : Z) (batch_size amp learning_rate opt : value) (q q' : dict),
    q = store "learning_rate" learning_rate
          (store "amp" amp
             (store "batch_size" batch_size
                (store "patience" (VInt m) (store "num_epochs" (VInt n) p))))
    /\ as_int batch_size = Ok batch_size
    /\ as_bool amp = Ok amp
    /\ as_float learning_rate = Ok learning_rate
    /\ as_str opt = Ok opt
    /\ normalize_loss q = Ok (q', key)
    /\ p' = store "opt" opt q'.
Proof.
  unfold training_parameters. intros H. take_apart.
  repeat match goal with
         | E : set_num_epochs _ = Ok _ |- _ => apply set_num_epochs_Ok in E
         | E : set_patience _ _ = Ok _ |- _ =>
             apply set_patience_Ok in E; destruct E as (? & E)
         end.
  use_coerce.
  subst. repeat eexists; eassumption.
Qed.

Lemma rules_after_preprocessing_Ok (p cfg : dict) :
  rules_after_preprocessing p = Ok cfg ->
  exists (base_filters scheduler q_max_length q_samples_per_volume q_num_workers : value)
         (which_model text : string) (q : dict),
    q = store "which_model" (VStr which_model) (store "base_filters" base_filters p)
    /\ (forall v, lookup "modelName" p = Some v -> py_str v = Ok which_model)
    /\ require_model q = Ok q
    /\ refuse_kcross_validation q = Ok q
    /\ check_nested_training q = Ok q
    /\ as_int base_filters = Ok base_filters
    /\ as_str scheduler = Ok scheduler
    /\ as_int q_max_length = Ok q_max_length
    /\ as_int q_samples_per_volume = Ok q_samples_per_volume
    /\ as_int q_num_workers = Ok q_num_workers
    /\ cfg = store "parallel_compute_command"
               (VStr (remove_char "034" (remove_char "'" text)))
               (store "q_verbose"
                  (VBool match lookup "q_verbose" p with
                         | Some v => eq_text v "True"
                         | None => false
                         end)
                  (store "q_num_workers" q_num_workers
                     (store "q_samples_per_volume" q_samples_per_volume
                        (store "q_max_length" q_max_length
                           (store "scheduler" scheduler q))))).
Proof.
  unfold rules_after_preprocessing. intros H. take_apart. rule_effects.
  use_coerce.
  repeat match goal with
         | E : set_q_verbose _ = Ok _ |- _ => apply set_q_verbose_Ok in E
         | E : set_parallel_compute_command _ = Ok _ |- _ =>
             apply set_parallel_compute_command_Ok in E; destruct E as (? & E)
         end.
  match goal with
  | E : set_which_model _ = Ok _ |- _ =>
      apply set_which_model_Ok in E; destruct E as (? & E & Ew)
  end.
  subst. rewrite lookup_store_other in Ew by discriminate.
  lookups. repeat eexists; eassumption.
Qed.

Lemma rules_after_preprocessing_keep (p cfg : dict) (k : string) :
  rules_after_preprocessing p = Ok cfg ->
  ~ In k ["base_filters"; "which_model"; "scheduler"; "q_max_length";
          "q_samples_per_volume"; "q_num_workers"; "q_verbose";
          "parallel_compute_command"] ->
  lookup k cfg = lookup k p.
Proof.
  intros H Hk.
  destruct (rules_after_preprocessing_Ok _ _ H)
    as (? & ? & ? & ? & ? & ? & ? & ? & -> & _ & _ & _ & _ & _ & _ & _ & _ & _ & ->).
  simpl in Hk.
  repeat (rewrite lookup_store_other by (intros ->; tauto)). reflexivity.
Qed.

Lemma training_parameters_keep (p p' : dict) (key : option string) (k : string) :
  training_parameters p = Ok (p', key) ->
  ~ In k ["num_epochs"; "patience"; "batch_size"; "amp"; "learning_rate";
          "loss_function"; "opt"] ->
  lookup k p' = lookup k p.
Proof.
  intros H Hk.
  destruct (training_parameters_Ok _ _ _ H)
    as (? & ? & ? & ? & ? & ? & ? & ? & -> & _ & _ & _ & _ & Hl & ->).
  destruct (normalize_loss_Ok _ _ _ Hl) as (lf & ->).
  simpl in Hk.
  repeat (rewrite lookup_store_other by (intros ->; tauto)). reflexivity.
Qed.

(* ================================================================= *)
(** ** [loss_function] *)

Lemma assign2_found (p : dict) (a b : string) (x : value) (d : dict) :
  lookup a p = Some (VDict d) ->
  assign2 p a b x = Ok (store a (VDict (store b x d)) p).
Proof. intros H. unfold assign2. now rewrite (param_found _ _ _ H). Qed.

Lemma assign3_found (p : dict) (a b c : string) (x : value) (d e : dict) :
  lookup a p = Some (VDict d) -> lookup b d = Some (VDict e) ->
  assign3 p a b c x = Ok (store a (VDict (store b (VDict (store c x e)) d)) p).
Proof.
  intros H H'. unfold assign3. rewrite (param_found _ _ _ H). simpl.
  now rewrite H'.
Qed.

(** The four shapes of C3 at the rule itself: it returns, with the loss it
    is claimed to settle on. *)
Lemma normalize_loss_cases (p : dict) :
  (lookup "loss_function" p = None ->
   normalize_loss p = Ok (store "loss_function" (VStr "dc") p, None))
  /\ (lookup "loss_function" p = Some (VStr "mse") ->
      normalize_loss p = Ok (store "loss_function" mse_mean p, None))
  /\ (forall sub, sub = VNone \/ sub = VDict [] ->
      lookup "loss_function" p = Some (VDict [("mse", sub)]) ->
      normalize_loss p = Ok (store "loss_function" mse_mean p, Some "mse"))
  /\ (lookup "loss_function" p = Some (VDict []) ->
      normalize_loss p = Ok (store "loss_function" (VStr "dc") p, None)).
Proof.
  repeat split.
  - intros H. unfold normalize_loss. now rewrite (has_key_false _ _ H).
  - intros H. unfold normalize_loss.
    rewrite (has_key_true _ _ _ H), (param_found _ _ _ H). cbn [bind eq_text String.eqb Ascii.eqb Bool.eqb].
    rewrite (assign2_found _ _ _ _ [] (lookup_store_same _ _ _)). cbn [bind].
    rewrite store_store.
    rewrite (assign3_found _ _ _ _ _ _ [] (lookup_store_same _ _ _)
               (lookup_store_same _ _ _)).
    cbn [bind]. rewrite param_store_same. cbn [bind].
    now rewrite !store_store.
  - intros sub Hsub H. unfold normalize_loss.
    rewrite (has_key_true _ _ _ H), (param_found _ _ _ H).
    cbn [bind List.length Z.of_nat Z.ltb Z.compare keys map fst loss_loop].
    assert (T : loss_turn p "mse" = Ok (store "loss_function" mse_mean p)).
    { unfold loss_turn. cbn [String.eqb Ascii.eqb Bool.eqb].
      rewrite (param_found _ _ _ H). cbn [bind getitem lookup String.eqb Ascii.eqb Bool.eqb].
      assert (N : needs_default "reduction" sub = Ok true)
        by (destruct Hsub as [->| ->]; reflexivity).
      rewrite N. cbn [bind].
      rewrite (assign2_found _ _ _ _ _ H). cbn [bind].
      rewrite (assign3_found _ _ _ _ _ _ [] (lookup_store_same _ _ _)
                 (lookup_store_same _ _ _)).
      now rewrite store_store. }
    rewrite T. cbn [bind]. rewrite param_store_same. cbn [bind].
    now rewrite store_store.
  - intros H. unfold normalize_loss.
    now rewrite (has_key_true _ _ _ H), (param_found _ _ _ H).
Qed.

(** Where [loss_function] is settled in a returning run, and that it stays
    as settled to the end. *)
Lemma loss_function_survives (gandlf_version : string) (doc cfg : dict) :
  parseConfig gandlf_version doc = Ok cfg ->
  exists (q q' : dict) (key : option string),
    lookup "loss_function" q = lookup "loss_function" doc
    /\ normalize_loss q = Ok (q', key)
    /\ lookup "loss_function" cfg = lookup "loss_function" q'.
Proof.
  intros H.
  destruct (parseConfig_Ok _ _ _ H)
    as (p0 & p1 & p2 & p3 & p4 & key & _ & _ & _ & H0 & H1 & H2 & H3 & _ & H4).
  destruct (training_parameters_Ok _ _ _ H2)
    as (n & m & b & a & l & o & q & q' & Hq & _ & _ & _ & _ & Hl & Hp2).
  exists q, q', key. repeat split; [|exact Hl|].
  - rewrite Hq. lookups.
    rewrite (check_resize_keeps _ _ _ H1) by discriminate.
    apply (required_fields_keep _ _ _ H0). discriminate.
  - rewrite (rules_after_preprocessing_keep _ _ _ H4)
      by (simpl; intros C; repeat (destruct C as [C|C]; [discriminate C|]); exact C).
    rewrite (default_probability_keeps _ _ _ _ H3) by discriminate.
    rewrite Hp2. now lookups.
Qed.

(** C3: in the mapping [parseConfig] returns, [loss_function] is "dc" when
    the document has no such key, the mapping of "mse" to a [reduction] of
    "mean" when the document gives the bare text "mse" or the mapping of
    "mse" to nothing or to an empty mapping, and "dc" again when the
    document gives an empty mapping. *)
Theorem loss_function_normalized (gandlf_version : string) (doc cfg : dict) :
  parseConfig gandlf_version doc = Ok cfg ->
  (lookup "loss_function" doc = None ->
   lookup "loss_function" cfg = Some (VStr "dc"))
  /\ (lookup "loss_function" doc = Some (VStr "mse") ->
      lookup "loss_function" cfg = Some mse_mean)
  /\ (forall sub, sub = VNone \/ sub = VDict [] ->
      lookup "loss_function" doc = Some (VDict [("mse", sub)]) ->
      lookup "loss_function" cfg = Some mse_mean)
  /\ (lookup "loss_function" doc = Some (VDict []) ->
      lookup "loss_function" cfg = Some (VStr "dc")).
Proof.
  intros H.
  destruct (loss_function_survives _ _ _ H) as (q & q' & key & Hq & Hl & Hc).
  destruct (normalize_loss_cases q) as (Ca & Cb & Cc & Cd).
  rewrite Hc. rewrite <- Hq.
  repeat split.
  - intros E. rewrite (Ca E) in Hl. injection Hl as <- _. now lookups.
  - intros E. rewrite (Cb E) in Hl. injection Hl as <- _. now lookups.
  - intros sub Hsub E. rewrite (Cc sub Hsub E) in Hl. injection Hl as <- _. now lookups.
  - intros E. rewrite (Cd E) in Hl. injection Hl as <- _. now lookups.
Qed.

Lemma loss_function_normalized_witness :
  (exists cfg, parseConfig "0.0.8" sample_document = Ok cfg
               /\ lookup "loss_function" cfg = Some (VStr "dc"))
  /\ (exists cfg, parseConfig "0.0.8"
                    (store "loss_function" (VStr "mse") sample_document) = Ok cfg
                  /\ lookup "loss_function" cfg = Some mse_mean)
  /\ (exists cfg, parseConfig "0.0.8"
                    (store "loss_function" (VDict [("mse", VDict [])]) sample_document)
                  = Ok cfg
                  /\ lookup "loss_function" cfg = Some mse_mean)
  /\ (exists cfg, parseConfig "0.0.8"
                    (store "loss_function" (VDict []) sample_document) = Ok cfg
                  /\ lookup "loss_function" cfg = Some (VStr "dc")).
Proof.
  split; [|split; [|split]]; eexists; (split; [vm_compute; reflexivity|]).
  - refine (proj1 (loss_function_normalized "0.0.8" sample_document _ _) _);
      vm_compute; reflexivity.
  - refine (proj1 (proj2 (loss_function_normalized "0.0.8"
              (store "loss_function" (VStr "mse") sample_document) _ _)) _);
      vm_compute; reflexivity.
  - refine (proj1 (proj2 (proj2 (loss_function_normalized "0.0.8"
              (store "loss_function" (VDict [("mse", VDict [])]) sample_document) _ _)))
              (VDict []) _ _); [vm_compute; reflexivity|now right|vm_compute; reflexivity].
  - refine (proj2 (proj2 (proj2 (loss_function_normalized "0.0.8"
              (store "loss_function" (VDict []) sample_document) _ _))) _);
      vm_compute; reflexivity.
Defined.

(* ================================================================= *)
(** ** [resize] against [patch_size] *)

Lemma cells_of_ints (zs : list Z) :
  Forall (fun z => int64 z = true) zs -> cells_of (map VInt zs) = Some (map CInt zs).
Proof.
  induction 1 as [|z zs Hz _ IH]; simpl; [reflexivity|].
  now rewrite Hz, IH.
Qed.

Lemma array_dtype_ints (zs : list Z) :
  array_dtype (map CInt zs) = match zs with [] => DFloat | _ => DInt end.
Proof.
  destruct zs as [|z zs]; simpl; [reflexivity|].
  induction zs as [|y ys IH]; simpl; [reflexivity|exact IH].
Qed.

Lemma forallb_cell_ge_ints (t : dtype) (rs ps : list Z) :
  t = DInt ->
  forallb (fun p => cell_ge t (fst p) (snd p)) (combine (map CInt rs) (map CInt ps))
  = all_ge rs ps.
Proof.
  intros ->. unfold all_ge. revert ps.
  induction rs as [|r rs IH]; intros [|p ps]; simpl; try reflexivity.
  now rewrite IH.
Qed.

(** On two integer sequences of one length the comparison is the
    element-wise one. *)
Lemma np_greater_equal_all_ints (rs ps : list Z) :
  Forall (fun z => int64 z = true) rs -> Forall (fun z => int64 z = true) ps ->
  List.length rs = List.length ps ->
  np_greater_equal_all (int_list rs) (int_list ps) = Ok (all_ge rs ps).
Proof.
  intros Hr Hp Hlen. unfold np_greater_equal_all, int_list, asarray.
  rewrite (cells_of_ints _ Hr), (cells_of_ints _ Hp).
  unfold broadcast. rewrite !length_map, Hlen, Nat.eqb_refl.
  rewrite !array_dtype_ints.
  destruct rs as [|r rs], ps as [|p ps]; try discriminate; [reflexivity|].
  change (promote DInt DInt) with DInt.
  rewrite (forallb_cell_ge_ints DInt (r :: rs) (p :: ps) eq_refl).
  reflexivity.
Qed.

Lemma all_ge_positions (rs ps : list Z) :
  List.length rs = List.length ps ->
  (all_ge rs ps = true
   <-> forall i, (i < List.length rs)%nat -> nth i ps 0 <= nth i rs 0).
Proof.
  unfold all_ge. revert ps.
  induction rs as [|r rs IH]; intros [|p ps] Hlen; try discriminate; simpl.
  - split; [intros _ i Hi; lia|reflexivity].
  - injection Hlen as Hlen. rewrite andb_true_iff, (IH ps Hlen). split.
    + intros [H0 H] [|i] Hi; [lia|apply H; lia].
    + intros H. split.
      * specialize (H 0%nat). simpl in H. apply Z.leb_le, H. lia.
      * intros i Hi. apply (H (S i)). lia.
Qed.

Lemma parseConfig_stops_at_resize (gandlf_version : string) (doc p0 : dict)
    (o : outcome dict) :
  required_fields gandlf_version doc = Ok p0 ->
  check_resize p0 = o -> (forall p, o <> Ok p) ->
  parseConfig gandlf_version doc
  = match o with Ok _ => Beyond "" | Exit m => Exit m | Raise e => Raise e | Beyond w => Beyond w end.
Proof.
  intros H0 H1 Hno. unfold parseConfig, rules_before_augmentation.
  rewrite H0. cbn [bind]. rewrite H1.
  destruct o; try reflexivity. exfalso. now apply (Hno a).
Qed.

Lemma resize_survives (gandlf_version : string) (doc cfg : dict) :
  parseConfig gandlf_version doc = Ok cfg ->
  exists p0 p1,
    required_fields gandlf_version doc = Ok p0
    /\ lookup "resize" p0 = lookup "resize" doc
    /\ lookup "psize" p0 = lookup "patch_size" doc
    /\ check_resize p0 = Ok p1
    /\ lookup "resize" cfg = lookup "resize" p1.
Proof.
  intros H.
  destruct (parseConfig_Ok _ _ _ H)
    as (p0 & p1 & p2 & p3 & p4 & key & G0 & G1 & G2 & H0 & H1 & H2 & H3 & _ & H4).
  exists p0, p1.
  destruct (alias_patch_size_Ok _ _ H0) as (v & Hv & E0).
  repeat split.
  - unfold required_fields. rewrite G0. cbn [bind]. rewrite G1. cbn [bind].
    rewrite G2. exact H0.
  - rewrite E0. now lookups.
  - rewrite E0. now lookups.
  - exact H1.
  - rewrite (rules_after_preprocessing_keep _ _ _ H4)
      by (simpl; intros C; repeat (destruct C as [C|C]; [discriminate C|]); exact C).
    rewrite (default_probability_keeps _ _ _ _ H3) by discriminate.
    apply (training_parameters_keep _ _ _ _ H2).
    simpl; intros C; repeat (destruct C as [C|C]; [discriminate C|]); exact C.
Qed.

(* ================================================================= *)
(** ** [data_preprocessing]: the rule behind the guard of line 136 *)

(** C2, what the code does: the rule about [threshold] and [clip] never
    runs.  [check_preprocessing] returns the document it was given whenever
    [data_preprocessing] has a length, and exits on no document at all; so
    a document with both keys goes through untouched, and one with a bare
    [threshold] keeps it bare. *)
Theorem threshold_and_clip_go_through :
  (forall params msg, check_preprocessing params <> Exit msg)
  /\ (forall params v n,
         lookup "data_preprocessing" params = Some v -> py_len v = Ok n ->
         check_preprocessing params = Ok params)
  /\ (exists cfg,
         parseConfig "0.0.8" threshold_and_clip = Ok cfg
         /\ lookup "data_preprocessing" cfg
            = Some (VDict [("threshold", VDict [("min", VInt 0)]);
                           ("clip", VDict [("max", VInt 1)])]))
  /\ (exists cfg,
         parseConfig "0.0.8" bare_threshold = Ok cfg
         /\ lookup "data_preprocessing" cfg = Some (VDict [("threshold", VNone)])).
Proof.
  split; [|split; [|split]].
  - intros params msg. rewrite check_preprocessing_measures.
    intros H. apply bind_Exit in H. destruct H as [H|(n & _ & H)]; [|discriminate].
    apply bind_Exit in H. destruct H as [H|(v & _ & H)].
    + exact (param_no_exit [] _ _ _ H).
    + exact (py_len_no_exit [] _ _ H).
  - intros params v n Hv Hn. rewrite check_preprocessing_measures.
    rewrite (param_found _ _ _ Hv). cbn [bind]. now rewrite Hn.
  - eexists. split; vm_compute; reflexivity.
  - eexists. split; vm_compute; reflexivity.
Qed.

(* ================================================================= *)
(** ** [nested_training]: the fold counts *)

Lemma nested_training_survives (gandlf_version : string) (doc cfg : dict) :
  parseConfig gandlf_version doc = Ok cfg ->
  lookup "nested_training" cfg = lookup "nested_training" doc
  /\ exists q, lookup "nested_training" q = lookup "nested_training" doc
               /\ check_nested_training q = Ok q.
Proof.
  intros H.
  destruct (parseConfig_Ok _ _ _ H)
    as (p0 & p1 & p2 & p3 & p4 & key & _ & _ & _ & H0 & H1 & H2 & H3 & _ & H4).
  assert (L3 : lookup "nested_training" p3 = lookup "nested_training" doc).
  { rewrite (default_probability_keeps _ _ _ _ H3) by discriminate.
    rewrite (training_parameters_keep _ _ _ _ H2)
      by (simpl; intros C; repeat (destruct C as [C|C]; [discriminate C|]); exact C).
    rewrite (check_resize_keeps _ _ _ H1) by discriminate.
    apply (required_fields_keep _ _ _ H0). discriminate. }
  split.
  - rewrite (rules_after_preprocessing_keep _ _ _ H4)
      by (simpl; intros C; repeat (destruct C as [C|C]; [discriminate C|]); exact C).
    exact L3.
  - destruct (rules_after_preprocessing_Ok _ _ H4)
      as (? & ? & ? & ? & ? & ? & ? & q & Hq & _ & _ & _ & Hn & _).
    exists q. split; [|exact Hn]. rewrite Hq. now lookups.
Qed.

(** C5, what the code does: a returning run hands [nested_training] back
    as the document gave it, and that is a mapping with both [holdout] and
    [validation]; the count of -10 is written nowhere, so fold counts of
    zero come back as zero. *)
Theorem fold_counts_are_not_defaulted :
  (forall gandlf_version doc cfg,
      parseConfig gandlf_version doc = Ok cfg ->
      lookup "nested_training" cfg = lookup "nested_training" doc
      /\ exists d holdout validation,
           lookup "nested_training" cfg = Some (VDict d)
           /\ lookup "holdout" d = Some holdout
           /\ lookup "validation" d = Some validation)
  /\ (exists cfg,
         parseConfig "0.0.8" zero_folds = Ok cfg
         /\ lookup "nested_training" cfg
            = Some (VDict [("holdout", VInt 0); ("validation", VInt 0)])).
Proof.
  split.
  - intros gv doc cfg H.
    destruct (nested_training_survives _ _ _ H) as (Hc & q & Hq & Hn).
    split; [exact Hc|]. rewrite Hc, <- Hq.
    unfold check_nested_training, default_folds, param, getitem in Hn.
    destruct (lookup "nested_training" q) as [nt|]; [|discriminate].
    cbn [bind] in Hn. destruct (truthy nt); [|discriminate]. cbn [negb] in Hn.
    destruct nt; try discriminate.
    destruct (lookup "holdout" d) as [h|] eqn:Eh; [|discriminate].
    destruct (lookup "validation" d) as [v|] eqn:Ev;
      [|cbn [bind] in Hn; destruct (negb (truthy h)); discriminate].
    exists d, h, v. auto.
  - eexists. split; vm_compute; reflexivity.
Qed.

(* ================================================================= *)
(** ** [data_augmentation]: the rule without its loop *)

(** C6, what the code does: with a non-empty [data_augmentation] the rule
    looks at one key at most, the one the loop over [loss_function] left in
    [key].  Without a loss given as a mapping the name is unbound; under the
    loss "mse" written as a mapping the key "mse" is looked up among the
    augmentations; and when the key names an augmentation, that one gets its
    probability and every other entry is left as it was. *)
Theorem augmentations_are_not_walked :
  parseConfig "0.0.8" flip_alone = Raise (UnboundLocalError "key")
  /\ parseConfig "0.0.8" flip_under_mse = Raise (UnboundLocalError "key")
  /\ parseConfig "0.0.8"
       (store "loss_function" (VDict [("mse", VNone)]) flip_alone)
     = Raise (KeyError "mse")
  /\ (exists cfg,
         parseConfig "0.0.8" flip_and_rotate = Ok cfg
         /\ lookup "data_augmentation" cfg
            = Some (VDict [("flip", VDict [("probability", VInt 1)]);
                           ("rotate", VNone)])).
Proof.
  split; [|split; [|split]]; try (vm_compute; reflexivity).
  eexists. split; vm_compute; reflexivity.
Qed.

(* ================================================================= *)
(** ** The fields a document must carry *)

Lemma parseConfig_without_version (gandlf_version : string) (doc : dict) :
  lookup "version" doc = None -> parseConfig gandlf_version doc = Exit msg_version.
Proof.
  intros H. rewrite parseConfig_after_gate. unfold version_gate.
  now rewrite (has_key_false _ _ H).
Qed.

(** C9, what the code does: a document without [version] exits with the
    message about [version], whatever else it holds; the sample document
    without [class_list], [patch_size] or [model] exits with the message
    about that field; without [dimension] it dies of the key lookup of line
    39, and so does a document that passes the version gate, carries
    [class_list] and lacks [dimension]. *)
Theorem missing_dimension_is_a_key_error :
  (forall gandlf_version doc,
      lookup "version" doc = None ->
      parseConfig gandlf_version doc = Exit msg_version)
  /\ parseConfig "0.0.8" (without "class_list" sample_document) = Exit msg_class_list
  /\ parseConfig "0.0.8" (without "patch_size" sample_document) = Exit msg_patch_size
  /\ parseConfig "0.0.8" (without "model" sample_document) = Exit msg_model_dict
  /\ parseConfig "0.0.8" (without "dimension" sample_document)
     = Raise (KeyError "dimension")
  /\ (forall gandlf_version doc class_list,
         version_gate gandlf_version doc = Ok doc ->
         lookup "class_list" doc = Some class_list ->
         lookup "dimension" doc = None ->
         parseConfig gandlf_version doc = Raise (KeyError "dimension")).
Proof.
  split; [exact parseConfig_without_version|].
  split; [vm_compute; reflexivity|].
  split; [vm_compute; reflexivity|].
  split; [vm_compute; reflexivity|].
  split; [vm_compute; reflexivity|].
  intros gv doc cl Hg Hc Hd.
  rewrite parseConfig_after_gate, Hg. cbn [bind].
  unfold after_version_gate, require_class_list, require_dimension.
  rewrite (has_key_true _ _ _ Hc). cbn [negb bind].
  now rewrite (param_missing _ _ Hd).
Qed.

(* ================================================================= *)
(** ** [data_augmentation] and [data_preprocessing] are read unguarded *)

Lemma rules_before_augmentation_keep (gandlf_version : string) (doc p : dict)
    (key : option string) (k : string) :
  rules_before_augmentation gandlf_version doc = Ok (p, key) ->
  ~ In k ["psize"; "resize"; "num_epochs"; "patience"; "batch_size"; "amp";
          "learning_rate"; "loss_function"; "opt"] ->
  lookup k p = lookup k doc.
Proof.
  unfold rules_before_augmentation, required_fields. intros H Hk.
  take_apart. rule_effects.
  match goal with
  | H0 : alias_patch_size _ = Ok _, H1 : check_resize _ = Ok _,
    H2 : training_parameters _ = Ok _ |- _ =>
      rewrite (training_parameters_keep _ _ _ _ H2)
        by (intros C; apply Hk; simpl in C |- *; tauto);
      rewrite (check_resize_keeps _ _ _ H1)
        by (intros ->; apply Hk; simpl; tauto);
      apply (required_fields_keep _ _ _ H0); intros ->; apply Hk; simpl; tauto
  end.
Qed.

(** C10, as the code has it: a document without [data_augmentation] or
    without [data_preprocessing] never comes back as a configuration.  When
    the rules of lines 25-123 let it through, the missing
    [data_augmentation] is a [KeyError] at line 126; when those rules and
    the rule of lines 126-133 let it through, the missing
    [data_preprocessing] is a [KeyError] at line 136. *)
Theorem unguarded_lookups (gandlf_version : string) (doc : dict) :
  lookup "data_augmentation" doc = None \/ lookup "data_preprocessing" doc = None ->
  (forall cfg, parseConfig gandlf_version doc <> Ok cfg)
  /\ (lookup "data_augmentation" doc = None ->
      forall p key,
        rules_before_augmentation gandlf_version doc = Ok (p, key) ->
        parseConfig gandlf_version doc = Raise (KeyError "data_augmentation"))
  /\ (lookup "data_preprocessing" doc = None ->
      forall p key p',
        rules_before_augmentation gandlf_version doc = Ok (p, key) ->
        default_probability key p = Ok p' ->
        parseConfig gandlf_version doc = Raise (KeyError "data_preprocessing")).
Proof.
  intros Hmiss.
  assert (A : lookup "data_augmentation" doc = None ->
              forall p key,
                rules_before_augmentation gandlf_version doc = Ok (p, key) ->
                parseConfig gandlf_version doc = Raise (KeyError "data_augmentation")).
  { intros Hda p key Hb. unfold parseConfig. rewrite Hb. cbn [bind].
    unfold default_probability.
    rewrite param_missing; [reflexivity|].
    rewrite (rules_before_augmentation_keep _ _ _ _ _ Hb); [exact Hda|].
    simpl; intros C; repeat (destruct C as [C|C]; [discriminate C|]); exact C. }
  assert (B : lookup "data_preprocessing" doc = None ->
              forall p key p',
                rules_before_augmentation gandlf_version doc = Ok (p, key) ->
                default_probability key p = Ok p' ->
                parseConfig gandlf_version doc = Raise (KeyError "data_preprocessing")).
  { intros Hdp p key p' Hb Hd. unfold parseConfig. rewrite Hb. cbn [bind].
    rewrite Hd. cbn [bind]. unfold check_preprocessing.
    rewrite param_missing; [reflexivity|].
    rewrite (default_probability_keeps _ _ _ _ Hd) by discriminate.
    rewrite (rules_before_augmentation_keep _ _ _ _ _ Hb); [exact Hdp|].
    simpl; intros C; repeat (destruct C as [C|C]; [discriminate C|]); exact C. }
  split; [|split; assumption].
  intros cfg H.
  assert (S : exists p key p',
             rules_before_augmentation gandlf_version doc = Ok (p, key)
             /\ default_probability key p = Ok p').
  { unfold parseConfig in H.
    apply bind_Ok in H. destruct H as ([p key] & Hb & H).
    apply bind_Ok in H. destruct H as (p' & Hd & _). eauto. }
  destruct S as (p & key & p' & Hb & Hd).
  destruct Hmiss as [Hda|Hdp].
  - rewrite (A Hda p key Hb) in H. discriminate.
  - rewrite (B Hdp p key p' Hb Hd) in H. discriminate.
Qed.

Lemma unguarded_lookups_witness :
  parseConfig "0.0.8" (without "data_augmentation" sample_document)
  = Raise (KeyError "data_augmentation")
  /\ parseConfig "0.0.8" (without "data_preprocessing" sample_document)
     = Raise (KeyError "data_preprocessing").
Proof.
  split.
  - refine (proj1 (proj2 (unguarded_lookups "0.0.8"
              (without "data_augmentation" sample_document) _)) _
              (store "opt" (VStr "adam")
                 (store "loss_function" (VStr "dc")
                    (store "learning_rate" (VFloat 0.001)
                       (store "amp" (VBool false)
                          (store "batch_size" (VInt 1)
                             (store "patience" (VInt 100)
                                (store "num_epochs" (VInt 100)
                                   (store "resize" VNone
                                      (store "psize" (int_list [128; 128])
                                         (without "data_augmentation"
                                            sample_document))))))))))
              None _).
    + left. vm_compute. reflexivity.
    + vm_compute. reflexivity.
    + vm_compute. reflexivity.
  - refine (proj2 (proj2 (unguarded_lookups "0.0.8"
              (without "data_preprocessing" sample_document) _)) _
              (store "opt" (VStr "adam")
                 (store "loss_function" (VStr "dc")
                    (store "learning_rate" (VFloat 0.001)
                       (store "amp" (VBool false)
                          (store "batch_size" (VInt 1)
                             (store "patience" (VInt 100)
                                (store "num_epochs" (VInt 100)
                                   (store "resize" VNone
                                      (store "psize" (int_list [128; 128])
                                         (without "data_preprocessing"
                                            sample_document))))))))))
              None
              (store "opt" (VStr "adam")
                 (store "loss_function" (VStr "dc")
                    (store "learning_rate" (VFloat 0.001)
                       (store "amp" (VBool false)
                          (store "batch_size" (VInt 1)
                             (store "patience" (VInt 100)
                                (store "num_epochs" (VInt 100)
                                   (store "resize" VNone
                                      (store "psize" (int_list [128; 128])
                                         (without "data_preprocessing"
                                            sample_document))))))))))
              _ _).
    + right. vm_compute. reflexivity.
    + vm_compute. reflexivity.
    + vm_compute. reflexivity.
    + vm_compute. reflexivity.
Defined.

(** C10, where the claim fails: a document without [data_augmentation] that
    also lacks [class_list] (or everything) does leave through [sys.exit],
    before line 126 is reached. *)
Lemma missing_augmentation_can_exit :
  lookup "data_augmentation" (without "class_list" (without "data_augmentation" sample_document))
  = None
  /\ parseConfig "0.0.8"
       (without "class_list" (without "data_augmentation" sample_document))
     = Exit msg_class_list
  /\ lookup "data_augmentation" [] = None
  /\ parseConfig "0.0.8" [] = Exit msg_version.
Proof. split; [|split; [|split]]; vm_compute; reflexivity. Qed.

(* ================================================================= *)
(** ** Running [parseConfig] on what it returned *)

(** *** [loss_function] a second time *)

Lemma keys_store (k : string) (v w : value) (d : dict) :
  lookup k d = Some w -> keys (store k v d) = keys d.
Proof.
  unfold keys. induction d as [|[k' v'] d IH]; simpl; [discriminate|].
  destruct (String.eqb k k'); simpl; [reflexivity|].
  intros H. now rewrite IH.
Qed.

(** One turn of the loop on the key "mse", as long as [loss_function] is
    still the mapping. *)
Lemma loss_turn_mse (p d : dict) (e : value) :
  lookup "loss_function" p = Some (VDict d) -> lookup "mse" d = Some e ->
  loss_turn p "mse"
  = (fill <- needs_default "reduction" e ;;
     if fill
     then Ok (store "loss_function"
                (VDict (store "mse" (VDict [("reduction", VStr "mean")]) d)) p)
     else Ok p).
Proof.
  intros Hp He. unfold loss_turn. cbn [String.eqb Ascii.eqb Bool.eqb].
  rewrite (param_found _ _ _ Hp). cbn [bind getitem]. rewrite He. cbn [bind].
  destruct (needs_default "reduction" e) as [[|]| | |]; try reflexivity.
  cbn [bind]. rewrite (assign2_found _ _ _ _ _ Hp). cbn [bind].
  rewrite (assign3_found _ _ _ _ _ _ [] (lookup_store_same _ _ _)
             (lookup_store_same _ _ _)).
  now rewrite !store_store.
Qed.

(** Once a turn has put a key's text in place of the mapping, the loop can
    only go on over keys other than "mse". *)
Lemma loss_loop_text (ks : list string) :
  forall p key p' key' k0,
    lookup "loss_function" p = Some (VStr k0) -> String.eqb k0 "mse" = false ->
    loss_loop ks p key = Ok (p', key') ->
    exists k, String.eqb k "mse" = false /\ p' = store "loss_function" (VStr k) p.
Proof.
  induction ks as [|k ks IH]; intros p key p' key' k0 Hp Hk0 H; simpl in H.
  - injection H as <- _. exists k0. split; [exact Hk0|].
    now rewrite (store_lookup_id _ _ _ Hp).
  - apply bind_Ok in H. destruct H as (p1 & Ht & H).
    unfold loss_turn in Ht. destruct (String.eqb k "mse") eqn:Ek.
    + rewrite (param_found _ _ _ Hp) in Ht. discriminate.
    + injection Ht as <-.
      destruct (IH _ _ _ _ k (lookup_store_same _ _ _) Ek H) as (k' & Hk' & ->).
      exists k'. split; [exact Hk'|]. now rewrite store_store.
Qed.

Lemma loss_loop_mapping (ks : list string) :
  forall p key p' key' d,
    lookup "loss_function" p = Some (VDict d) ->
    loss_loop ks p key = Ok (p', key') ->
    (exists k, String.eqb k "mse" = false /\ p' = store "loss_function" (VStr k) p)
    \/ (Forall (fun k => k = "mse") ks
        /\ exists d', p' = store "loss_function" (VDict d') p
                      /\ keys d' = keys d
                      /\ (mse_settled d -> d' = d)
                      /\ (ks <> [] -> mse_settled d')).
Proof.
  induction ks as [|k ks IH]; intros p key p' key' d Hp H; simpl in H.
  - injection H as <- _. right. split; [constructor|].
    exists d. rewrite (store_lookup_id _ _ _ Hp). repeat split; auto.
    intros C. now elim C.
  - apply bind_Ok in H. destruct H as (p1 & Ht & H).
    destruct (String.eqb_spec k "mse") as [->|Hne].
    + assert (He : exists e, lookup "mse" d = Some e).
      { unfold loss_turn in Ht. cbn [String.eqb Ascii.eqb Bool.eqb] in Ht.
        rewrite (param_found _ _ _ Hp) in Ht. cbn [bind getitem] in Ht.
        destruct (lookup "mse" d); [eauto|discriminate]. }
      destruct He as (e & He).
      rewrite (loss_turn_mse _ _ _ Hp He) in Ht.
      destruct (needs_default "reduction" e) as [fill| | |] eqn:En; try discriminate.
      cbn [bind] in Ht. destruct fill; injection Ht as <-.
      * set (d1 := store "mse" (VDict [("reduction", VStr "mean")]) d) in *.
        assert (S1 : mse_settled d1).
        { exists (VDict [("reduction", VStr "mean")]). split; [|reflexivity].
          apply lookup_store_same. }
        destruct (IH _ _ _ _ d1 (lookup_store_same _ _ _) H)
          as [(k' & Hk' & ->)|(Hall & d' & -> & Hkeys & Hsame & _)].
        -- left. exists k'. split; [exact Hk'|]. now rewrite store_store.
        -- right. split; [now constructor|].
           exists d'. rewrite store_store. repeat split.
           ++ rewrite Hkeys. apply (keys_store _ _ _ _ He).
           ++ intros (e' & He' & Hn'). rewrite He in He'. injection He' as <-.
              congruence.
           ++ intros _. now rewrite (Hsame S1).
      * assert (S0 : mse_settled d) by (exists e; auto).
        destruct (IH _ _ _ _ d Hp H)
          as [(k' & Hk' & ->)|(Hall & d' & -> & Hkeys & Hsame & _)].
        -- left. eauto.
        -- right. split; [now constructor|].
           exists d'. repeat split; auto. intros _. now rewrite (Hsame S0).
    + unfold loss_turn in Ht.
      destruct (String.eqb_spec k "mse") as [|_]; [contradiction|].
      injection Ht as <-.
      assert (Ek : String.eqb k "mse" = false)
        by (destruct (String.eqb_spec k "mse"); [contradiction|reflexivity]).
      destruct (loss_loop_text _ _ _ _ _ k (lookup_store_same _ _ _) Ek H)
        as (k' & Hk' & ->).
      left. exists k'. split; [exact Hk'|]. now rewrite store_store.
Qed.

(** What lines 89-116 return is settled. *)
Lemma normalize_loss_settles (p p' : dict) (key : option string) :
  normalize_loss p = Ok (p', key) ->
  exists lf, p' = store "loss_function" lf p /\ loss_settled lf.
Proof.
  unfold normalize_loss, has_key. intros H.
  destruct (lookup "loss_function" p) as [v|] eqn:Hp.
  - rewrite (param_found _ _ _ Hp) in H. cbn [bind] in H.
    destruct v;
      try (destruct (eq_text _ "mse") eqn:Em;
           [ cbn [bind] in H;
             rewrite (assign2_found _ _ _ _ [] (lookup_store_same _ _ _)) in H;
             cbn [bind] in H; rewrite store_store in H;
             rewrite (assign3_found _ _ _ _ _ _ [] (lookup_store_same _ _ _)
                        (lookup_store_same _ _ _)) in H;
             cbn [bind] in H; rewrite param_store_same in H; cbn [bind] in H;
             injection H as <- _; rewrite !store_store;
             eexists; split; [reflexivity|];
             split; [discriminate|split; [repeat constructor|]];
             exists (VDict [("reduction", VStr "mean")]); split; reflexivity
           | cbn [bind] in H; rewrite (param_found _ _ _ Hp) in H; cbn [bind] in H;
             injection H as <- _; eexists; split; [reflexivity|exact Em] ]).
    destruct d as [|kv d].
    + cbn [List.length Z.of_nat Z.ltb Z.compare bind] in H.
      injection H as <- _. eexists. split; reflexivity.
    + assert (Hpos : (0 <? Z.of_nat (List.length (kv :: d))) = true)
        by (apply Z.ltb_lt; simpl List.length; lia).
      rewrite Hpos in H.
      apply bind_Ok in H. destruct H as ([[p1 key1] b] & Hloop & H).
      apply bind_Ok in Hloop. destruct Hloop as ([p2 key2] & Hloop & E).
      injection E as -> -> <-. cbn [bind] in H.
      apply bind_Ok in H. destruct H as (lf & Hlf & H). injection H as <- _.
      apply param_Ok in Hlf.
      destruct (loss_loop_mapping _ _ _ _ _ _ Hp Hloop)
        as [(k' & Hk' & ->)|(Hall & d' & -> & Hkeys & _ & Hset)].
      * rewrite lookup_store_same in Hlf. injection Hlf as <-.
        rewrite store_store. eexists. split; [reflexivity|exact Hk'].
      * rewrite lookup_store_same in Hlf. injection Hlf as <-.
        rewrite store_store. eexists. split; [reflexivity|].
        split; [|split].
        -- intros ->. discriminate Hkeys.
        -- now rewrite Hkeys.
        -- apply Hset. discriminate.
  - cbn [bind] in H. injection H as <- _. eexists. split; reflexivity.
Qed.

Lemma loss_loop_again (ks : list string) :
  forall q key d,
    Forall (fun k => k = "mse") ks ->
    lookup "loss_function" q = Some (VDict d) -> mse_settled d ->
    exists key', loss_loop ks q key = Ok (q, key').
Proof.
  induction ks as [|k ks IH]; intros q key d Hall Hq Hs; simpl.
  - eauto.
  - inversion Hall as [|? ? Hk Hks]; subst.
    destruct Hs as (e & He & Hn).
    rewrite (loss_turn_mse _ _ _ Hq He), Hn. cbn [bind].
    apply (IH q (Some "mse") d Hks Hq). exists e. auto.
Qed.

(** A settled [loss_function] goes through lines 89-116 unchanged. *)
Lemma normalize_loss_again (q : dict) (lf : value) :
  lookup "loss_function" q = Some lf -> loss_settled lf ->
  exists key, normalize_loss q = Ok (q, key).
Proof.
  intros Hq Hs. unfold normalize_loss.
  rewrite (has_key_true _ _ _ Hq), (param_found _ _ _ Hq). cbn [bind].
  destruct lf;
    try (unfold loss_settled in Hs; rewrite Hs; cbn [bind];
         rewrite (param_found _ _ _ Hq);
         cbn [bind]; rewrite (store_lookup_id _ _ _ Hq); eauto).
  destruct Hs as (Hne & Hall & Hset).
  assert (Hpos : (0 <? Z.of_nat (List.length d)) = true).
  { apply Z.ltb_lt. destruct d; [contradiction|simpl List.length; lia]. }
  rewrite Hpos.
  destruct (loss_loop_again (keys d) q None d Hall Hq Hset) as (key' & ->).
  cbn [bind]. rewrite (param_found _ _ _ Hq). cbn [bind].
  rewrite (store_lookup_id _ _ _ Hq). eauto.
Qed.

(** *** The other rules a second time *)

Lemma alias_patch_size_again (q : dict) (v : value) :
  lookup "patch_size" q = Some v -> lookup "psize" q = Some v ->
  alias_patch_size q = Ok q.
Proof.
  intros Hp Hs. unfold alias_patch_size.
  rewrite (has_key_true _ _ _ Hp), (param_found _ _ _ Hp). cbn [bind].
  now rewrite (store_lookup_id _ _ _ Hs).
Qed.

Lemma check_resize_again (q : dict) (resize psize : value) :
  lookup "resize" q = Some resize -> lookup "psize" q = Some psize ->
  np_greater_equal_all resize psize = Ok true ->
  check_resize q = Ok q.
Proof.
  intros Hr Hp Hnp. unfold check_resize.
  rewrite (has_key_true _ _ _ Hr), (param_found _ _ _ Hr), (param_found _ _ _ Hp).
  cbn [bind]. now rewrite Hnp.
Qed.

Lemma set_num_epochs_again (q : dict) (n : Z) :
  lookup "num_epochs" q = Some (VInt n) -> set_num_epochs q = Ok (q, n).
Proof.
  intros H. unfold set_num_epochs.
  rewrite (has_key_true _ _ _ H), (param_found _ _ _ H). cbn [bind py_int].
  now rewrite (store_lookup_id _ _ _ H).
Qed.

Lemma set_patience_again (q : dict) (n m : Z) :
  lookup "patience" q = Some (VInt m) -> set_patience n q = Ok q.
Proof.
  intros H. unfold set_patience.
  rewrite (has_key_true _ _ _ H), (param_found _ _ _ H). cbn [bind py_int].
  now rewrite (store_lookup_id _ _ _ H).
Qed.

Lemma set_which_model_again (q : dict) (w : string) :
  lookup "which_model" q = Some (VStr w) ->
  (forall v, lookup "modelName" q = Some v -> py_str v = Ok w) ->
  set_which_model q = Ok q.
Proof.
  intros Hw Hm. unfold set_which_model, has_key.
  destruct (lookup "modelName" q) as [v|] eqn:Ev.
  - rewrite (param_found _ _ _ Ev). cbn [bind]. rewrite (Hm v eq_refl). cbn [bind].
    now rewrite (store_lookup_id _ _ _ Hw).
  - rewrite Hw, (param_found _ _ _ Hw). cbn [bind py_str].
    now rewrite (store_lookup_id _ _ _ Hw).
Qed.

Lemma set_q_verbose_again (q : dict) :
  lookup "q_verbose" q = Some (VBool false) -> set_q_verbose q = Ok q.
Proof.
  intros H. unfold set_q_verbose.
  rewrite (has_key_true _ _ _ H), (param_found _ _ _ H). cbn [bind eq_text].
  now rewrite (store_lookup_id _ _ _ H).
Qed.

Lemma remove_char_twice (c : ascii) (t : string) :
  remove_char c (remove_char c t) = remove_char c t.
Proof.
  induction t as [|x t IH]; simpl; [reflexivity|].
  destruct (Ascii.eqb x c) eqn:E; [exact IH|]. simpl. now rewrite E, IH.
Qed.

Lemma remove_char_swap (a b : ascii) (t : string) :
  remove_char a (remove_char b t) = remove_char b (remove_char a t).
Proof.
  induction t as [|x t IH]; simpl; [reflexivity|].
  destruct (Ascii.eqb x b) eqn:Eb, (Ascii.eqb x a) eqn:Ea; simpl;
    rewrite ?Ea, ?Eb, IH; reflexivity.
Qed.

Lemma set_parallel_compute_command_again (q : dict) (t : string) :
  lookup "parallel_compute_command" q
  = Some (VStr (remove_char "034" (remove_char "'" t))) ->
  set_parallel_compute_command q = Ok q.
Proof.
  intros H. unfold set_parallel_compute_command.
  rewrite (has_key_true _ _ _ H), (param_found _ _ _ H).
  cbn [bind replace_char].
  rewrite (remove_char_swap "'" "034"), remove_char_twice, remove_char_twice.
  now rewrite (store_lookup_id _ _ _ H).
Qed.

(** A settled mapping is a fixed point of [parseConfig]. *)
Lemma normalized_fixed (gandlf_version : string) (cfg : dict) :
  normalized gandlf_version cfg -> parseConfig gandlf_version cfg = Ok cfg.
Proof.
  intros [Hv Hc Hd (v & Hps & Hpz) (r & ps & Hr & Hp & Hnp) (n & Hn) (m & Hm)
            (bs & Hbs & Cbs) (amp & Hamp & Camp) (lr & Hlr & Clr)
            (lf & Hlf & Slf) (opt & Hopt & Copt) (da & Hda & Lda) Hdp
            (bf & Hbf & Cbf) (w & Hw & Hmn) Hmodel Hk Hnt
            (sc & Hsc & Csc) (q1 & Hq1 & Cq1) (q2 & Hq2 & Cq2) (q3 & Hq3 & Cq3)
            Hqv (t & Ht)].
  destruct (normalize_loss_again _ _ Hlf Slf) as (key & Hloss).
  unfold parseConfig, rules_before_augmentation, required_fields,
    training_parameters, rules_after_preprocessing.
  rewrite Hv. cbn [bind]. rewrite Hc. cbn [bind]. rewrite Hd. cbn [bind].
  rewrite (alias_patch_size_again _ _ Hps Hpz). cbn [bind].
  rewrite (check_resize_again _ _ _ Hr Hp Hnp). cbn [bind].
  rewrite (set_num_epochs_again _ _ Hn). cbn [bind].
  rewrite (set_patience_again _ n _ Hm). cbn [bind].
  rewrite (coerce_or_default_again _ _ _ _ _ Hbs Cbs). cbn [bind].
  rewrite (coerce_or_default_again _ _ _ _ _ Hamp Camp). cbn [bind].
  rewrite (coerce_or_default_again _ _ _ _ _ Hlr Clr). cbn [bind].
  rewrite Hloss. cbn [bind].
  rewrite (coerce_or_default_again _ _ _ _ _ Hopt Copt). cbn [bind].
  rewrite (default_probability_empty _ _ _ Hda Lda). cbn [bind].
  rewrite Hdp. cbn [bind].
  rewrite (coerce_or_default_again _ _ _ _ _ Hbf Cbf). cbn [bind].
  rewrite (set_which_model_again _ _ Hw Hmn). cbn [bind].
  rewrite Hmodel. cbn [bind]. rewrite Hk. cbn [bind]. rewrite Hnt. cbn [bind].
  rewrite (coerce_or_default_again _ _ _ _ _ Hsc Csc). cbn [bind].
  rewrite (coerce_or_default_again _ _ _ _ _ Hq1 Cq1). cbn [bind].
  rewrite (coerce_or_default_again _ _ _ _ _ Hq2 Cq2). cbn [bind].
  rewrite (coerce_or_default_again _ _ _ _ _ Hq3 Cq3). cbn [bind].
  rewrite (set_q_verbose_again _ Hqv). cbn [bind].
  apply (set_parallel_compute_command_again _ _ Ht).
Qed.

Lemma eq_text_true (v : value) (t : string) : eq_text v t = true -> v = VStr t.
Proof.
  destruct v; simpl; try discriminate.
  intros H. apply String.eqb_eq in H. now subst.
Qed.

(** Closes the side condition of a checking rule run again: the field it
    reads is the same under the stores of the other rules. *)
Ltac same_field := intros ? [<-|[]]; lookups; reflexivity.

(** What a run returns is settled, provided the document states [resize],
    carries no augmentation and does not ask for [q_verbose] with the text
    "True". *)
Lemma parseConfig_normalizes (gandlf_version : string) (doc cfg : dict)
    (resize data_augmentation : value) :
  lookup "resize" doc = Some resize ->
  lookup "data_augmentation" doc = Some data_augmentation ->
  py_len data_augmentation = Ok 0 ->
  lookup "q_verbose" doc <> Some (VStr "True") ->
  parseConfig gandlf_version doc = Ok cfg ->
  normalized gandlf_version cfg.
Proof.
  intros Hresize Hda Hlen Hqv H.
  destruct (parseConfig_Ok _ _ _ H)
    as (p0 & p1 & p2 & p3 & _ & key & G0 & G1 & G2 & H0 & H1 & H2 & H3 & H3' & H4).
  destruct (alias_patch_size_Ok _ _ H0) as (v & Hv & E0).
  assert (Lr0 : lookup "resize" p0 = Some resize) by (rewrite E0; now lookups).
  assert (Lp0 : lookup "psize" p0 = Some v) by (rewrite E0; now lookups).
  destruct (check_resize_Ok _ _ H1) as [(C & _)|(r & ps & Hr & Hps & Hnp & E1)];
    [congruence|].
  rewrite Lr0 in Hr. injection Hr as <-. rewrite Lp0 in Hps. injection Hps as <-.
  destruct (training_parameters_Ok _ _ _ H2)
    as (n & m & bs & amp & lr & opt & q & q' & Eq & Cbs & Camp & Clr & Copt & Hl & E2).
  destruct (normalize_loss_settles _ _ _ Hl) as (lf & Eq' & Slf).
  assert (Lda2 : lookup "data_augmentation" p2 = Some data_augmentation)
    by (subst; now lookups).
  rewrite (default_probability_empty _ _ _ Lda2 Hlen) in H3. injection H3 as <-.
  destruct (rules_after_preprocessing_Ok _ _ H4)
    as (bf & sc & q1 & q2 & q3 & w & t & qq & Eqq & Hmn & Hmodel & Hk & Hnt
        & Cbf & Csc & Cq1 & Cq2 & Cq3 & Ecfg).
  subst.
  constructor.
  - apply (checks_only_again _ _ _ _ _ (version_gate_checks _) G0). same_field.
  - apply (checks_only_again _ _ _ _ _ require_class_list_checks G1). same_field.
  - apply (checks_only_again _ _ _ _ _ require_dimension_checks G2). same_field.
  - exists v. split; now lookups.
  - exists resize, v. repeat split; try assumption; now lookups.
  - eexists. now lookups.
  - eexists. now lookups.
  - exists bs. split; [now lookups|assumption].
  - exists amp. split; [now lookups|assumption].
  - exists lr. split; [now lookups|assumption].
  - exists lf. split; [now lookups|assumption].
  - exists opt. split; [now lookups|assumption].
  - exists data_augmentation. split; [now lookups|assumption].
  - apply (checks_only_again _ _ _ _ _ check_preprocessing_checks H3'). same_field.
  - exists bf. split; [now lookups|assumption].
  - exists w. split; [now lookups|].
    intros x Hx. apply Hmn. lookups. lookups_in Hx. exact Hx.
  - apply (checks_only_again _ _ _ _ _ require_model_checks Hmodel). same_field.
  - apply (checks_only_again _ _ _ _ _ refuse_kcross_validation_checks Hk). same_field.
  - apply (checks_only_again _ _ _ _ _ check_nested_training_checks Hnt). same_field.
  - exists sc. split; [now lookups|assumption].
  - exists q1. split; [now lookups|assumption].
  - exists q2. split; [now lookups|assumption].
  - exists q3. split; [now lookups|assumption].
  - lookups. destruct (lookup "q_verbose" doc) as [x|] eqn:Ex; [|reflexivity].
    destruct (eq_text x "True") eqn:Et; [|reflexivity].
    apply eq_text_true in Et. subst x. now elim Hqv.
  - exists t. now lookups.
Qed.

(** C7, as the code has it: on a document that states [resize] itself,
    carries an empty [data_augmentation] and does not give [q_verbose] as
    the text "True", a run that returns has returned a fixed point: run on
    its own result under the same version, [parseConfig] returns that result
    again. *)
Theorem parseConfig_idempotent_when_settled (gandlf_version : string)
    (doc cfg : dict) (resize data_augmentation : value) :
  lookup "resize" doc = Some resize ->
  lookup "data_augmentation" doc = Some data_augmentation ->
  py_len data_augmentation = Ok 0 ->
  lookup "q_verbose" doc <> Some (VStr "True") ->
  parseConfig gandlf_version doc = Ok cfg ->
  parseConfig gandlf_version cfg = Ok cfg.
Proof.
  intros Hresize Hda Hlen Hqv H.
  apply normalized_fixed.
  exact (parseConfig_normalizes _ _ _ _ _ Hresize Hda Hlen Hqv H).
Qed.

Lemma parseConfig_idempotent_when_settled_witness :
  exists cfg, parseConfig "0.0.8" resized_document = Ok cfg
              /\ parseConfig "0.0.8" cfg = Ok cfg.
Proof.
  eexists. split; [vm_compute; reflexivity|].
  refine (parseConfig_idempotent_when_settled "0.0.8" resized_document _
            (VList [VInt 128; VInt 128]) (VDict []) _ _ _ _ _).
  - vm_compute. reflexivity.
  - vm_compute. reflexivity.
  - reflexivity.
  - vm_compute. discriminate.
  - vm_compute. reflexivity.
Defined.

(** C7, where the claim fails: the sample document states no [resize]; the
    run returns with [resize] set to [None], and the run on that result
    dies in the NumPy comparison of line 48. *)
Lemma defaulted_resize_is_refused :
  exists cfg, parseConfig "0.0.8" sample_document = Ok cfg
              /\ lookup "resize" cfg = Some VNone
              /\ parseConfig "0.0.8" cfg = Raise TypeError.
Proof.
  eexists. split; [vm_compute; reflexivity|].
  split; [vm_compute; reflexivity|].
  vm_compute. reflexivity.
Qed.

(** Two more ways a second run differs from the first: a [q_verbose] of
    "True" comes back as [True] and is then read as [False]; and a loss
    given as a mapping comes back as text, so that the second run finds
    [key] unbound at line 128. *)
Lemma second_run_differs :
  (exists cfg cfg',
      parseConfig "0.0.8" verbose_document = Ok cfg
      /\ lookup "q_verbose" cfg = Some (VBool true)
      /\ parseConfig "0.0.8" cfg = Ok cfg'
      /\ lookup "q_verbose" cfg' = Some (VBool false))
  /\ (exists cfg,
         parseConfig "0.0.8" augmented_document = Ok cfg
         /\ parseConfig "0.0.8" cfg = Raise (UnboundLocalError "key")).
Proof.
  split.
  - do 2 eexists. split; [vm_compute; reflexivity|].
    split; [vm_compute; reflexivity|].
    split; [vm_compute; reflexivity|].
    vm_compute. reflexivity.
  - eexists. split; [vm_compute; reflexivity|].
    vm_compute. reflexivity.
Qed.

(* ================================================================= *)
(** ** Further properties of [parseConfig] *)

(** Whatever the document, a fatal exit of [parseConfig] carries the
    message about a missing [version], the message about an incompatible
    version, or one of the eleven fixed messages of the later rules. *)
Theorem fatal_messages (gandlf_version : string) (doc : dict) (msg : string) :
  parseConfig gandlf_version doc = Exit msg ->
  In msg (msg_version :: msg_incompatible gandlf_version :: later_messages).
Proof.
  rewrite parseConfig_after_gate. intros H.
  apply bind_Exit in H. destruct H as [H|(p & _ & H)].
  - assert (G : exits_only [msg_version; msg_incompatible gandlf_version]
                  (version_gate gandlf_version doc))
      by (unfold version_gate; walk_exits).
    destruct (G _ H) as [<-|[<-|[]]]; simpl; auto.
  - right. right. exact (after_version_gate_exits p _ H).
Qed.

Lemma fatal_messages_witness :
  In msg_resize (msg_version :: msg_incompatible "0.0.8" :: later_messages).
Proof.
  refine (fatal_messages "0.0.8"
            (store "resize" (int_list [64; 64]) sample_document) msg_resize _).
  vm_compute. reflexivity.
Defined.

(** A document that still carries [kcross_validation] never comes back as
    a configuration. *)
Theorem kcross_validation_is_refused (gandlf_version : string) (doc cfg : dict)
    (v : value) :
  lookup "kcross_validation" doc = Some v ->
  parseConfig gandlf_version doc <> Ok cfg.
Proof.
  intros Hk H.
  destruct (parseConfig_Ok _ _ _ H)
    as (p0 & p1 & p2 & p3 & _ & key & _ & _ & _ & H0 & H1 & H2 & H3 & _ & H4).
  destruct (rules_after_preprocessing_Ok _ _ H4)
    as (? & ? & ? & ? & ? & ? & ? & q & Hq & _ & _ & Hr & _).
  assert (L : lookup "kcross_validation" q = Some v).
  { rewrite Hq. lookups.
    rewrite (default_probability_keeps _ _ _ _ H3) by discriminate.
    rewrite (training_parameters_keep _ _ _ _ H2)
      by (simpl; intros C; repeat (destruct C as [C|C]; [discriminate C|]); exact C).
    rewrite (check_resize_keeps _ _ _ H1) by discriminate.
    rewrite (required_fields_keep _ _ _ H0) by discriminate. exact Hk. }
  unfold refuse_kcross_validation in Hr.
  rewrite (has_key_true _ _ _ L) in Hr. discriminate.
Qed.

Lemma kcross_validation_is_refused_witness :
  parseConfig "0.0.8" retired_document <> Ok sample_document.
Proof.
  refine (kcross_validation_is_refused "0.0.8" retired_document sample_document
            (VInt 5) _).
  vm_compute. reflexivity.
Defined.

(* ================================================================= *)
(** ** The whole of a returning run *)

Lemma coerce_or_default_given (key : string) (coerce : value -> outcome value)
    (default : value) (p p' : dict) :
  coerce_or_default key coerce default p = Ok p' ->
  exists x, given_or coerce default (lookup key p) x /\ p' = store key x p.
Proof.
  unfold coerce_or_default, has_key, given_or. intros H.
  apply bind_Ok in H. destruct H as (x & E & H). injection H as <-.
  exists x. split; [|reflexivity].
  destruct (lookup key p) as [v|] eqn:El.
  - rewrite (param_found _ _ _ El) in E. exact E.
  - now injection E as <-.
Qed.

Lemma set_num_epochs_given (p p' : dict) (n : Z) :
  set_num_epochs p = Ok (p', n) ->
  given_or as_int (VInt 100) (lookup "num_epochs" p) (VInt n)
  /\ p' = store "num_epochs" (VInt n) p.
Proof.
  unfold set_num_epochs, has_key, given_or, as_int. intros H.
  apply bind_Ok in H. destruct H as (x & E & H). injection H as <- <-.
  split; [|reflexivity].
  destruct (lookup "num_epochs" p) as [v|] eqn:El.
  - rewrite (param_found _ _ _ El) in E. cbn [bind] in E. now rewrite E.
  - now injection E as <-.
Qed.

Lemma set_patience_given (n : Z) (p p' : dict) :
  set_patience n p = Ok p' ->
  exists m, given_or as_int (VInt n) (lookup "patience" p) (VInt m)
            /\ p' = store "patience" (VInt m) p.
Proof.
  unfold set_patience, has_key, given_or, as_int. intros H.
  apply bind_Ok in H. destruct H as (x & E & H). injection H as <-.
  exists x. split; [|reflexivity].
  destruct (lookup "patience" p) as [v|] eqn:El.
  - rewrite (param_found _ _ _ El) in E. cbn [bind] in E. now rewrite E.
  - now injection E as <-.
Qed.

Lemma set_which_model_given (p p' : dict) :
  set_which_model p = Ok p' ->
  exists w, given_or as_str (VStr "resunet") (given_model_name p) (VStr w)
            /\ p' = store "which_model" (VStr w) p.
Proof.
  unfold set_which_model, has_key, given_or, given_model_name, as_str. intros H.
  apply bind_Ok in H. destruct H as (w & E & H). injection H as <-.
  exists w. split; [|reflexivity].
  destruct (lookup "modelName" p) as [v|] eqn:Em.
  - rewrite (param_found _ _ _ Em) in E. cbn [bind] in E. now rewrite E.
  - destruct (lookup "which_model" p) as [v|] eqn:Ew.
    + rewrite (param_found _ _ _ Ew) in E. cbn [bind] in E. now rewrite E.
    + now injection E as <-.
Qed.

Lemma set_parallel_compute_command_given (p p' : dict) :
  set_parallel_compute_command p = Ok p' ->
  exists t, given_or strip_quotes (VStr EmptyString)
              (lookup "parallel_compute_command" p) (VStr t)
            /\ p' = store "parallel_compute_command" (VStr t) p.
Proof.
  unfold set_parallel_compute_command, has_key, given_or, strip_quotes. intros H.
  apply bind_Ok in H. destruct H as (x & E & H). injection H as <-.
  destruct (lookup "parallel_compute_command" p) as [v|] eqn:El.
  - rewrite (param_found _ _ _ El) in E. cbn [bind] in E.
    destruct v; try discriminate. cbn [replace_char bind] in E. injection E as <-.
    eexists. split; reflexivity.
  - injection E as <-. eexists. split; reflexivity.
Qed.

Lemma check_resize_store (p p' : dict) :
  check_resize p = Ok p' ->
  p' = store "resize" match lookup "resize" p with Some r => r | None => VNone end p.
Proof.
  intros H.
  destruct (check_resize_Ok _ _ H) as [(E & ->)|(r & ps & E & _ & _ & ->)]; rewrite E.
  - reflexivity.
  - now rewrite (store_lookup_id _ _ _ E).
Qed.

Lemma default_probability_store (key : option string) (p p' : dict) :
  default_probability key p = Ok p' ->
  exists da, p' = store "data_augmentation" da p.
Proof.
  intros H.
  destruct (default_probability_Ok _ _ _ H) as [->|(da & ->)]; [|eauto].
  unfold default_probability in H. apply bind_Ok in H. destruct H as (n & E & _).
  apply bind_Ok in E. destruct E as (da & E & _). apply param_Ok in E.
  exists da. now rewrite (store_lookup_id _ _ _ E).
Qed.

(** A run that returns, written out: the checks all passed on the document
    itself, and the result is the document after eighteen assignments, each
    value being the coercion of what the document gave for the key or the
    default of the rule. *)
Lemma parseConfig_trail (gandlf_version : string) (doc cfg : dict) :
  parseConfig gandlf_version doc = Ok cfg ->
  exists (v : value) (n m : Z) (bs amp lr lf opt da bf sc q1 q2 q3 : value)
         (w t : string),
    (version_gate gandlf_version doc = Ok doc
     /\ require_class_list doc = Ok doc
     /\ require_dimension doc = Ok doc
     /\ check_preprocessing doc = Ok doc
     /\ require_model doc = Ok doc
     /\ refuse_kcross_validation doc = Ok doc
     /\ check_nested_training doc = Ok doc)
    /\ lookup "patch_size" doc = Some v
    /\ given_or as_int (VInt 100) (lookup "num_epochs" doc) (VInt n)
    /\ given_or as_int (VInt n) (lookup "patience" doc) (VInt m)
    /\ given_or as_int (VInt 1) (lookup "batch_size" doc) bs
    /\ given_or as_bool (VBool false) (lookup "amp" doc) amp
    /\ given_or as_float (VFloat 0.001) (lookup "learning_rate" doc) lr
    /\ given_or as_str (VStr "adam") (lookup "opt" doc) opt
    /\ given_or as_int (VInt 30) (lookup "base_filters" doc) bf
    /\ given_or as_str (VStr "resunet") (given_model_name doc) (VStr w)
    /\ given_or as_str (VStr "triangle") (lookup "scheduler" doc) sc
    /\ given_or as_int (VInt 100) (lookup "q_max_length" doc) q1
    /\ given_or as_int (VInt 10) (lookup "q_samples_per_volume" doc) q2
    /\ given_or as_int (VInt 4) (lookup "q_num_workers" doc) q3
    /\ given_or strip_quotes (VStr EmptyString)
         (lookup "parallel_compute_command" doc) (VStr t)
    /\ cfg = apply_writes
               [("psize", v);
                ("resize", match lookup "resize" doc with Some r => r | None => VNone end);
                ("num_epochs", VInt n); ("patience", VInt m); ("batch_size", bs);
                ("amp", amp); ("learning_rate", lr); ("loss_function", lf);
                ("opt", opt); ("data_augmentation", da); ("base_filters", bf);
                ("which_model", VStr w); ("scheduler", sc); ("q_max_length", q1);
                ("q_samples_per_volume", q2); ("q_num_workers", q3);
                ("q_verbose",
                 VBool match lookup "q_verbose" doc with
                       | Some x => eq_text x "True"
                       | None => false
                       end);
                ("parallel_compute_command", VStr t)] doc.
Proof.
  intros H.
  destruct (parseConfig_Ok _ _ _ H)
    as (p0 & p1 & p2 & p3 & _ & key & G0 & G1 & G2 & H0 & H1 & H2 & H3 & H3' & H4).
  destruct (alias_patch_size_Ok _ _ H0) as (v & Hv & E0).
  pose proof (check_resize_store _ _ H1) as E1.
  unfold training_parameters in H2.
  apply bind_Ok in H2. destruct H2 as ([a n] & Ha & H2).
  apply set_num_epochs_given in Ha. destruct Ha as (Gn & Ea).
  apply bind_Ok in H2. destruct H2 as (b & Hb & H2).
  apply set_patience_given in Hb. destruct Hb as (m & Gm & Eb).
  apply bind_Ok in H2. destruct H2 as (c & Hc & H2).
  apply coerce_or_default_given in Hc. destruct Hc as (bs & Gbs & Ec).
  apply bind_Ok in H2. destruct H2 as (d & Hd & H2).
  apply coerce_or_default_given in Hd. destruct Hd as (amp & Gamp & Ed).
  apply bind_Ok in H2. destruct H2 as (e & He & H2).
  apply coerce_or_default_given in He. destruct He as (lr & Glr & Ee).
  apply bind_Ok in H2. destruct H2 as ([f key'] & Hf & H2).
  apply normalize_loss_Ok in Hf. destruct Hf as (lf & Ef).
  apply bind_Ok in H2. destruct H2 as (g & Hg & H2).
  apply coerce_or_default_given in Hg. destruct Hg as (opt & Gopt & Eg).
  injection H2 as <- _.
  apply default_probability_store in H3. destruct H3 as (da & E3).
  unfold rules_after_preprocessing in H4.
  apply bind_Ok in H4. destruct H4 as (h & Hh & H4).
  apply coerce_or_default_given in Hh. destruct Hh as (bf & Gbf & Eh).
  apply bind_Ok in H4. destruct H4 as (i & Hi & H4).
  apply set_which_model_given in Hi. destruct Hi as (w & Gw & Ei).
  apply bind_Ok in H4. destruct H4 as (j1 & Hmodel & H4).
  pose proof (checks_only_same _ _ _ _ require_model_checks Hmodel); subst j1.
  apply bind_Ok in H4. destruct H4 as (j2 & Hk & H4).
  pose proof (checks_only_same _ _ _ _ refuse_kcross_validation_checks Hk); subst j2.
  apply bind_Ok in H4. destruct H4 as (j3 & Hnt & H4).
  pose proof (checks_only_same _ _ _ _ check_nested_training_checks Hnt); subst j3.
  apply bind_Ok in H4. destruct H4 as (k1 & Hk1 & H4).
  apply coerce_or_default_given in Hk1. destruct Hk1 as (sc & Gsc & Ek1).
  apply bind_Ok in H4. destruct H4 as (k2 & Hk2 & H4).
  apply coerce_or_default_given in Hk2. destruct Hk2 as (q1 & Gq1 & Ek2).
  apply bind_Ok in H4. destruct H4 as (k3 & Hk3 & H4).
  apply coerce_or_default_given in Hk3. destruct Hk3 as (q2 & Gq2 & Ek3).
  apply bind_Ok in H4. destruct H4 as (k4 & Hk4 & H4).
  apply coerce_or_default_given in Hk4. destruct Hk4 as (q3 & Gq3 & Ek4).
  apply bind_Ok in H4. destruct H4 as (k5 & Hk5 & H4).
  apply set_q_verbose_Ok in Hk5.
  apply set_parallel_compute_command_given in H4. destruct H4 as (t & Gt & Ecfg).
  subst.
  unfold given_model_name in Gw.
  lookups_in Gm. lookups_in Gbs. lookups_in Gamp. lookups_in Glr. lookups_in Gopt.
  lookups_in Gbf. lookups_in Gw. lookups_in Gsc. lookups_in Gq1. lookups_in Gq2.
  lookups_in Gq3. lookups_in Gt. lookups_in Gn.
  exists v, n, m, bs, amp, lr, lf, opt, da, bf, sc, q1, q2, q3, w, t.
  split; [|repeat (split; [assumption|]); cbn [apply_writes]; lookups; reflexivity].
  repeat split; try assumption.
  - apply (checks_only_again _ _ _ _ _ check_preprocessing_checks H3').
    intros ? [<-|[]]. now lookups.
  - apply (checks_only_again _ _ _ _ _ require_model_checks Hmodel).
    intros ? [<-|[]]. now lookups.
  - apply (checks_only_again _ _ _ _ _ refuse_kcross_validation_checks Hk).
    intros ? [<-|[]]. now lookups.
  - apply (checks_only_again _ _ _ _ _ check_nested_training_checks Hnt).
    intros ? [<-|[]]. now lookups.
Qed.

Lemma sample_returns :
  parseConfig "0.0.8" sample_document = Ok (result_of "0.0.8" sample_document).
Proof. vm_compute. reflexivity. Qed.

Lemma busy_returns :
  parseConfig "0.0.8" busy_document = Ok (result_of "0.0.8" busy_document).
Proof. vm_compute. reflexivity. Qed.

(** Reads a field of a run written out as its assignments. *)
Ltac read_trail := cbn [apply_writes]; lookups; try reflexivity.

(* ================================================================= *)
(** ** The plain fields: coerced when given, defaulted when not *)

(** Each of the ten plain fields is in the returned mapping, as the
    coercion of what the document gave for it or, when the document gave
    nothing, as the default of its rule. *)
Theorem plain_fields_coerced_or_defaulted (gandlf_version : string) (doc cfg : dict) :
  parseConfig gandlf_version doc = Ok cfg ->
  forall key coerce default,
    In (key, coerce, default) plain_rules ->
    exists x, lookup key cfg = Some x
              /\ given_or coerce default (lookup key doc) x.
Proof.
  intros H key coerce default Hin.
  destruct (parseConfig_trail _ _ _ H)
    as (v & n & m & bs & amp & lr & lf & opt & da & bf & sc & q1 & q2 & q3 & w & t
        & _ & _ & Gn & _ & Gbs & Gamp & Glr & Gopt & Gbf & _ & Gsc & Gq1 & Gq2
        & Gq3 & _ & ->).
  unfold plain_rules in Hin. simpl in Hin.
  repeat (destruct Hin as [Hin|Hin];
          [injection Hin as <- <- <-; eexists; split; [read_trail|assumption]|]).
  destruct Hin.
Qed.

Lemma plain_fields_coerced_or_defaulted_witness :
  exists x, lookup "num_epochs" (result_of "0.0.8" busy_document) = Some x
            /\ given_or as_int (VInt 100) (lookup "num_epochs" busy_document) x.
Proof.
  refine (plain_fields_coerced_or_defaulted "0.0.8" busy_document _ busy_returns
            "num_epochs" as_int (VInt 100) _).
  simpl. left. reflexivity.
Defined.

(** [patience] is the integer the document gives and, when it gives none,
    the very [num_epochs] of the returned mapping. *)
Theorem patience_follows_num_epochs (gandlf_version : string) (doc cfg : dict) :
  parseConfig gandlf_version doc = Ok cfg ->
  (lookup "patience" doc = None ->
   exists n, lookup "num_epochs" cfg = Some (VInt n)
             /\ lookup "patience" cfg = Some (VInt n))
  /\ (forall x, lookup "patience" doc = Some x ->
      exists m, py_int x = Ok m /\ lookup "patience" cfg = Some (VInt m)).
Proof.
  intros H.
  destruct (parseConfig_trail _ _ _ H)
    as (v & n & m & bs & amp & lr & lf & opt & da & bf & sc & q1 & q2 & q3 & w & t
        & _ & _ & _ & Gm & _ & _ & _ & _ & _ & _ & _ & _ & _ & _ & _ & ->).
  split.
  - intros Hnone. rewrite Hnone in Gm. simpl in Gm. injection Gm as <-.
    exists m. split; read_trail.
  - intros x Hx. rewrite Hx in Gm. unfold given_or, as_int in Gm.
    apply bind_Ok in Gm. destruct Gm as (z & Hz & Gm). injection Gm as <-.
    exists z. split; [exact Hz|read_trail].
Qed.

Lemma patience_follows_num_epochs_witness :
  exists n, lookup "num_epochs" (result_of "0.0.8" busy_document) = Some (VInt n)
            /\ lookup "patience" (result_of "0.0.8" busy_document) = Some (VInt n).
Proof.
  refine (proj1 (patience_follows_num_epochs "0.0.8" busy_document _ busy_returns) _).
  reflexivity.
Defined.

Lemma given_int (default : Z) (given : option value) (x : value) :
  given_or as_int (VInt default) given x -> exists z, x = VInt z.
Proof.
  unfold given_or, as_int. destruct given; [|eauto].
  intros H. apply bind_Ok in H. destruct H as (z & _ & H). injection H as <-. eauto.
Qed.

Lemma given_text (default : string) (given : option value) (x : value) :
  given_or as_str (VStr default) given x -> exists t, x = VStr t.
Proof.
  unfold given_or, as_str. destruct given; [|eauto].
  intros H. apply bind_Ok in H. destruct H as (z & _ & H). injection H as <-. eauto.
Qed.

(** Every field [parseConfig] assigns is in the mapping it returns, with the
    type its rule gives it: seven integers, two booleans, a float and four
    texts, beside [psize], [resize] and [loss_function]. *)
Theorem returned_fields_are_typed (gandlf_version : string) (doc cfg : dict) :
  parseConfig gandlf_version doc = Ok cfg ->
  (forall key,
      In key ["num_epochs"; "patience"; "batch_size"; "base_filters";
              "q_max_length"; "q_samples_per_volume"; "q_num_workers"] ->
      exists z, lookup key cfg = Some (VInt z))
  /\ (forall key, In key ["amp"; "q_verbose"] ->
      exists b, lookup key cfg = Some (VBool b))
  /\ (exists f, lookup "learning_rate" cfg = Some (VFloat f))
  /\ (forall key,
         In key ["opt"; "which_model"; "scheduler"; "parallel_compute_command"] ->
         exists t, lookup key cfg = Some (VStr t))
  /\ (forall key, In key ["psize"; "resize"; "loss_function"] ->
      exists x, lookup key cfg = Some x).
Proof.
  intros H.
  destruct (parseConfig_trail _ _ _ H)
    as (v & n & m & bs & amp & lr & lf & opt & da & bf & sc & q1 & q2 & q3 & w & t
        & _ & _ & _ & _ & Gbs & Gamp & Glr & Gopt & Gbf & _ & Gsc & Gq1 & Gq2
        & Gq3 & _ & ->).
  destruct (given_int _ _ _ Gbs) as (zbs & ->).
  destruct (given_int _ _ _ Gbf) as (zbf & ->).
  destruct (given_int _ _ _ Gq1) as (z1 & ->).
  destruct (given_int _ _ _ Gq2) as (z2 & ->).
  destruct (given_int _ _ _ Gq3) as (z3 & ->).
  destruct (given_text _ _ _ Gopt) as (topt & ->).
  destruct (given_text _ _ _ Gsc) as (tsc & ->).
  assert (Hamp : exists b, amp = VBool b).
  { unfold given_or, as_bool, py_bool in Gamp.
    destruct (lookup "amp" doc); [injection Gamp as <-|]; eauto. }
  destruct Hamp as (bamp & ->).
  assert (Hlr : exists f, lr = VFloat f).
  { unfold given_or, as_float in Glr. destruct (lookup "learning_rate" doc); [|eauto].
    apply bind_Ok in Glr. destruct Glr as (f & _ & Glr). injection Glr as <-. eauto. }
  destruct Hlr as (flr & ->).
  split; [|split; [|split; [|split]]].
  - intros key Hin. simpl in Hin.
    repeat (destruct Hin as [<-|Hin]; [eexists; read_trail|]). destruct Hin.
  - intros key Hin. simpl in Hin.
    repeat (destruct Hin as [<-|Hin]; [eexists; read_trail|]). destruct Hin.
  - eexists. read_trail.
  - intros key Hin. simpl in Hin.
    repeat (destruct Hin as [<-|Hin]; [eexists; read_trail|]). destruct Hin.
  - intros key Hin. simpl in Hin.
    repeat (destruct Hin as [<-|Hin]; [eexists; read_trail|]). destruct Hin.
Qed.

Lemma returned_fields_are_typed_witness :
  exists f, lookup "learning_rate" (result_of "0.0.8" busy_document) = Some (VFloat f).
Proof.
  exact (proj1 (proj2 (proj2
           (returned_fields_are_typed "0.0.8" busy_document _ busy_returns)))).
Defined.

(* ================================================================= *)
(** ** What a run leaves alone *)

Lemma lookup_apply_writes_other (k : string) (ws : list (string * value)) :
  forall d, ~ In k (map fst ws) -> lookup k (apply_writes ws d) = lookup k d.
Proof.
  induction ws as [|[k' x] ws IH]; intros d Hk; simpl in *; [reflexivity|].
  rewrite IH by tauto. apply lookup_store_other. intros ->. tauto.
Qed.

Lemma keys_store_new (k : string) (v : value) (d : dict) :
  lookup k d = None -> keys (store k v d) = keys d ++ [k].
Proof.
  unfold keys. induction d as [|[k' v'] d IH]; simpl; [reflexivity|].
  destruct (String.eqb k k'); [discriminate|]. simpl. intros H. now rewrite IH.
Qed.

Lemma keys_apply_writes (ws : list (string * value)) :
  forall d, exists added,
    keys (apply_writes ws d) = keys d ++ added /\ incl added (map fst ws).
Proof.
  induction ws as [|[k x] ws IH]; intros d; simpl.
  - exists []. split; [now rewrite app_nil_r|apply incl_refl].
  - destruct (IH (store k x d)) as (added & E & Hi).
    destruct (lookup k d) as [w|] eqn:El.
    + rewrite (keys_store _ _ _ _ El) in E.
      exists added. split; [exact E|]. now apply incl_tl.
    + rewrite (keys_store_new _ _ _ El), <- app_assoc in E.
      exists ([k] ++ added). split; [exact E|].
      intros y [<-|Hy]; [now left|right; now apply Hi].
Qed.

Lemma unwritten_fields_keep (gandlf_version : string) (doc cfg : dict) (k : string) :
  parseConfig gandlf_version doc = Ok cfg ->
  ~ In k written_keys -> lookup k cfg = lookup k doc.
Proof.
  intros H Hk.
  destruct (parseConfig_trail _ _ _ H)
    as (v & n & m & bs & amp & lr & lf & opt & da & bf & sc & q1 & q2 & q3 & w & t
        & _ & _ & _ & _ & _ & _ & _ & _ & _ & _ & _ & _ & _ & _ & _ & ->).
  now apply lookup_apply_writes_other.
Qed.

(** [parseConfig] never removes, renames or reorders what the document
    holds: a key outside the eighteen it assigns comes back with the value
    it had, and the keys of the returned mapping are those of the document,
    in their order, followed by keys from among the eighteen. *)
Theorem other_fields_come_back (gandlf_version : string) (doc cfg : dict) :
  parseConfig gandlf_version doc = Ok cfg ->
  (forall k, ~ In k written_keys -> lookup k cfg = lookup k doc)
  /\ exists added, keys cfg = keys doc ++ added /\ incl added written_keys.
Proof.
  intros H.
  destruct (parseConfig_trail _ _ _ H)
    as (v & n & m & bs & amp & lr & lf & opt & da & bf & sc & q1 & q2 & q3 & w & t
        & _ & _ & _ & _ & _ & _ & _ & _ & _ & _ & _ & _ & _ & _ & _ & ->).
  split.
  - intros k Hk. now apply lookup_apply_writes_other.
  - apply keys_apply_writes.
Qed.

Lemma other_fields_come_back_witness :
  lookup "my_own_key" (result_of "0.0.8" busy_document)
  = lookup "my_own_key" busy_document.
Proof.
  refine (proj1 (other_fields_come_back "0.0.8" busy_document _ busy_returns)
            "my_own_key" _).
  simpl. intros C. repeat (destruct C as [C|C]; [discriminate C|]). exact C.
Defined.

(** [psize] in the returned mapping is the [patch_size] of the document,
    which is still there under its own name. *)
Theorem psize_is_patch_size (gandlf_version : string) (doc cfg : dict) :
  parseConfig gandlf_version doc = Ok cfg ->
  exists v, lookup "patch_size" doc = Some v
            /\ lookup "patch_size" cfg = Some v
            /\ lookup "psize" cfg = Some v.
Proof.
  intros H.
  destruct (parseConfig_trail _ _ _ H)
    as (v & n & m & bs & amp & lr & lf & opt & da & bf & sc & q1 & q2 & q3 & w & t
        & _ & Hv & _ & _ & _ & _ & _ & _ & _ & _ & _ & _ & _ & _ & _ & ->).
  exists v. split; [exact Hv|]. split; read_trail. exact Hv.
Qed.

Lemma psize_is_patch_size_witness :
  exists v, lookup "patch_size" busy_document = Some v
            /\ lookup "patch_size" (result_of "0.0.8" busy_document) = Some v
            /\ lookup "psize" (result_of "0.0.8" busy_document) = Some v.
Proof. exact (psize_is_patch_size "0.0.8" busy_document _ busy_returns). Defined.

(* ================================================================= *)
(** ** The name of the model *)

(** [which_model] in the returned mapping is the text of [modelName] when
    the document has that key, whatever it says under [which_model]; else
    the text of its own [which_model]; else "resunet". *)
Theorem model_name_precedence (gandlf_version : string) (doc cfg : dict) :
  parseConfig gandlf_version doc = Ok cfg ->
  (forall x, lookup "modelName" doc = Some x ->
   exists w, py_str x = Ok w /\ lookup "which_model" cfg = Some (VStr w))
  /\ (lookup "modelName" doc = None ->
      forall x, lookup "which_model" doc = Some x ->
      exists w, py_str x = Ok w /\ lookup "which_model" cfg = Some (VStr w))
  /\ (lookup "modelName" doc = None -> lookup "which_model" doc = None ->
      lookup "which_model" cfg = Some (VStr "resunet")).
Proof.
  intros H.
  destruct (parseConfig_trail _ _ _ H)
    as (v & n & m & bs & amp & lr & lf & opt & da & bf & sc & q1 & q2 & q3 & w & t
        & _ & _ & _ & _ & _ & _ & _ & _ & _ & Gw & _ & _ & _ & _ & _ & ->).
  unfold given_or, given_model_name, as_str in Gw.
  assert (R : lookup "which_model"
                (apply_writes
                   [("psize", v);
                    ("resize", match lookup "resize" doc with Some r => r | None => VNone end);
                    ("num_epochs", VInt n); ("patience", VInt m); ("batch_size", bs);
                    ("amp", amp); ("learning_rate", lr); ("loss_function", lf);
                    ("opt", opt); ("data_augmentation", da); ("base_filters", bf);
                    ("which_model", VStr w); ("scheduler", sc); ("q_max_length", q1);
                    ("q_samples_per_volume", q2); ("q_num_workers", q3);
                    ("q_verbose",
                     VBool match lookup "q_verbose" doc with
                           | Some x => eq_text x "True"
                           | None => false
                           end);
                    ("parallel_compute_command", VStr t)] doc) = Some (VStr w))
    by read_trail.
  rewrite R. clear R.
  split; [|split].
  - intros x Hx. rewrite Hx in Gw.
    apply bind_Ok in Gw. destruct Gw as (w' & Hw & Gw). injection Gw as <-. eauto.
  - intros Hm x Hx. rewrite Hm, Hx in Gw.
    apply bind_Ok in Gw. destruct Gw as (w' & Hw & Gw). injection Gw as <-. eauto.
  - intros Hm Hx. rewrite Hm, Hx in Gw. now injection Gw as <-.
Qed.

Lemma model_name_precedence_witness :
  exists w, py_str (VStr "unet") = Ok w
            /\ lookup "which_model" (result_of "0.0.8" busy_document) = Some (VStr w).
Proof.
  refine (proj1 (model_name_precedence "0.0.8" busy_document _ busy_returns)
            (VStr "unet") _).
  reflexivity.
Defined.

(* ================================================================= *)
(** ** [q_verbose] and [parallel_compute_command] *)

(** [q_verbose] comes back as a boolean that is true exactly when the
    document gave the text "True"; any other value, the boolean [True]
    among them, gives false. *)
Theorem q_verbose_only_for_the_text (gandlf_version : string) (doc cfg : dict) :
  parseConfig gandlf_version doc = Ok cfg ->
  exists b, lookup "q_verbose" cfg = Some (VBool b)
            /\ (b = true <-> lookup "q_verbose" doc = Some (VStr "True")).
Proof.
  intros H.
  destruct (parseConfig_trail _ _ _ H)
    as (v & n & m & bs & amp & lr & lf & opt & da & bf & sc & q1 & q2 & q3 & w & t
        & _ & _ & _ & _ & _ & _ & _ & _ & _ & _ & _ & _ & _ & _ & _ & ->).
  eexists. split; [read_trail|].
  destruct (lookup "q_verbose" doc) as [x|]; [|split; discriminate].
  split.
  - intros E. apply eq_text_true in E. now subst.
  - intros [= ->]. reflexivity.
Qed.

Lemma q_verbose_only_for_the_text_witness :
  exists b, lookup "q_verbose" (result_of "0.0.8" busy_document) = Some (VBool b)
            /\ (b = true <-> lookup "q_verbose" busy_document = Some (VStr "True")).
Proof. exact (q_verbose_only_for_the_text "0.0.8" busy_document _ busy_returns). Defined.

Lemma chars_remove_char (c : ascii) (t : string) :
  chars (remove_char c t) = filter (fun x => negb (Ascii.eqb x c)) (chars t).
Proof.
  unfold chars. induction t as [|x t IH]; simpl; [reflexivity|].
  destruct (Ascii.eqb x c); simpl; now rewrite IH.
Qed.

Lemma filter_filter {A : Type} (f g : A -> bool) (l : list A) :
  filter f (filter g l) = filter (fun x => g x && f x) l.
Proof.
  induction l as [|x l IH]; simpl; [reflexivity|].
  destruct (g x); simpl; [destruct (f x)|]; now rewrite IH.
Qed.

(** [parallel_compute_command] comes back as the empty text when the
    document has none, and else as the text the document gave with every
    single and double quote taken out and every other character kept in
    place; a run cannot return on a command that is no text. *)
Theorem command_comes_back_unquoted (gandlf_version : string) (doc cfg : dict) :
  parseConfig gandlf_version doc = Ok cfg ->
  (lookup "parallel_compute_command" doc = None ->
   lookup "parallel_compute_command" cfg = Some (VStr EmptyString))
  /\ (forall x, lookup "parallel_compute_command" doc = Some x ->
      exists given t,
        x = VStr given
        /\ lookup "parallel_compute_command" cfg = Some (VStr t)
        /\ chars t = filter no_quote (chars given)).
Proof.
  intros H.
  destruct (parseConfig_trail _ _ _ H)
    as (v & n & m & bs & amp & lr & lf & opt & da & bf & sc & q1 & q2 & q3 & w & t
        & _ & _ & _ & _ & _ & _ & _ & _ & _ & _ & _ & _ & _ & _ & Gt & ->).
  unfold given_or, strip_quotes in Gt.
  split.
  - intros Hn. rewrite Hn in Gt. injection Gt as <-. read_trail.
  - intros x Hx. rewrite Hx in Gt.
    destruct x; try discriminate. cbn [replace_char bind] in Gt. injection Gt as <-.
    exists s, (remove_char "034" (remove_char "'" s)).
    split; [reflexivity|]. split; [read_trail|].
    rewrite !chars_remove_char, filter_filter. apply filter_ext.
    intros c. unfold no_quote. now rewrite negb_orb.
Qed.

Lemma command_comes_back_unquoted_witness :
  exists given t,
    VStr (String.append "qsub -l 'gpu=1' " (String "034"%char "run")) = VStr given
    /\ lookup "parallel_compute_command" (result_of "0.0.8" busy_document)
       = Some (VStr t)
    /\ chars t = filter no_quote (chars given).
Proof.
  refine (proj2 (command_comes_back_unquoted "0.0.8" busy_document _ busy_returns)
            _ _).
  reflexivity.
Defined.

(* ================================================================= *)
(** ** What a returned mapping is sure to hold *)

Lemma require_model_Ok (p p' : dict) :
  require_model p = Ok p' ->
  exists d architecture final_layer,
    lookup "model" p = Some (VDict d) /\ d <> []
    /\ lookup "architecture" d = Some architecture /\ truthy architecture = true
    /\ lookup "final_layer" d = Some final_layer /\ truthy final_layer = true.
Proof.
  unfold require_model, has_key, param, getitem.
  destruct (lookup "model" p) as [model|]; [|discriminate].
  cbn [bind]. destruct model; try discriminate. cbn [is_dict negb py_len bind].
  destruct d as [|kv d]; [discriminate|].
  assert (N : (Z.of_nat (List.length (kv :: d)) =? 0) = false)
    by (apply Z.eqb_neq; simpl List.length; lia).
  rewrite N. cbn [bind].
  destruct (lookup "architecture" (kv :: d)) as [a|] eqn:Ea; [|discriminate].
  cbn [bind]. destruct (truthy a) eqn:Ta; [|discriminate]. cbn [negb bind].
  destruct (lookup "final_layer" (kv :: d)) as [f|] eqn:Ef; [|discriminate].
  cbn [bind].
  destruct (truthy f) eqn:Tf; [|discriminate]. intros _.
  exists (kv :: d), a, f. repeat split; auto. discriminate.
Qed.

(** The mapping a run returns has [class_list], a [dimension] that counts
    as true, a [model] that is a non-empty mapping with an [architecture]
    and a [final_layer] that count as true, a [nested_training] that counts
    as true, and no [kcross_validation]; all of them as the document gave
    them. *)
Theorem returned_mapping_is_complete (gandlf_version : string) (doc cfg : dict) :
  parseConfig gandlf_version doc = Ok cfg ->
  (exists class_list, lookup "class_list" cfg = Some class_list)
  /\ (exists dimension, lookup "dimension" cfg = Some dimension
                        /\ truthy dimension = true)
  /\ (exists d architecture final_layer,
         lookup "model" cfg = Some (VDict d) /\ d <> []
         /\ lookup "architecture" d = Some architecture /\ truthy architecture = true
         /\ lookup "final_layer" d = Some final_layer /\ truthy final_layer = true)
  /\ (exists nested_training, lookup "nested_training" cfg = Some nested_training
                              /\ truthy nested_training = true)
  /\ lookup "kcross_validation" cfg = None.
Proof.
  intros H.
  pose proof (fun k => unwritten_fields_keep _ _ _ k H) as F.
  destruct (parseConfig_trail _ _ _ H)
    as (v & n & m & bs & amp & lr & lf & opt & da & bf & sc & q1 & q2 & q3 & w & t
        & (_ & Gc & Gd & _ & Gm & Gk & Gn) & _).
  assert (NW : forall k, In k ["class_list"; "dimension"; "model"; "nested_training";
                               "kcross_validation"] -> ~ In k written_keys).
  { intros k Hk C. simpl in Hk.
    repeat (destruct Hk as [<-|Hk];
            [simpl in C; repeat (destruct C as [C|C]; [discriminate C|]); exact C|]).
    exact Hk. }
  rewrite !F by (apply NW; simpl; tauto).
  split; [|split; [|split; [|split]]].
  - unfold require_class_list, has_key in Gc.
    destruct (lookup "class_list" doc); [eauto|discriminate].
  - unfold require_dimension, param, getitem in Gd.
    destruct (lookup "dimension" doc) as [dim|]; [|discriminate].
    cbn [bind] in Gd. destruct (truthy dim) eqn:T; [eauto|discriminate].
  - exact (require_model_Ok _ _ Gm).
  - unfold check_nested_training, param, getitem in Gn.
    destruct (lookup "nested_training" doc) as [nt|]; [|discriminate].
    cbn [bind] in Gn. destruct (truthy nt) eqn:T; [eauto|discriminate].
  - unfold refuse_kcross_validation, has_key in Gk.
    destruct (lookup "kcross_validation" doc); [discriminate|reflexivity].
Qed.

Lemma returned_mapping_is_complete_witness :
  lookup "kcross_validation" (result_of "0.0.8" busy_document) = None.
Proof.
  exact (proj2 (proj2 (proj2 (proj2
           (returned_mapping_is_complete "0.0.8" busy_document _ busy_returns))))).
Defined.

(** A run returns only on a document whose version range holds the
    installed version: [minimum] and [maximum] are texts [parse_version]
    reads, and the key of the installed version lies between their keys,
    ends included. *)
Theorem returned_means_compatible (gandlf_version : string) (doc cfg : dict) :
  parseConfig gandlf_version doc = Ok cfg ->
  exists version minimum maximum engine lowest highest,
    lookup "version" doc = Some version
    /\ lookup "version" cfg = Some version
    /\ getitem version "minimum" = Ok minimum
    /\ getitem version "maximum" = Ok maximum
    /\ parse_version (VStr gandlf_version) = Ok engine
    /\ parse_version minimum = Ok lowest
    /\ parse_version maximum = Ok highest
    /\ lowest <= engine <= highest.
Proof.
  intros H.
  pose proof (fun k => unwritten_fields_keep _ _ _ k H) as F.
  destruct (parseConfig_trail _ _ _ H)
    as (v & n & m & bs & amp & lr & lf & opt & da & bf & sc & q1 & q2 & q3 & w & t
        & (G & _) & _).
  rewrite F
    by (simpl; intros C; repeat (destruct C as [C|C]; [discriminate C|]); exact C).
  unfold version_gate, has_key in G.
  destruct (lookup "version" doc) as [version|] eqn:Ev; [|discriminate].
  rewrite (param_found _ _ _ Ev) in G. cbn [negb bind] in G.
  destruct (parse_version (VStr gandlf_version)) as [e| | |] eqn:Ee; try discriminate.
  cbn [bind] in G.
  destruct (getitem version "minimum") as [mn| | |] eqn:Emn; try discriminate.
  cbn [bind] in G.
  destruct (parse_version mn) as [lo| | |] eqn:Elo; try discriminate.
  cbn [bind] in G.
  destruct (getitem version "maximum") as [mx| | |] eqn:Emx; try discriminate.
  cbn [bind] in G.
  destruct (parse_version mx) as [hi| | |] eqn:Ehi; try discriminate.
  cbn [bind] in G.
  destruct ((lo >? e) || (hi <? e)) eqn:C; [discriminate|].
  apply orb_false_iff in C. destruct C as [C1 C2].
  exists version, mn, mx, e, lo, hi. repeat split; auto; lia.
Qed.

Lemma returned_means_compatible_witness :
  exists version minimum maximum engine lowest highest,
    lookup "version" busy_document = Some version
    /\ lookup "version" (result_of "0.0.8" busy_document) = Some version
    /\ getitem version "minimum" = Ok minimum
    /\ getitem version "maximum" = Ok maximum
    /\ parse_version (VStr "0.0.8") = Ok engine
    /\ parse_version minimum = Ok lowest
    /\ parse_version maximum = Ok highest
    /\ lowest <= engine <= highest.
Proof. exact (returned_means_compatible "0.0.8" busy_document _ busy_returns). Defined.

(* ================================================================= *)
(** ** [loss_function]: the other shapes *)

Lemma loss_turn_other (p : dict) (k : string) :
  String.eqb k "mse" = false ->
  loss_turn p k = Ok (store "loss_function" (VStr k) p).
Proof. intros E. unfold loss_turn. now rewrite E. Qed.

Lemma loss_loop_others (ks : list string) :
  forall p key,
    Forall (fun k => String.eqb k "mse" = false) ks -> ks <> [] ->
    loss_loop ks p key
    = Ok (store "loss_function" (VStr (last ks EmptyString)) p,
          Some (last ks EmptyString)).
Proof.
  induction ks as [|k ks IH]; intros p key Hall Hne; [contradiction|].
  inversion Hall as [|? ? Hk Hks]; subst.
  cbn [loss_loop]. rewrite (loss_turn_other _ _ Hk). cbn [bind].
  destruct ks as [|k' ks'].
  - reflexivity.
  - rewrite (IH _ _ Hks) by discriminate. now rewrite store_store.
Qed.

(** A loss given as a non-empty mapping without the key "mse" comes back
    as the text of the last key of the mapping, in document order; the rule
    itself returns on every such mapping. *)
Theorem last_loss_key_wins (d : dict) :
  d <> [] -> Forall (fun k => String.eqb k "mse" = false) (keys d) ->
  (forall p, lookup "loss_function" p = Some (VDict d) ->
             normalize_loss p
             = Ok (store "loss_function" (VStr (last (keys d) EmptyString)) p,
                   Some (last (keys d) EmptyString)))
  /\ (forall gandlf_version doc cfg,
         lookup "loss_function" doc = Some (VDict d) ->
         parseConfig gandlf_version doc = Ok cfg ->
         lookup "loss_function" cfg = Some (VStr (last (keys d) EmptyString))).
Proof.
  intros Hne Hall.
  assert (R : forall p, lookup "loss_function" p = Some (VDict d) ->
              normalize_loss p
              = Ok (store "loss_function" (VStr (last (keys d) EmptyString)) p,
                    Some (last (keys d) EmptyString))).
  { intros p Hp. unfold normalize_loss.
    rewrite (has_key_true _ _ _ Hp), (param_found _ _ _ Hp). cbn [bind].
    assert (Hpos : (0 <? Z.of_nat (List.length d)) = true).
    { apply Z.ltb_lt. destruct d; [contradiction|simpl List.length; lia]. }
    rewrite Hpos.
    rewrite (loss_loop_others (keys d) p None Hall)
      by (destruct d; [contradiction|discriminate]).
    cbn [bind]. rewrite param_store_same. cbn [bind]. now rewrite store_store. }
  split; [exact R|].
  intros gv doc cfg Hd H.
  destruct (loss_function_survives _ _ _ H) as (q & q' & key & Hq & Hl & Hc).
  rewrite Hd in Hq. rewrite (R q Hq) in Hl. injection Hl as <- _.
  rewrite Hc. now lookups.
Qed.

Lemma last_loss_key_wins_witness :
  lookup "loss_function" (result_of "0.0.8" busy_document) = Some (VStr "ce").
Proof.
  refine (proj2 (last_loss_key_wins [("dc", VNone); ("ce", VNone)] _ _)
            "0.0.8" busy_document _ _ busy_returns).
  - discriminate.
  - repeat constructor.
  - reflexivity.
Defined.

Lemma loss_loop_refuses_mse (ks : list string) :
  forall p key k0,
    lookup "loss_function" p = Some (VStr k0) -> In "mse" ks ->
    loss_loop ks p key = Raise TypeError.
Proof.
  induction ks as [|k ks IH]; intros p key k0 Hp Hin; [destruct Hin|].
  cbn [loss_loop]. destruct (String.eqb_spec k "mse") as [->|Hne].
  - unfold loss_turn. cbn [String.eqb Ascii.eqb Bool.eqb].
    now rewrite (param_found _ _ _ Hp).
  - assert (E : String.eqb k "mse" = false)
      by (destruct (String.eqb_spec k "mse"); [contradiction|reflexivity]).
    rewrite (loss_turn_other _ _ E). cbn [bind].
    apply (IH _ _ k (lookup_store_same _ _ _)).
    destruct Hin as [->|Hin]; [contradiction|exact Hin].
Qed.

(** A loss given as a mapping whose first key is not "mse" and that has
    the key "mse" further on makes the rule die of a [TypeError]: the first
    key has replaced the mapping by its text when "mse" is looked up in it.
    No run returns on such a document. *)
Theorem mse_after_another_loss_is_a_type_error (k : string) (x : value) (d : dict) :
  String.eqb k "mse" = false -> In "mse" (keys d) ->
  (forall p, lookup "loss_function" p = Some (VDict ((k, x) :: d)) ->
             normalize_loss p = Raise TypeError)
  /\ (forall gandlf_version doc cfg,
         lookup "loss_function" doc = Some (VDict ((k, x) :: d)) ->
         parseConfig gandlf_version doc <> Ok cfg).
Proof.
  intros Hk Hin.
  assert (R : forall p, lookup "loss_function" p = Some (VDict ((k, x) :: d)) ->
              normalize_loss p = Raise TypeError).
  { intros p Hp. unfold normalize_loss.
    rewrite (has_key_true _ _ _ Hp), (param_found _ _ _ Hp). cbn [bind].
    assert (Hpos : (0 <? Z.of_nat (List.length ((k, x) :: d))) = true)
      by (apply Z.ltb_lt; simpl List.length; lia).
    rewrite Hpos. cbn [keys map fst loss_loop].
    rewrite (loss_turn_other _ _ Hk). cbn [bind].
    now rewrite (loss_loop_refuses_mse _ _ _ k (lookup_store_same _ _ _) Hin). }
  split; [exact R|].
  intros gv doc cfg Hd H.
  destruct (loss_function_survives _ _ _ H) as (q & q' & key & Hq & Hl & _).
  rewrite Hd in Hq. rewrite (R q Hq) in Hl. discriminate.
Qed.

Lemma mse_after_another_loss_is_a_type_error_witness :
  normalize_loss [("loss_function", VDict [("dc", VNone); ("mse", VNone)])]
  = Raise TypeError.
Proof.
  refine (proj1 (mse_after_another_loss_is_a_type_error "dc" VNone [("mse", VNone)]
                   _ _) _ _).
  - reflexivity.
  - simpl. now left.
  - reflexivity.
Defined.

(** A loss that is no mapping and not the text "mse" comes back as it was
    given, and so does the mapping of "mse" alone to an entry that holds
    [reduction]: a reduction the document chose is not replaced by "mean". *)
Theorem other_losses_come_back (gandlf_version : string) (doc cfg : dict) :
  parseConfig gandlf_version doc = Ok cfg ->
  (forall v, lookup "loss_function" doc = Some v ->
             is_dict v = false -> eq_text v "mse" = false ->
             lookup "loss_function" cfg = Some v)
  /\ (forall entry, lookup "loss_function" doc = Some (VDict [("mse", entry)]) ->
                    needs_default "reduction" entry = Ok false ->
                    lookup "loss_function" cfg = Some (VDict [("mse", entry)])).
Proof.
  intros H.
  destruct (loss_function_survives _ _ _ H) as (q & q' & key & Hq & Hl & Hc).
  rewrite Hc. split.
  - intros v Hv Hd Hm. rewrite Hv in Hq.
    assert (S : loss_settled v) by (destruct v; try exact Hm; discriminate).
    destruct (normalize_loss_again _ _ Hq S) as (key' & E).
    rewrite E in Hl. injection Hl as <- _. exact Hq.
  - intros entry Hv Hn. rewrite Hv in Hq.
    assert (S : loss_settled (VDict [("mse", entry)])).
    { split; [discriminate|]. split; [repeat constructor|].
      exists entry. split; [reflexivity|exact Hn]. }
    destruct (normalize_loss_again _ _ Hq S) as (key' & E).
    rewrite E in Hl. injection Hl as <- _. exact Hq.
Qed.

Lemma other_losses_come_back_witness :
  lookup "loss_function"
    (result_of "0.0.8"
       (store "loss_function"
          (VDict [("mse", VDict [("reduction", VStr "sum")])]) sample_document))
  = Some (VDict [("mse", VDict [("reduction", VStr "sum")])]).
Proof.
  refine (proj2 (other_losses_come_back "0.0.8"
                   (store "loss_function"
                      (VDict [("mse", VDict [("reduction", VStr "sum")])])
                      sample_document) _ _) _ _ _).
  - vm_compute. reflexivity.
  - vm_compute. reflexivity.
  - reflexivity.
Defined.

(* ================================================================= *)
(** ** Which exit can tell what *)

Lemma exits_nowhere {A : Type} (o : outcome A) (msg : string) :
  exits_only [] o -> o = Exit msg -> False.
Proof. intros Ho E. exact (Ho _ E). Qed.

Lemma check_preprocessing_no_exit (msgs : list string) (params : dict) :
  exits_only msgs (check_preprocessing params).
Proof. rewrite check_preprocessing_measures. walk_exits. Qed.

Lemma set_which_model_no_exit (msgs : list string) (params : dict) :
  exits_only msgs (set_which_model params).
Proof. unfold set_which_model. walk_exits. Qed.

Lemma set_q_verbose_no_exit (msgs : list string) (params : dict) :
  exits_only msgs (set_q_verbose params).
Proof. unfold set_q_verbose. walk_exits. Qed.

Lemma set_parallel_compute_command_no_exit (msgs : list string) (params : dict) :
  exits_only msgs (set_parallel_compute_command params).
Proof. unfold set_parallel_compute_command. walk_exits. Qed.

#[local] Hint Resolve check_preprocessing_no_exit set_which_model_no_exit
  set_q_verbose_no_exit set_parallel_compute_command_no_exit : exits.

(** A checking rule that exits on a later state exits the same way on the
    document, when its fields are still what the document gave. *)
Lemma exit_on_document (ks : list string) (rule : dict -> outcome dict)
    (p q : dict) (msg : string) :
  checks_only ks rule -> (forall k, In k ks -> lookup k q = lookup k p) ->
  rule q = Exit msg -> rule p = Exit msg.
Proof.
  intros C Hq H. rewrite (C p q Hq) in H.
  destruct (rule p); simpl in H; congruence.
Qed.

(** Splits an exit of a sequence into an exit of its head, closed when the
    head never exits, and an exit of what follows. *)
Ltac head_or_rest H p E :=
  apply bind_Exit in H; destruct H as [H|(p & E & H)];
  [try (exfalso; revert H; apply exits_nowhere; solve [walk_exits])|cbv beta in H].

(** The rule a fatal exit comes from, on the document itself. *)
Lemma parseConfig_Exit (gandlf_version : string) (doc : dict) (msg : string) :
  parseConfig gandlf_version doc = Exit msg ->
  version_gate gandlf_version doc = Exit msg
  \/ require_class_list doc = Exit msg
  \/ require_dimension doc = Exit msg
  \/ alias_patch_size doc = Exit msg
  \/ (exists p0, alias_patch_size doc = Ok p0 /\ check_resize p0 = Exit msg)
  \/ require_model doc = Exit msg
  \/ refuse_kcross_validation doc = Exit msg
  \/ check_nested_training doc = Exit msg.
Proof.
  unfold parseConfig. intros H.
  apply bind_Exit in H. destruct H as [H|([p key] & E & H)].
  - unfold rules_before_augmentation, required_fields in H.
    head_or_rest H p0 E0.
    + head_or_rest H p E1; [tauto|]. rule_effects.
      head_or_rest H p E2; [tauto|]. rule_effects.
      head_or_rest H p E3; [tauto|]. rule_effects. tauto.
    + take_apart. rule_effects.
      head_or_rest H p1 E4; [right; right; right; right; left; eauto|].
      exfalso; revert H; apply exits_nowhere; auto with exits.
  - head_or_rest H p3 E1. head_or_rest H p4 E2. rule_effects.
    assert (F : forall k, In k ["model"; "kcross_validation"; "nested_training"] ->
                lookup k p3 = lookup k doc).
    { intros k Hk.
      assert (K : ~ In k written_keys).
      { simpl in Hk. intros C.
        repeat (destruct Hk as [<-|Hk];
          [simpl in C; repeat (destruct C as [C|C]; [discriminate C|]); exact C|]).
        exact Hk. }
      rewrite (default_probability_keeps _ _ _ _ E1)
        by (intros ->; apply K; simpl; tauto).
      apply (rules_before_augmentation_keep _ _ _ _ _ E).
      intros C. apply K. simpl in C |- *. tauto. }
    unfold rules_after_preprocessing in H.
    head_or_rest H q1 E3. head_or_rest H q2 E4.
    use_coerce. apply set_which_model_Ok in E4. destruct E4 as (w & -> & _). subst q1.
    head_or_rest H q3 E5.
    { right. right. right. right. right. left.
      apply (exit_on_document _ _ doc _ _ require_model_checks) in H; [exact H|].
      intros k [<-|[]]. lookups. apply F. simpl. tauto. }
    rule_effects.
    head_or_rest H q4 E6.
    { right. right. right. right. right. right. left.
      apply (exit_on_document _ _ doc _ _ refuse_kcross_validation_checks) in H; [exact H|].
      intros k [<-|[]]. lookups. apply F. simpl. tauto. }
    rule_effects.
    head_or_rest H q5 E7.
    { right. right. right. right. right. right. right.
      apply (exit_on_document _ _ doc _ _ check_nested_training_checks) in H; [exact H|].
      intros k [<-|[]]. lookups. apply F. simpl. tauto. }
    rule_effects.
    head_or_rest H q6 E8. head_or_rest H q7 E9. head_or_rest H q8 E10.
    head_or_rest H q9 E11. head_or_rest H q10 E12.
    exfalso; revert H; apply exits_nowhere; auto with exits.
Qed.

Lemma version_gate_Exit (gandlf_version : string) (doc : dict) (msg : string) :
  version_gate gandlf_version doc = Exit msg ->
  (msg = msg_version /\ lookup "version" doc = None)
  \/ (msg = msg_incompatible gandlf_version
      /\ exists version minimum maximum engine lowest highest,
           lookup "version" doc = Some version
           /\ getitem version "minimum" = Ok minimum
           /\ getitem version "maximum" = Ok maximum
           /\ parse_version (VStr gandlf_version) = Ok engine
           /\ parse_version minimum = Ok lowest
           /\ parse_version maximum = Ok highest
           /\ (engine < lowest \/ highest < engine)).
Proof.
  unfold version_gate, has_key.
  destruct (lookup "version" doc) as [version|] eqn:Ev; cbn [negb];
    [|intros [= <-]; left; split; reflexivity].
  rewrite (param_found _ _ _ Ev). cbn [bind]. intros H.
  head_or_rest H e Ee. head_or_rest H mn Emn. head_or_rest H lo Elo.
  head_or_rest H mx Emx. head_or_rest H hi Ehi.
  destruct ((lo >? e) || (hi <? e)) eqn:C; [|discriminate].
  injection H as <-. right. split; [reflexivity|].
  exists version, mn, mx, e, lo, hi. apply orb_true_iff in C.
  repeat (split; [first [reflexivity|assumption]|]). destruct C; [left|right]; lia.
Qed.

Lemma require_dimension_Exit (doc : dict) (msg : string) :
  require_dimension doc = Exit msg ->
  msg = msg_dimension
  /\ exists dimension, lookup "dimension" doc = Some dimension
                       /\ truthy dimension = false.
Proof.
  unfold require_dimension, param, getitem.
  destruct (lookup "dimension" doc) as [dimension|]; [|discriminate].
  cbn [bind]. destruct (truthy dimension) eqn:T; [discriminate|].
  intros [= <-]. eauto.
Qed.

Lemma check_resize_Exit (p : dict) (msg : string) :
  check_resize p = Exit msg ->
  msg = msg_resize
  /\ exists resize psize,
       lookup "resize" p = Some resize /\ lookup "psize" p = Some psize
       /\ np_greater_equal_all resize psize = Ok false.
Proof.
  unfold check_resize, has_key.
  destruct (lookup "resize" p) as [resize|] eqn:Er; [|discriminate].
  rewrite (param_found _ _ _ Er). cbn [bind]. intros H.
  head_or_rest H psize Ep. apply param_Ok in Ep.
  head_or_rest H holds En. destruct holds; [discriminate|].
  injection H as <-. eauto 6.
Qed.

Lemma require_model_Exit (p : dict) (msg : string) :
  require_model p = Exit msg ->
  (msg = msg_model_dict /\ forall d, lookup "model" p <> Some (VDict d))
  \/ (msg = msg_model_empty /\ lookup "model" p = Some (VDict []))
  \/ (msg = msg_architecture
      /\ exists d architecture,
           lookup "model" p = Some (VDict d)
           /\ lookup "architecture" d = Some architecture
           /\ truthy architecture = false)
  \/ (msg = msg_final_layer
      /\ exists d final_layer,
           lookup "model" p = Some (VDict d)
           /\ lookup "final_layer" d = Some final_layer
           /\ truthy final_layer = false).
Proof.
  unfold require_model, has_key, param, getitem.
  destruct (lookup "model" p) as [model|];
    [|intros [= <-]; left; split; [reflexivity|discriminate]].
  cbn [bind].
  destruct model;
    try (cbn [is_dict negb bind]; intros [= <-]; left; split;
         [reflexivity|discriminate]).
  cbn [is_dict negb py_len bind].
  destruct d as [|kv d]; [intros [= <-]; right; left; split; reflexivity|].
  assert (N : (Z.of_nat (List.length (kv :: d)) =? 0) = false)
    by (apply Z.eqb_neq; simpl List.length; lia).
  rewrite N. cbn [bind].
  destruct (lookup "architecture" (kv :: d)) as [a|] eqn:Ea; [|discriminate].
  cbn [bind]. destruct (truthy a) eqn:Ta; cbn [negb bind];
    [|intros [= <-]; right; right; left; split; [reflexivity|eauto]].
  destruct (lookup "final_layer" (kv :: d)) as [f|] eqn:Ef; [|discriminate].
  cbn [bind]. destruct (truthy f) eqn:Tf; [discriminate|].
  intros [= <-]. right. right. right. split; [reflexivity|eauto].
Qed.

Lemma check_nested_training_Exit (p : dict) (msg : string) :
  check_nested_training p = Exit msg ->
  msg = msg_nested_training
  /\ exists nested_training, lookup "nested_training" p = Some nested_training
                             /\ truthy nested_training = false.
Proof.
  unfold check_nested_training. intros H.
  apply bind_Exit in H. destruct H as [H|(nt & E & H)];
    [exfalso; revert H; apply exits_nowhere; auto with exits|].
  apply param_Ok in E. cbv beta in H.
  destruct (truthy nt) eqn:T; cbn [negb] in H.
  - exfalso. revert H. apply exits_nowhere. unfold default_folds. walk_exits.
  - injection H as <-. eauto.
Qed.

(** Every way [parseConfig] calls [sys.exit], with what the document holds
    when it does. *)
Lemma parseConfig_Exit_cases (gandlf_version : string) (doc : dict) (msg : string) :
  parseConfig gandlf_version doc = Exit msg ->
  (msg = msg_version /\ lookup "version" doc = None)
  \/ (msg = msg_incompatible gandlf_version
      /\ exists version minimum maximum engine lowest highest,
           lookup "version" doc = Some version
           /\ getitem version "minimum" = Ok minimum
           /\ getitem version "maximum" = Ok maximum
           /\ parse_version (VStr gandlf_version) = Ok engine
           /\ parse_version minimum = Ok lowest
           /\ parse_version maximum = Ok highest
           /\ (engine < lowest \/ highest < engine))
  \/ (msg = msg_class_list /\ lookup "class_list" doc = None)
  \/ (msg = msg_dimension
      /\ exists dimension, lookup "dimension" doc = Some dimension
                           /\ truthy dimension = false)
  \/ (msg = msg_patch_size /\ lookup "patch_size" doc = None)
  \/ (msg = msg_resize
      /\ exists resize patch_size,
           lookup "resize" doc = Some resize
           /\ lookup "patch_size" doc = Some patch_size
           /\ np_greater_equal_all resize patch_size = Ok false)
  \/ (msg = msg_model_dict /\ forall d, lookup "model" doc <> Some (VDict d))
  \/ (msg = msg_model_empty /\ lookup "model" doc = Some (VDict []))
  \/ (msg = msg_architecture
      /\ exists d architecture,
           lookup "model" doc = Some (VDict d)
           /\ lookup "architecture" d = Some architecture
           /\ truthy architecture = false)
  \/ (msg = msg_final_layer
      /\ exists d final_layer,
           lookup "model" doc = Some (VDict d)
           /\ lookup "final_layer" d = Some final_layer
           /\ truthy final_layer = false)
  \/ (msg = msg_kcross_validation
      /\ exists v, lookup "kcross_validation" doc = Some v)
  \/ (msg = msg_nested_training
      /\ exists nested_training, lookup "nested_training" doc = Some nested_training
                                 /\ truthy nested_training = false).
Proof.
  intros H.
  destruct (parseConfig_Exit _ _ _ H)
    as [G|[G|[G|[G|[(p0 & G0 & G)|[G|[G|G]]]]]]].
  - destruct (version_gate_Exit _ _ _ G) as [C|C]; tauto.
  - unfold require_class_list, has_key in G.
    destruct (lookup "class_list" doc); [discriminate|].
    injection G as <-. tauto.
  - pose proof (require_dimension_Exit _ _ G). tauto.
  - unfold alias_patch_size, has_key in G.
    destruct (lookup "patch_size" doc) as [v|] eqn:Ev.
    + rewrite (param_found _ _ _ Ev) in G. discriminate.
    + injection G as <-. tauto.
  - destruct (alias_patch_size_Ok _ _ G0) as (v & Hv & ->).
    destruct (check_resize_Exit _ _ G) as (-> & r & ps & Hr & Hp & Hn).
    lookups_in Hr. lookups_in Hp. injection Hp as <-.
    do 5 right. left. split; [reflexivity|]. exists r, v. auto.
  - destruct (require_model_Exit _ _ G) as [C|[C|[C|C]]]; tauto.
  - unfold refuse_kcross_validation, has_key in G.
    destruct (lookup "kcross_validation" doc) as [v|]; [|discriminate].
    injection G as <-. do 10 right. left. eauto.
  - pose proof (check_nested_training_Exit _ _ G). tauto.
Qed.

(** Reads one message off the cases of [parseConfig_Exit_cases]. *)
Ltac by_message D :=
  let C := fresh "C" in
  let X := fresh "X" in
  repeat (destruct D as [(C & X)|D];
          [first [ exfalso; discriminate C
                 | exfalso; unfold msg_incompatible in C; simpl in C; discriminate C
                 | exact X ]|]);
  destruct D as (C & X);
  first [ exfalso; discriminate C
        | exfalso; unfold msg_incompatible in C; simpl in C; discriminate C
        | exact X ].

(** The message of a fatal exit says what is wrong with the document as it
    was given: a field that is missing ([version], [class_list],
    [patch_size], [model]), a field that is there and counts as false
    ([dimension], [nested_training], the [architecture] or [final_layer] of
    the model), a [model] that is no mapping or an empty one, a [resize]
    that falls short of [patch_size], a [kcross_validation] that is there,
    or a version range that leaves the installed version out.  No run exits
    with the message about [threshold] and [clip]. *)
Theorem exits_name_their_cause (gandlf_version : string) (doc : dict) (msg : string) :
  parseConfig gandlf_version doc = Exit msg ->
  (msg = msg_version -> lookup "version" doc = None)
  /\ (msg = msg_incompatible gandlf_version ->
      exists version minimum maximum engine lowest highest,
        lookup "version" doc = Some version
        /\ getitem version "minimum" = Ok minimum
        /\ getitem version "maximum" = Ok maximum
        /\ parse_version (VStr gandlf_version) = Ok engine
        /\ parse_version minimum = Ok lowest
        /\ parse_version maximum = Ok highest
        /\ (engine < lowest \/ highest < engine))
  /\ (msg = msg_class_list -> lookup "class_list" doc = None)
  /\ (msg = msg_dimension ->
      exists dimension, lookup "dimension" doc = Some dimension
                        /\ truthy dimension = false)
  /\ (msg = msg_patch_size -> lookup "patch_size" doc = None)
  /\ (msg = msg_resize ->
      exists resize patch_size,
        lookup "resize" doc = Some resize
        /\ lookup "patch_size" doc = Some patch_size
        /\ np_greater_equal_all resize patch_size = Ok false)
  /\ (msg = msg_model_dict -> forall d, lookup "model" doc <> Some (VDict d))
  /\ (msg = msg_model_empty -> lookup "model" doc = Some (VDict []))
  /\ (msg = msg_architecture ->
      exists d architecture,
        lookup "model" doc = Some (VDict d)
        /\ lookup "architecture" d = Some architecture
        /\ truthy architecture = false)
  /\ (msg = msg_final_layer ->
      exists d final_layer,
        lookup "model" doc = Some (VDict d)
        /\ lookup "final_layer" d = Some final_layer
        /\ truthy final_layer = false)
  /\ (msg = msg_kcross_validation ->
      exists v, lookup "kcross_validation" doc = Some v)
  /\ (msg = msg_nested_training ->
      exists nested_training, lookup "nested_training" doc = Some nested_training
                              /\ truthy nested_training = false)
  /\ msg <> msg_threshold_clip.
Proof.
  intros H. pose proof (parseConfig_Exit_cases _ _ _ H) as D. clear H.
  split; [intros ->; by_message D|].
  split; [intros ->; by_message D|].
  split; [intros ->; by_message D|].
  split; [intros ->; by_message D|].
  split; [intros ->; by_message D|].
  split; [intros ->; by_message D|].
  split; [intros ->; by_message D|].
  split; [intros ->; by_message D|].
  split; [intros ->; by_message D|].
  split; [intros ->; by_message D|].
  split; [intros ->; by_message D|].
  split; [intros ->; by_message D|].
  intros ->. by_message D.
Qed.

Lemma exits_name_their_cause_witness :
  exists dimension,
    lookup "dimension" (store "dimension" (VInt 0) sample_document) = Some dimension
    /\ truthy dimension = false.
Proof.
  refine (proj1 (proj2 (proj2 (proj2
            (exits_name_their_cause "0.0.8"
               (store "dimension" (VInt 0) sample_document) msg_dimension _))))
            eq_refl).
  vm_compute. reflexivity.
Defined.

(* ================================================================= *)
(** ** [resize] and [patch_size] of different shapes *)

Lemma required_fields_Ok (gandlf_version : string) (doc p0 : dict) :
  required_fields gandlf_version doc = Ok p0 ->
  exists v, lookup "patch_size" doc = Some v /\ p0 = store "psize" v doc.
Proof.
  unfold required_fields. intros H. take_apart. rule_effects.
  exact (alias_patch_size_Ok _ _ H).
Qed.

Lemma check_resize_compares (p : dict) (resize psize : value) :
  lookup "resize" p = Some resize -> lookup "psize" p = Some psize ->
  check_resize p
  = (holds <- np_greater_equal_all resize psize ;;
     if negb holds then Exit msg_resize else Ok p).
Proof.
  intros Hr Hp. unfold check_resize.
  now rewrite (has_key_true _ _ _ Hr), (param_found _ _ _ Hr), (param_found _ _ _ Hp).
Qed.

Lemma forallb_against_one (r : Z) (ps : list Z) :
  forallb (fun p => cell_ge DInt (fst p) (snd p))
    (combine (repeat (CInt r) (List.length ps)) (map CInt ps))
  = forallb (fun p => p <=? r) ps.
Proof. induction ps as [|p ps IH]; simpl; [reflexivity|f_equal; exact IH]. Qed.

(** One integer against a sequence of integers: the integer is compared
    with every element. *)
Lemma np_greater_equal_all_scalar (r : Z) (ps : list Z) :
  int64 r = true -> Forall (fun z => int64 z = true) ps ->
  np_greater_equal_all (VInt r) (int_list ps) = Ok (forallb (fun p => p <=? r) ps).
Proof.
  intros Hr Hp. unfold np_greater_equal_all, int_list, asarray.
  cbn [cell_of option_map]. rewrite Hr, (cells_of_ints _ Hp). cbn [option_map].
  assert (B : broadcast [CInt r] (map CInt ps)
              = Some (combine (repeat (CInt r) (List.length ps)) (map CInt ps))).
  { unfold broadcast. rewrite length_map. cbn [List.length hd].
    destruct ps as [|p [|q ps]]; reflexivity. }
  rewrite B, array_dtype_ints.
  destruct ps as [|p ps]; [reflexivity|].
  change (promote (array_dtype [CInt r]) DInt) with DInt. cbv beta iota.
  now rewrite (forallb_against_one r (p :: ps)).
Qed.

(** Two sequences of different lengths, neither of one element, cannot be
    compared. *)
Lemma np_greater_equal_all_clash (rs ps : list Z) :
  Forall (fun z => int64 z = true) rs -> Forall (fun z => int64 z = true) ps ->
  List.length rs <> List.length ps ->
  List.length rs <> 1%nat -> List.length ps <> 1%nat ->
  np_greater_equal_all (int_list rs) (int_list ps) = Raise ValueError.
Proof.
  intros Hr Hp Hne H1 H2. unfold np_greater_equal_all, int_list, asarray.
  rewrite (cells_of_ints _ Hr), (cells_of_ints _ Hp).
  unfold broadcast. rewrite !length_map.
  apply Nat.eqb_neq in Hne, H1, H2. now rewrite Hne, H1, H2.
Qed.

(** [resize] need not have the length of [patch_size].  On a document that
    passes lines 25-45, with integers of the int64 range: a [resize] that is
    one integer is held against every entry of [patch_size], the run exiting
    with the message about [resize] when some entry is larger and handing
    the integer back when it returns; a [resize] and a [patch_size] that
    are sequences of different lengths, neither of one element, make the run
    die of a [ValueError]. *)
Theorem resize_of_another_shape (gandlf_version : string) (doc p0 : dict) :
  required_fields gandlf_version doc = Ok p0 ->
  (forall r ps,
      lookup "resize" doc = Some (VInt r) ->
      lookup "patch_size" doc = Some (int_list ps) ->
      int64 r = true -> Forall (fun z => int64 z = true) ps ->
      check_resize p0
      = (if forallb (fun p => p <=? r) ps then Ok p0 else Exit msg_resize)
      /\ ((exists p, In p ps /\ r < p) ->
          parseConfig gandlf_version doc = Exit msg_resize)
      /\ (forall cfg, parseConfig gandlf_version doc = Ok cfg ->
                      (forall p, In p ps -> p <= r)
                      /\ lookup "resize" cfg = Some (VInt r)))
  /\ (forall rs ps,
         lookup "resize" doc = Some (int_list rs) ->
         lookup "patch_size" doc = Some (int_list ps) ->
         Forall (fun z => int64 z = true) rs ->
         Forall (fun z => int64 z = true) ps ->
         List.length rs <> List.length ps ->
         List.length rs <> 1%nat -> List.length ps <> 1%nat ->
         parseConfig gandlf_version doc = Raise ValueError).
Proof.
  intros H0. destruct (required_fields_Ok _ _ _ H0) as (v & Hv & E0).
  split.
  - intros r ps Hr Hp Ir Ip. rewrite Hp in Hv. injection Hv as <-.
    assert (Lr : lookup "resize" p0 = Some (VInt r)) by (rewrite E0; now lookups).
    assert (Lp : lookup "psize" p0 = Some (int_list ps)) by (rewrite E0; now lookups).
    assert (C : check_resize p0
                = if forallb (fun p => p <=? r) ps then Ok p0 else Exit msg_resize).
    { rewrite (check_resize_compares _ _ _ Lr Lp), (np_greater_equal_all_scalar _ _ Ir Ip).
      cbn [bind]. now destruct (forallb (fun p => p <=? r) ps). }
    split; [exact C|]. split.
    + intros (p & Hin & Hlt).
      assert (F : forallb (fun p => p <=? r) ps = false).
      { destruct (forallb (fun p => p <=? r) ps) eqn:F; [|reflexivity].
        rewrite forallb_forall in F. specialize (F p Hin). apply Z.leb_le in F. lia. }
      rewrite F in C.
      rewrite (parseConfig_stops_at_resize _ _ _ _ H0 C); [reflexivity|discriminate].
    + intros cfg H.
      destruct (resize_survives _ _ _ H) as (q0 & q1 & G0 & _ & _ & G1 & Gc).
      rewrite H0 in G0. injection G0 as <-. rewrite C in G1.
      destruct (forallb (fun p => p <=? r) ps) eqn:F; [|discriminate].
      injection G1 as <-. split.
      * intros p Hin. rewrite forallb_forall in F. apply Z.leb_le. now apply F.
      * now rewrite Gc.
  - intros rs ps Hr Hp Ir Ip Hne H1 H2. rewrite Hp in Hv. injection Hv as <-.
    assert (Lr : lookup "resize" p0 = Some (int_list rs)) by (rewrite E0; now lookups).
    assert (Lp : lookup "psize" p0 = Some (int_list ps)) by (rewrite E0; now lookups).
    assert (C : check_resize p0 = Raise ValueError).
    { rewrite (check_resize_compares _ _ _ Lr Lp),
        (np_greater_equal_all_clash _ _ Ir Ip Hne H1 H2). reflexivity. }
    rewrite (parseConfig_stops_at_resize _ _ _ _ H0 C); [reflexivity|discriminate].
Qed.

Lemma resize_of_another_shape_witness :
  parseConfig "0.0.8"
    (store "resize" (int_list [128; 128; 128]) sample_document)
  = Raise ValueError.
Proof.
  refine (proj2 (resize_of_another_shape "0.0.8"
                  (store "resize" (int_list [128; 128; 128]) sample_document)
                  (store "psize" (int_list [128; 128])
                     (store "resize" (int_list [128; 128; 128]) sample_document)) _)
            [128; 128; 128] [128; 128] _ _ _ _ _ _ _).
  - vm_compute. reflexivity.
  - reflexivity.
  - reflexivity.
  - repeat (apply Forall_cons; [reflexivity|]). apply Forall_nil.
  - repeat (apply Forall_cons; [reflexivity|]). apply Forall_nil.
  - discriminate.
  - discriminate.
  - discriminate.
Defined.

(* ================================================================= *)
(** ** [parse_version] on versions as they are written *)

Lemma digit_facts (c : ascii) :
  match digit_of c with Some _ => true | None => false end = true ->
  digit_of c = Some (code c - 48) /\ 48 <= code c <= 57.
Proof.
  unfold digit_of.
  destruct ((48 <=? code c) && (code c <=? 57)) eqn:E; [|discriminate].
  intros _. apply andb_true_iff in E. split; [reflexivity|lia].
Qed.

Lemma digit_is_plain (c : ascii) :
  48 <= code c <= 57 ->
  is_space c = false /\ is_underscore c = false
  /\ (code c =? 45) = false /\ (code c =? 43) = false.
Proof.
  intros H. unfold is_space, is_underscore. cbv zeta.
  repeat match goal with
         | |- context [?a <=? ?b] => destruct (Z.leb_spec a b)
         | |- context [?a =? ?b] => destruct (Z.eqb_spec a b)
         end; try lia; repeat split; reflexivity.
Qed.

Lemma more_digits_all (cs : list ascii) :
  forall acc,
    forallb (fun c => match digit_of c with Some _ => true | None => false end) cs = true ->
    more_digits acc cs = Some (fold_left (fun acc c => 10 * acc + (code c - 48)) cs acc).
Proof.
  induction cs as [|c cs IH]; intros acc H; [reflexivity|].
  cbn [forallb] in H. apply andb_true_iff in H. destruct H as [Hc Hcs].
  destruct (digit_facts _ Hc) as (Hd & Hr).
  destruct (digit_is_plain _ Hr) as (_ & Hu & _).
  cbn [more_digits fold_left]. rewrite Hu, Hd. now apply IH.
Qed.

Lemma fold_digits_nonneg (cs : list ascii) :
  forall acc,
    forallb (fun c => match digit_of c with Some _ => true | None => false end) cs = true ->
    0 <= acc -> 0 <= fold_left (fun acc c => 10 * acc + (code c - 48)) cs acc.
Proof.
  induction cs as [|c cs IH]; intros acc H Ha; [exact Ha|].
  cbn [forallb] in H. apply andb_true_iff in H. destruct H as [Hc Hcs].
  destruct (digit_facts _ Hc) as (_ & Hr).
  cbn [fold_left]. apply IH; [exact Hcs|lia].
Qed.

Lemma lstrip_plain (c : ascii) (cs : list ascii) :
  is_space c = false -> lstrip (c :: cs) = c :: cs.
Proof. intros H. cbn [lstrip]. now rewrite H. Qed.

(** [int()] on a run of digits, at least one: the number they write. *)
Lemma int_of_text_digits (s : string) :
  chars s <> [] ->
  forallb (fun c => match digit_of c with Some _ => true | None => false end) (chars s)
  = true ->
  int_of_text s = Ok (decimal (chars s)) /\ 0 <= decimal (chars s).
Proof.
  intros Hne Hall. unfold int_of_text.
  assert (S : strip (chars s) = chars s).
  { unfold strip. destruct (chars s) as [|c cs] eqn:E; [contradiction|].
    assert (Hc : is_space c = false).
    { cbn [forallb] in Hall. apply andb_true_iff in Hall.
      destruct (digit_facts _ (proj1 Hall)) as (_ & Hr).
      exact (proj1 (digit_is_plain _ Hr)). }
    rewrite (lstrip_plain _ _ Hc).
    destruct (rev (c :: cs)) as [|d ds] eqn:R.
    - apply (f_equal (@List.length ascii)) in R. rewrite length_rev in R. discriminate.
    - assert (Hd : is_space d = false).
      { assert (In d (c :: cs)) by (apply in_rev; rewrite R; now left).
        rewrite forallb_forall in Hall.
        destruct (digit_facts _ (Hall d H)) as (_ & Hr).
        exact (proj1 (digit_is_plain _ Hr)). }
      rewrite (lstrip_plain _ _ Hd), <- R. apply rev_involutive. }
  rewrite S. destruct (chars s) as [|c cs]; [contradiction|].
  cbn [forallb] in Hall. apply andb_true_iff in Hall. destruct Hall as [Hc Hcs].
  destruct (digit_facts _ Hc) as (Hd & Hr).
  destruct (digit_is_plain _ Hr) as (_ & _ & Hm & Hp).
  unfold take_sign. rewrite Hm, Hp. cbn [digits]. rewrite Hd.
  rewrite (more_digits_all _ _ Hcs).
  unfold decimal. cbn [fold_left].
  replace (10 * 0 + (code c - 48)) with (code c - 48) by lia.
  split; [reflexivity|].
  apply fold_digits_nonneg; [exact Hcs|lia].
Qed.

Lemma chars_join_cons (x : string) (xs : list string) :
  chars (join (x :: xs)) = chars x ++ chars (join xs).
Proof.
  unfold join. destruct xs as [|y ys].
  - simpl. now rewrite app_nil_r.
  - change (String.concat "" (x :: y :: ys))
      with (String.append x (String.append "" (String.concat "" (y :: ys)))).
    now rewrite chars_append.
Qed.

Lemma chars_join_digits (parts : list string) :
  Forall (fun comp => all_digits comp = true) parts ->
  forallb (fun c => match digit_of c with Some _ => true | None => false end)
    (chars (join parts)) = true.
Proof.
  induction 1 as [|x xs Hx _ IH]; [reflexivity|].
  rewrite chars_join_cons, forallb_app, IH, andb_true_r.
  unfold all_digits in Hx. destruct (chars x); [discriminate|exact Hx].
Qed.

Lemma kept_components_nonempty (s : string) : kept_components s <> [].
Proof.
  unfold kept_components.
  destruct (Z.ltb_spec 3 (Z.of_nat (List.length (split "." s)))) as [H|H];
    [|apply split_nonempty].
  destruct (split "." s) as [|a [|b l]]; simpl in H; try lia.
  cbn [removelast]. discriminate.
Qed.

(** A version whose kept components are runs of digits is read as the
    number the digits write once the dots are gone: [parse_version] returns
    on it, and its key is not negative.  The digits are no more than the
    4300 that [int()] takes in a recent CPython. *)
Theorem digit_versions_parse (s : string) :
  Forall (fun comp => all_digits comp = true) (kept_components s) ->
  (List.length (chars (join (kept_components s))) <= 4300)%nat ->
  parse_version (VStr s) = Ok (decimal (chars (join (kept_components s))))
  /\ 0 <= decimal (chars (join (kept_components s))).
Proof.
  intros H _. cbn [parse_version]. apply int_of_text_digits.
  - pose proof (kept_components_nonempty s) as Hne.
    destruct (kept_components s) as [|x xs]; [contradiction|].
    rewrite chars_join_cons. inversion H as [|? ? Hx _]; subst.
    unfold all_digits in Hx. destruct (chars x); discriminate.
  - now apply chars_join_digits.
Qed.

Lemma digit_versions_parse_witness :
  parse_version (VStr "0.10.2.dev")
  = Ok (decimal (chars (join (kept_components "0.10.2.dev"))))
  /\ 0 <= decimal (chars (join (kept_components "0.10.2.dev"))).
Proof.
  apply (digit_versions_parse "0.10.2.dev").
  - repeat (apply Forall_cons; [reflexivity|]). apply Forall_nil.
  - apply Nat.leb_le. vm_compute. reflexivity.
Defined.

Lemma split_append (sep : ascii) (s t : string) :
  split sep (String.append s (String sep t)) = split sep s ++ split sep t.
Proof.
  induction s as [|c s IH]; cbn [String.append split].
  - now rewrite Ascii.eqb_refl.
  - destruct (Ascii.eqb c sep); [now rewrite IH|].
    rewrite IH. pose proof (split_nonempty sep s) as Hne.
    destruct (split sep s) as [|w ws]; [contradiction|reflexivity].
Qed.

Lemma split_one (sep : ascii) (t : string) :
  ~ In sep (chars t) -> split sep t = [t].
Proof.
  induction t as [|c t IH]; intros H; [reflexivity|].
  cbn [split]. destruct (Ascii.eqb_spec c sep) as [->|Hne].
  - exfalso. apply H. now left.
  - rewrite IH; [reflexivity|]. intros C. apply H. now right.
Qed.

(** A fourth component is dropped whatever it holds: a version of three
    components is read the same with any dot-free qualifier after it, be it
    text such as "dev", more digits, or nothing at all. *)
Theorem qualifier_is_dropped (s qualifier : string) :
  List.length (split "." s) = 3%nat -> ~ In "."%char (chars qualifier) ->
  kept_components (String.append s (String "." qualifier)) = kept_components s
  /\ parse_version (VStr (String.append s (String "." qualifier)))
     = parse_version (VStr s).
Proof.
  intros H3 Hq.
  assert (K : kept_components (String.append s (String "." qualifier))
              = kept_components s).
  { unfold kept_components.
    rewrite split_append, (split_one _ _ Hq), length_app, H3.
    cbn [List.length Nat.add Z.of_nat]. rewrite removelast_last. reflexivity. }
  split; [exact K|]. cbn [parse_version]. now rewrite K.
Qed.

Lemma qualifier_is_dropped_witness :
  parse_version (VStr "0.0.8.dev") = parse_version (VStr "0.0.8").
Proof.
  refine (proj2 (qualifier_is_dropped "0.0.8" "dev" _ _)).
  - reflexivity.
  - simpl. intros C. repeat (destruct C as [C|C]; [discriminate C|]). exact C.
Defined.

(* ================================================================= *)
(** ** [resize] against [patch_size]: what line 48 compares *)

Lemma cells_of_floats (fs : list float) :
  cells_of (map VFloat fs) = Some (map CFloat fs).
Proof. induction fs as [|f fs IH]; simpl; [reflexivity|now rewrite IH]. Qed.

Lemma array_dtype_floats (fs : list float) : array_dtype (map CFloat fs) = DFloat.
Proof.
  destruct fs as [|f fs]; simpl; [reflexivity|].
  induction fs as [|g gs IH]; simpl; [reflexivity|exact IH].
Qed.

Lemma forallb_cell_ge_floats (fs gs : list float) :
  forallb (fun p => cell_ge DFloat (fst p) (snd p))
    (combine (map CFloat fs) (map CFloat gs))
  = forallb (fun p => PrimFloat.leb (snd p) (fst p)) (combine fs gs).
Proof.
  revert gs. induction fs as [|f fs IH]; intros [|g gs]; simpl; try reflexivity.
  f_equal. apply IH.
Qed.

(** On two float sequences of one length the comparison is the
    element-wise one of binary64. *)
Lemma np_greater_equal_all_floats (fs gs : list float) :
  List.length fs = List.length gs ->
  np_greater_equal_all (VList (map VFloat fs)) (VList (map VFloat gs))
  = Ok (forallb (fun p => PrimFloat.leb (snd p) (fst p)) (combine fs gs)).
Proof.
  intros Hlen. unfold np_greater_equal_all, asarray.
  rewrite !cells_of_floats. unfold broadcast.
  rewrite !length_map, Hlen, Nat.eqb_refl, !array_dtype_floats.
  change (promote DFloat DFloat) with DFloat. cbv beta iota.
  now rewrite forallb_cell_ge_floats.
Qed.

(** [None] against a sequence that is not empty cannot be compared. *)
Lemma np_greater_equal_all_none (ps : list Z) :
  ps <> [] -> Forall (fun z => int64 z = true) ps ->
  np_greater_equal_all VNone (int_list ps) = Raise TypeError.
Proof.
  intros Hne Hp. unfold np_greater_equal_all, int_list, asarray.
  cbn [cell_of option_map]. rewrite (cells_of_ints _ Hp).
  assert (B : broadcast [CNone] (map CInt ps)
              = Some (combine (repeat CNone (List.length ps)) (map CInt ps))).
  { unfold broadcast. rewrite length_map. cbn [List.length hd].
    destruct ps as [|p [|q ps]]; reflexivity. }
  rewrite B, array_dtype_ints. destruct ps as [|p ps]; [contradiction|]. reflexivity.
Qed.

(** C4, as the code has it.  On a document that passes lines 25-45 and
    states [resize], line 48 decides by [np.greater_equal(resize,
    patch_size).all()] and by nothing else: [parseConfig] exits with the
    message about [resize] exactly when the comparison is false; a run that
    returns found it true and hands [resize] back unchanged; an exception of
    the comparison is the exception of the run.  For integer sequences of
    one length the comparison is the element-wise one on the integers, and
    for float sequences of one length the element-wise one of binary64.
    Integer sequences of different lengths, neither of one element, raise
    [ValueError], and [None] against a non-empty integer sequence raises
    [TypeError].  A document without [resize] gets [None] for it. *)
Theorem resize_against_patch_size :
  (forall (gandlf_version : string) (doc p0 : dict) (resize patch_size : value),
      required_fields gandlf_version doc = Ok p0 ->
      lookup "resize" doc = Some resize ->
      lookup "patch_size" doc = Some patch_size ->
      (parseConfig gandlf_version doc = Exit msg_resize
       <-> np_greater_equal_all resize patch_size = Ok false)
      /\ (forall cfg, parseConfig gandlf_version doc = Ok cfg ->
                      np_greater_equal_all resize patch_size = Ok true
                      /\ lookup "resize" cfg = Some resize)
      /\ (forall e, np_greater_equal_all resize patch_size = Raise e ->
                    parseConfig gandlf_version doc = Raise e))
  /\ (forall (gandlf_version : string) (doc p0 : dict) (rs ps : list Z),
         required_fields gandlf_version doc = Ok p0 ->
         lookup "resize" doc = Some (int_list rs) ->
         lookup "patch_size" doc = Some (int_list ps) ->
         List.length rs = List.length ps ->
         Forall (fun z => int64 z = true) rs ->
         Forall (fun z => int64 z = true) ps ->
         ((forall i, (i < List.length rs)%nat -> nth i ps 0 <= nth i rs 0) ->
          check_resize p0 = Ok p0
          /\ forall cfg, parseConfig gandlf_version doc = Ok cfg ->
                         lookup "resize" cfg = Some (int_list rs))
         /\ ((exists i, (i < List.length rs)%nat /\ nth i rs 0 < nth i ps 0) ->
             parseConfig gandlf_version doc = Exit msg_resize))
  /\ (forall fs gs : list float,
         List.length fs = List.length gs ->
         np_greater_equal_all (VList (map VFloat fs)) (VList (map VFloat gs))
         = Ok (forallb (fun p => PrimFloat.leb (snd p) (fst p)) (combine fs gs)))
  /\ (forall rs ps : list Z,
         Forall (fun z => int64 z = true) rs ->
         Forall (fun z => int64 z = true) ps ->
         List.length rs <> List.length ps ->
         List.length rs <> 1%nat -> List.length ps <> 1%nat ->
         np_greater_equal_all (int_list rs) (int_list ps) = Raise ValueError)
  /\ (forall ps : list Z,
         ps <> [] -> Forall (fun z => int64 z = true) ps ->
         np_greater_equal_all VNone (int_list ps) = Raise TypeError)
  /\ (forall (gandlf_version : string) (doc cfg : dict),
         lookup "resize" doc = None ->
         parseConfig gandlf_version doc = Ok cfg ->
         lookup "resize" cfg = Some VNone).
Proof.
  assert (G : forall gv doc p0 resize patch_size,
             required_fields gv doc = Ok p0 ->
             lookup "resize" doc = Some resize ->
             lookup "patch_size" doc = Some patch_size ->
             check_resize p0
             = (holds <- np_greater_equal_all resize patch_size ;;
                if negb holds then Exit msg_resize else Ok p0)).
  { intros gv doc p0 r v H0 Hr Hp.
    destruct (required_fields_Ok _ _ _ H0) as (v' & Hv & E0).
    rewrite Hp in Hv. injection Hv as <-.
    apply check_resize_compares; rewrite E0; now lookups. }
  split; [|split; [|split; [|split; [|split]]]].
  - intros gv doc p0 r v H0 Hr Hp. pose proof (G _ _ _ _ _ H0 Hr Hp) as C.
    split; [split|split].
    + intros H.
      assert (X : exists resize patch_size,
                 lookup "resize" doc = Some resize
                 /\ lookup "patch_size" doc = Some patch_size
                 /\ np_greater_equal_all resize patch_size = Ok false).
      { pose proof (parseConfig_Exit_cases _ _ _ H) as D. by_message D. }
      destruct X as (r' & v' & Hr' & Hp' & Hn). congruence.
    + intros Hn. rewrite Hn in C. cbn [bind negb] in C.
      now rewrite (parseConfig_stops_at_resize gv doc p0 _ H0 C).
    + intros cfg H.
      destruct (resize_survives _ _ _ H) as (q0 & q1 & G0 & Lr & _ & G1 & Gc).
      rewrite H0 in G0. injection G0 as <-. rewrite C in G1.
      destruct (np_greater_equal_all r v) as [[|]| | |]; try discriminate.
      cbn [bind negb] in G1. injection G1 as <-.
      split; [reflexivity|]. now rewrite Gc, Lr.
    + intros e Hn. rewrite Hn in C. cbn [bind] in C.
      now rewrite (parseConfig_stops_at_resize gv doc p0 _ H0 C).
  - intros gv doc p0 rs ps H0 Hr Hp Hlen Ir Ip.
    pose proof (G _ _ _ _ _ H0 Hr Hp) as C.
    rewrite (np_greater_equal_all_ints rs ps Ir Ip Hlen) in C. cbn [bind] in C.
    split.
    + intros Hall. apply (all_ge_positions rs ps Hlen) in Hall.
      rewrite Hall in C. cbn [negb] in C. split; [exact C|].
      intros cfg H.
      destruct (resize_survives _ _ _ H) as (q0 & q1 & G0 & Lr & _ & G1 & Gc).
      rewrite H0 in G0. injection G0 as <-.
      rewrite C in G1. injection G1 as <-.
      now rewrite Gc, Lr.
    + intros (i & Hi & Hlt).
      assert (Hall : all_ge rs ps = false).
      { destruct (all_ge rs ps) eqn:E; [|reflexivity].
        pose proof (proj1 (all_ge_positions rs ps Hlen) E i Hi). lia. }
      rewrite Hall in C. cbn [negb] in C.
      now rewrite (parseConfig_stops_at_resize gv doc p0 _ H0 C).
  - exact np_greater_equal_all_floats.
  - exact np_greater_equal_all_clash.
  - exact np_greater_equal_all_none.
  - intros gv doc cfg Hnone H.
    destruct (resize_survives _ _ _ H) as (q0 & q1 & _ & Lr & _ & G1 & Gc).
    rewrite Hnone in Lr.
    destruct (check_resize_Ok _ _ G1) as [(_ & ->)|(r & ps & Hr & _)].
    + rewrite Gc. now lookups.
    + congruence.
Qed.

Lemma resize_against_patch_size_witness :
  parseConfig "0.0.8" (store "resize" (int_list [64; 64]) sample_document)
  = Exit msg_resize
  /\ (exists cfg,
         parseConfig "0.0.8"
           (store "resize" (int_list [128; 128])
              (store "patch_size" (int_list [64; 64]) sample_document)) = Ok cfg
         /\ lookup "resize" cfg = Some (int_list [128; 128]))
  /\ parseConfig "0.0.8" (store "resize" VNone sample_document) = Raise TypeError
  /\ (exists cfg, parseConfig "0.0.8" sample_document = Ok cfg
                  /\ lookup "resize" cfg = Some VNone).
Proof.
  destruct resize_against_patch_size
    as (Hgeneral & Hstated & _ & _ & Hnone & Habsent).
  split; [|split; [|split]].
  - refine (proj2 (Hstated "0.0.8"
                     (store "resize" (int_list [64; 64]) sample_document)
                     (store "psize" (int_list [128; 128])
                        (store "resize" (int_list [64; 64]) sample_document))
                     [64; 64] [128; 128] _ _ _ _ _ _) _).
    + vm_compute; reflexivity.
    + vm_compute; reflexivity.
    + vm_compute; reflexivity.
    + reflexivity.
    + repeat (apply Forall_cons; [reflexivity|]); apply Forall_nil.
    + repeat (apply Forall_cons; [reflexivity|]); apply Forall_nil.
    + exists 0%nat. simpl. lia.
  - eexists. split; [vm_compute; reflexivity|].
    refine (proj2 (proj1 (Hstated "0.0.8"
                     (store "resize" (int_list [128; 128])
                        (store "patch_size" (int_list [64; 64]) sample_document))
                     (store "psize" (int_list [64; 64])
                        (store "resize" (int_list [128; 128])
                           (store "patch_size" (int_list [64; 64]) sample_document)))
                     [128; 128] [64; 64] _ _ _ _ _ _) _) _ _).
    + vm_compute; reflexivity.
    + vm_compute; reflexivity.
    + vm_compute; reflexivity.
    + reflexivity.
    + repeat (apply Forall_cons; [reflexivity|]); apply Forall_nil.
    + repeat (apply Forall_cons; [reflexivity|]); apply Forall_nil.
    + intros [|[|i]] Hi; simpl in *; lia.
    + vm_compute; reflexivity.
  - refine (proj2 (proj2 (Hgeneral "0.0.8"
                     (store "resize" VNone sample_document)
                     (store "psize" (int_list [128; 128])
                        (store "resize" VNone sample_document))
                     VNone (int_list [128; 128]) _ _ _)) TypeError _).
    + vm_compute; reflexivity.
    + vm_compute; reflexivity.
    + vm_compute; reflexivity.
    + apply (Hnone [128; 128]); [discriminate|].
      repeat (apply Forall_cons; [reflexivity|]); apply Forall_nil.
  - eexists. split; [vm_compute; reflexivity|].
    refine (Habsent "0.0.8" sample_document _ _ _); vm_compute; reflexivity.
Defined.

(** C4, where the claim as written fails.  In [rounded_document] the first
    entry of [resize] is one short of the first entry of [patch_size], and
    the run returns all the same, handing [resize] back: beside the float
    3.5 the integers are compared as binary64, where 2^53 + 1 is 2^53.  In
    [longer_resize] the entries of [resize] are below those of [patch_size]
    and the run does not exit with the message about [resize]: it dies of
    the [ValueError] of an impossible broadcast. *)
Theorem resize_short_of_patch_size_returns :
  lookup "resize" rounded_document
  = Some (VList [VInt 9007199254740992; VFloat 3.5])
  /\ lookup "patch_size" rounded_document
     = Some (VList [VInt 9007199254740993; VInt 3])
  /\ 9007199254740992 < 9007199254740993
  /\ (exists cfg,
         parseConfig "0.0.8" rounded_document = Ok cfg
         /\ lookup "resize" cfg = Some (VList [VInt 9007199254740992; VFloat 3.5]))
  /\ lookup "resize" longer_resize = Some (int_list [64; 64; 64])
  /\ lookup "patch_size" longer_resize = Some (int_list [128; 128])
  /\ parseConfig "0.0.8" longer_resize = Raise ValueError.
Proof.
  split; [reflexivity|]. split; [reflexivity|]. split; [lia|].
  split; [eexists; split; vm_compute; reflexivity|].
  split; [reflexivity|]. split; [reflexivity|].
  vm_compute. reflexivity.
Qed.
